(** * Noyis Foods point-of-sale front-end: a shallow embedding and its properties

    The development follows the TypeScript sources:
    - [AdminDashboard] (date extraction, selectors, KPI roll-up, six-month
      trend, filtered listing, pagination, CSV export, row actions),
    - [RevenueChart] (month-over-month delta text and its colour),
    - [AppContext] (offline session cache, login and logout, the auth and
      snapshot listeners, admin users, sale writes against the store),
    - [SalesForm] (the form, its events, price and total of a submitted
      sale),
    - [App] and [SideMenu] (the views and who is offered them),
    - [ProductsAdmin] (the catalog and its handlers).

    Part I holds the embedding, Part II the lemmas and theorems, Part III
    further properties that run across the components.

    Numbers.  Sale amounts, quantities and counters are whole numbers far
    below 2^53, where binary64 addition and multiplication are exact; they are
    modelled in [Z].  [RevenueChart] divides, so it is modelled on binary64
    itself ([PrimFloat]).  Strings are byte strings; the two non-ASCII glyphs
    of the delta text appear as their UTF-8 bytes.

    Platform.  What the sources take from the platform without defining it
    is a parameter: the locale's collation ([localeCompare]), the integer
    parser ([parseInt]), the SHA-256 digest, [trim] and [toISOString]. *)

From Stdlib Require Import ZArith String Ascii List Floats DecimalString.
From Stdlib Require Import DecimalZ DecimalPos.
From Stdlib Require Import Sorted Permutation Lia.
From stdpp Require Import gmap strings list.

Local Open Scope string_scope.
Local Open Scope Z_scope.

(* ===================================================================== *)
(** * Part I: the embedding                                               *)
(* ===================================================================== *)

(** ** The fragment of the JavaScript string library the sources use *)
Module JS.

(** The double quote character, U+0022. *)
Definition dquote : ascii := ascii_of_nat 34.

(** [s.split(sep)] for a one-character separator: never the empty list. *)
Fixpoint split (sep : ascii) (s : string) : list string :=
  match s with
  | EmptyString => [EmptyString]
  | String c r =>
      if Ascii.eqb c sep then EmptyString :: split sep r
      else match split sep r with
           | h :: t => String c h :: t
           | [] => [String c EmptyString]
           end
  end.

(** [s.includes(c)] for a one-character needle. *)
Fixpoint includes (c : ascii) (s : string) : bool :=
  match s with
  | EmptyString => false
  | String d r => Ascii.eqb d c || includes c r
  end.

(** [parts.join(sep)]. *)
Fixpoint join (sep : string) (parts : list string) : string :=
  match parts with
  | [] => EmptyString
  | [p] => p
  | p :: rest => p ++ sep ++ join sep rest
  end.

(** Truthiness of a string: only the empty string is falsy. *)
Definition truthy (s : string) : bool :=
  match s with EmptyString => false | _ => true end.

(** [a || b] on possibly-undefined strings. *)
Definition orElse (a : option string) (b : string) : string :=
  match a with
  | Some s => if truthy s then s else b
  | None => b
  end.

(** The class [\d]. *)
Definition isDigit (c : ascii) : bool :=
  let n := nat_of_ascii c in (48 <=? n)%nat && (n <=? 57)%nat.

(** [String(n)] for an integer [n]. *)
Definition ofZ (n : Z) : string := NilZero.string_of_int (Z.to_int n).

(** [s.padStart(2, '0')]. *)
Definition padStart2 (s : string) : string :=
  match s with
  | EmptyString => "00"
  | String c EmptyString => String "0" (String c EmptyString)
  | _ => s
  end.

(** [s.slice(n)] and [s.slice(0, n)] for [0 <= n]. *)
Fixpoint sliceFrom (n : nat) (s : string) : string :=
  match n, s with
  | O, _ => s
  | S n', String _ r => sliceFrom n' r
  | S _, EmptyString => EmptyString
  end.

Fixpoint sliceTo (n : nat) (s : string) : string :=
  match n, s with
  | S n', String c r => String c (sliceTo n' r)
  | _, _ => EmptyString
  end.

(** [arr.slice(start, end)]: negative indices count from the end, both are
    clamped to the array. *)
Definition sliceIndex (len k : Z) : Z :=
  if k <? 0 then Z.max (len + k) 0 else Z.min k len.

Definition slice {A} (start stop : Z) (l : list A) : list A :=
  let len := Z.of_nat (length l) in
  let from := sliceIndex len start in
  let to := sliceIndex len stop in
  take (Z.to_nat (to - from)) (drop (Z.to_nat from) l).

(** [new Date(year, month, 1)] read back through [getFullYear] and
    [getMonth]: a two-digit year counts from 1900 and the month overflows
    into the year. *)
Definition MakeFullYear (y : Z) : Z :=
  if (0 <=? y) && (y <=? 99) then 1900 + y else y.

Definition newDate (year month : Z) : Z * Z :=
  (MakeFullYear year + month / 12, month mod 12).

End JS.

(** ** The records *)

(** A [Date] through its local-calendar getters, in the viewer's time zone:
    [getFullYear], [getMonth] (counted from 0) and [getDate].  A store
    timestamp is carried as the [Date] its [toDate()] returns. *)
Module JSDate.
Record t := mk { getFullYear : Z; getMonth : Z; getDate : Z }.
End JSDate.

(** [type Sale] of the application context.  A field the sources read with
    a fallback ([s.date || ''], [a.time || '']) is optional here. *)
Module Sale.
Record t := mk {
  id : string;
  userId : string;
  userEmail : option string;
  product : string;
  flavor : string;
  unit : Z;
  price : Z;
  total : Z;
  paymentMode : option string;
  date : option string;
  time : option string;
  createdAt : option JSDate.t
}.
End Sale.

(** ** AdminDashboard *)
Module AdminDashboard.

Definition RECORDS_PER_PAGE : Z := 5.

(** [/^\d{4}-\d{2}-\d{2}$/.test(s)]. *)
Definition isYMD (s : string) : bool :=
  match list_ascii_of_string s with
  | [y1; y2; y3; y4; d1; m1; m2; d2; a1; a2] =>
      JS.isDigit y1 && JS.isDigit y2 && JS.isDigit y3 && JS.isDigit y4
      && Ascii.eqb d1 "-" && JS.isDigit m1 && JS.isDigit m2
      && Ascii.eqb d2 "-" && JS.isDigit a1 && JS.isDigit a2
  | _ => false
  end.

(** Helper: extract YYYY-MM-DD from any date format. *)
Definition extractDateOnly (s : Sale.t) : string :=
  let dateStr := JS.orElse (Sale.date s) "" in
  if JS.truthy dateStr && isYMD dateStr then dateStr
  else if JS.truthy dateStr && JS.includes "T" dateStr then
    hd "" (JS.split "T" dateStr)
  else if negb (JS.truthy dateStr) then
    match Sale.createdAt s with
    | Some ca =>
        let y := JSDate.getFullYear ca in
        let m := JS.padStart2 (JS.ofZ (JSDate.getMonth ca + 1)) in
        let dy := JS.padStart2 (JS.ofZ (JSDate.getDate ca)) in
        JS.ofZ y ++ "-" ++ m ++ "-" ++ dy
    | None => ""
    end
  else "".

(** The component's own state: the date cursor and the current page. *)
Record State := mkState {
  selectedYear : string;
  selectedMonth : string;
  selectedDay : string;
  currentPage : Z
}.

Definition selectedDateStr (st : State) : string :=
  selectedYear st ++ "-" ++ selectedMonth st ++ "-" ++ selectedDay st.

(** *** KPI roll-up *)
Record Kpi := mkKpi {
  dayTotal : Z; dayCount : Z;
  monthTotal : Z; monthCount : Z;
  yearTotal : Z; yearCount : Z
}.

Definition kpi0 : Kpi := mkKpi 0 0 0 0 0 0.

(** One turn of the loop over the dataset. *)
Definition kpiStep (st : State) (k : Kpi) (s : Sale.t) : Kpi :=
  let dateStr := extractDateOnly s in
  if negb (JS.truthy dateStr) then k
  else
    let t := Sale.total s in
    let parts := JS.split "-" dateStr in
    let recordYear := parts !! 0%nat in
    let recordMonth := parts !! 1%nat in
    let recordDay := parts !! 2%nat in
    if bool_decide (recordYear = Some (selectedYear st)) then
      let k1 := mkKpi (dayTotal k) (dayCount k) (monthTotal k) (monthCount k)
                  (yearTotal k + t) (yearCount k + 1) in
      if bool_decide (recordMonth = Some (selectedMonth st)) then
        let k2 := mkKpi (dayTotal k1) (dayCount k1)
                    (monthTotal k1 + t) (monthCount k1 + 1)
                    (yearTotal k1) (yearCount k1) in
        if bool_decide (recordDay = Some (selectedDay st)) then
          mkKpi (dayTotal k2 + t) (dayCount k2 + 1)
            (monthTotal k2) (monthCount k2) (yearTotal k2) (yearCount k2)
        else k2
      else k1
    else k.

Definition kpis (dataset : list Sale.t) (st : State) : Kpi :=
  fold_left (kpiStep st) dataset kpi0.

(** *** Six-month trend *)
Definition monthOptions : list (string * string) :=
  [ ("01", "January"); ("02", "February"); ("03", "March"); ("04", "April");
    ("05", "May"); ("06", "June"); ("07", "July"); ("08", "August");
    ("09", "September"); ("10", "October"); ("11", "November");
    ("12", "December") ].

(** Helper to get month name from number. *)
Definition getMonthName (monthNum : string) : string :=
  match List.find (fun m => String.eqb (fst m) monthNum) monthOptions with
  | Some m => snd m
  | None => monthNum
  end.

Record Point := mkPoint {
  key : string;
  label : string;
  value : Z;
  isCurrent : bool
}.

(** The bucket a record falls in, [None] when the loop skips it. *)
Definition bucketKey (s : Sale.t) : option string :=
  let dateStr := extractDateOnly s in
  if negb (JS.truthy dateStr) then None
  else
    let parts := JS.split "-" dateStr in
    match parts !! 0%nat, parts !! 1%nat with
    | Some year, Some month =>
        if negb (JS.truthy year) || negb (JS.truthy month) then None
        else Some (year ++ "-" ++ month)
    | _, _ => None
    end.

(** One turn of the loop that fills the [Map] of totals. *)
Definition totalsStep (totals : gmap string Z) (s : Sale.t) : gmap string Z :=
  match bucketKey s with
  | None => totals
  | Some key =>
      let amount := Sale.total s in
      <[key := default 0 (totals !! key) + amount]> totals
  end.

Definition monthsToShow : Z := 6.

Definition monthlySeries (now : JSDate.t) (dataset : list Sale.t) : list Point :=
  let totals := fold_left totalsStep dataset ∅ in
  let refDate := JS.newDate (JSDate.getFullYear now) (JSDate.getMonth now) in
  let start := JS.newDate (fst refDate) (snd refDate - (monthsToShow - 1)) in
  List.map
    (fun i =>
       let current := JS.newDate (fst start) (snd start + i) in
       let year := fst current in
       let monthNumber := JS.padStart2 (JS.ofZ (snd current + 1)) in
       let key := JS.ofZ year ++ "-" ++ monthNumber in
       let label :=
         JS.sliceTo 3 (getMonthName monthNumber) ++ " "
         ++ JS.sliceFrom 2 (JS.ofZ year) in
       mkPoint key label (default 0 (totals !! key)) (i =? monthsToShow - 1))
    (seqZ 0 monthsToShow).

(** [series[i]?.value || 0]. *)
Definition valueAt (series : list Point) (i : Z) : Z :=
  if i <? 0 then 0
  else match series !! Z.to_nat i with
       | Some p => if value p =? 0 then 0 else value p
       | None => 0
       end.

Definition currentMonthTotal (now : JSDate.t) (dataset : list Sale.t) : Z :=
  let monthlySeries := monthlySeries now dataset in
  valueAt monthlySeries (Z.of_nat (length monthlySeries) - 1).

Definition previousMonthTotal (now : JSDate.t) (dataset : list Sale.t) : Z :=
  let monthlySeries := monthlySeries now dataset in
  valueAt monthlySeries (Z.of_nat (length monthlySeries) - 2).

(** *** Filtered listing *)

(** [Array.prototype.sort] is stable; so is this insertion sort. *)
Fixpoint insertBy {A} (cmp : A -> A -> Z) (x : A) (l : list A) : list A :=
  match l with
  | [] => [x]
  | y :: r => if cmp x y <=? 0 then x :: y :: r else y :: insertBy cmp x r
  end.

Definition sortBy {A} (cmp : A -> A -> Z) (l : list A) : list A :=
  foldr (insertBy cmp) [] l.

Section Platform.

(** [a.localeCompare(b)]: the collation of the platform's locale, negative
    when [a] sorts first, positive when [b] does.  Nothing is assumed of
    it here; where its order matters a property says what it needs. *)
Variable localeCompare : string -> string -> Z.

(** [parseInt(s, 10)], [None] for [NaN]: the platform's parser, of which
    nothing is assumed. *)
Variable parseInt : string -> option Z.

(** The comparator handed to [sort]: time descending. *)
Definition byTimeDesc (a b : Sale.t) : Z :=
  let timeA := JS.orElse (Sale.time a) "" in
  let timeB := JS.orElse (Sale.time b) "" in
  localeCompare timeB timeA.

Definition filteredRecent (dataset : list Sale.t) (st : State) : list Sale.t :=
  let result :=
    List.filter (fun s => String.eqb (extractDateOnly s) (selectedDateStr st))
      dataset in
  sortBy byTimeDesc result.

(** *** Pagination *)

(** [Math.ceil(n / d)] on whole numbers, [0 < d]. *)
Definition ceilDiv (n d : Z) : Z := - ((- n) / d).

Definition totalPages (dataset : list Sale.t) (st : State) : Z :=
  ceilDiv (Z.of_nat (length (filteredRecent dataset st))) RECORDS_PER_PAGE.

Definition paginatedRecent (dataset : list Sale.t) (st : State) : list Sale.t :=
  let start := (currentPage st - 1) * RECORDS_PER_PAGE in
  let stop := start + RECORDS_PER_PAGE in
  JS.slice start stop (filteredRecent dataset st).

(** *** The events of the component and the pagination-reset effect *)
Inductive Event :=
| SetSelectedYear (y : string)
| SetSelectedMonth (m : string)
| SetSelectedDay (d : string)
| PrevPage
| NextPage
| GoToPage (page : Z).

(** The state setter each handler calls.  The pager is rendered only when
    there is more than one page, and its end buttons are disabled at the
    ends. *)
Definition handle (dataset : list Sale.t) (ev : Event) (st : State) : State :=
  let pages := totalPages dataset st in
  let p := currentPage st in
  let setPage q := mkState (selectedYear st) (selectedMonth st) (selectedDay st) q in
  match ev with
  | SetSelectedYear y => mkState y (selectedMonth st) (selectedDay st) p
  | SetSelectedMonth m => mkState (selectedYear st) m (selectedDay st) p
  | SetSelectedDay d => mkState (selectedYear st) (selectedMonth st) d p
  | PrevPage =>
      if (1 <? pages) && negb (p =? 1) then setPage (Z.max 1 (p - 1)) else st
  | NextPage =>
      if (1 <? pages) && negb (p =? pages) then setPage (Z.min pages (p + 1))
      else st
  | GoToPage page =>
      if (1 <? pages) && (1 <=? page) && (page <=? pages) then setPage page
      else st
  end.

(** [useEffect(() => setCurrentPage(1), [selectedYear, selectedMonth,
    selectedDay])]: runs after a render in which a dependency changed. *)
Definition depsChanged (before after : State) : bool :=
  negb (String.eqb (selectedYear before) (selectedYear after)
        && String.eqb (selectedMonth before) (selectedMonth after)
        && String.eqb (selectedDay before) (selectedDay after)).

Definition resetEffect (before after : State) : State :=
  if depsChanged before after then
    mkState (selectedYear after) (selectedMonth after) (selectedDay after) 1
  else after.

Definition step (dataset : list Sale.t) (ev : Event) (st : State) : State :=
  resetEffect st (handle dataset ev st).

(** The first render: the cursor is today, the page is 1. *)
Definition initial (now : JSDate.t) : State :=
  mkState (JS.ofZ (JSDate.getFullYear now))
    (JS.padStart2 (JS.ofZ (JSDate.getMonth now + 1)))
    (JS.padStart2 (JS.ofZ (JSDate.getDate now)))
    1.

(** *** The options of the three selectors *)

(** Generate available days (1-31). *)
Definition dayOptions : list (string * string) :=
  List.map (fun d => (JS.padStart2 (JS.ofZ d), JS.ofZ d)) (seqZ 1 31).

(** [set.add(x)] on a [Set] kept in insertion order. *)
Definition setAdd (x : Z) (set : list Z) : list Z :=
  if bool_decide (x ∈ set) then set else set ++ [x].

(** Generate available years from dataset + future. *)
Definition years (now : JSDate.t) (dataset : list Sale.t) : list string :=
  let thisYear := JSDate.getFullYear now in
  let yearsSet := setAdd thisYear [] in
  let yearsSet :=
    fold_left (fun set y => if 2022 <=? y then setAdd y set else set)
      (seqZ (thisYear - 5) 7) yearsSet in
  let yearsSet :=
    fold_left
      (fun set s =>
         let dateStr := extractDateOnly s in
         if JS.truthy dateStr then
           match parseInt (hd "" (JS.split "-" dateStr)) with
           | Some year => if 2022 <=? year then setAdd year set else set
           | None => set
           end
         else set)
      dataset yearsSet in
  List.map JS.ofZ (sortBy (fun a b => b - a) yearsSet).

(** An event the rendered page offers: a selector gives one of its
    options. *)
Definition offered (now : JSDate.t) (dataset : list Sale.t) (ev : Event) : Prop :=
  match ev with
  | SetSelectedYear y => In y (years now dataset)
  | SetSelectedMonth m => In m (List.map fst monthOptions)
  | SetSelectedDay d => In d (List.map fst dayOptions)
  | PrevPage | NextPage | GoToPage _ => True
  end.

(** The states the component can be in: the first render, then any
    offered event, over whatever dataset is current when it happens. *)
Inductive Reachable (now : JSDate.t) : State -> Prop :=
| reach_initial : Reachable now (initial now)
| reach_step dataset ev st :
    Reachable now st -> offered now dataset ev ->
    Reachable now (step dataset ev st).

(** Everything one render derives from the props and the state. *)
Record View := mkView {
  vKpis : Kpi;
  vSeries : list Point;
  vFiltered : list Sale.t;
  vPage : list Sale.t;
  vTotalPages : Z
}.

Definition render (now : JSDate.t) (dataset : list Sale.t) (st : State) : View :=
  mkView (kpis dataset st) (monthlySeries now dataset)
    (filteredRecent dataset st) (paginatedRecent dataset st)
    (totalPages dataset st).

(** *** CSV export *)

(** A value handed to [esc]: a string, a number, or [undefined]/[null]. *)
Inductive Field :=
| FString (s : string)
| FNumber (n : Z)
| FNullish.

(** [String(v ?? '')]. *)
Definition fieldText (v : Field) : string :=
  match v with
  | FString s => s
  | FNumber n => JS.ofZ n
  | FNullish => ""
  end.

(** The global replace of [esc]: every double quote becomes two. *)
Fixpoint doubleQuotes (s : string) : string :=
  match s with
  | EmptyString => EmptyString
  | String c r =>
      if Ascii.eqb c JS.dquote
      then String JS.dquote (String JS.dquote (doubleQuotes r))
      else String c (doubleQuotes r)
  end.

Definition esc (v : Field) : string :=
  String JS.dquote (doubleQuotes (fieldText v) ++ String JS.dquote EmptyString).

(** Does [s] start with [\d{2}:\d{2}]? *)
Definition startsHHMM (s : string) : bool :=
  match s with
  | String a (String b (String c (String d (String e _)))) =>
      JS.isDigit a && JS.isDigit b && Ascii.eqb c ":"
      && JS.isDigit d && JS.isDigit e
  | _ => false
  end.

(** [t.match(/(\d{2}):(\d{2})/)]: the leftmost match, as matched. *)
Fixpoint matchHHMM (s : string) : option string :=
  match s with
  | EmptyString => None
  | String _ r => if startsHHMM s then Some (JS.sliceTo 5 s) else matchHHMM r
  end.

Definition formatTime (t : string) : string :=
  if negb (JS.truthy t) then ""
  else match matchHHMM t with
       | Some hhmm => hhmm
       | None => t
       end.

Definition header : list string :=
  [ "id"; "date"; "time"; "product"; "flavor"; "unit"; "price"; "total";
    "paymentMode"; "userId"; "userEmail" ].

Definition dateCell (r : Sale.t) : string :=
  match Sale.date r with
  | Some d =>
      if JS.truthy d
      then "=" ++ String JS.dquote (d ++ String JS.dquote EmptyString)
      else ""
  | None => ""
  end.

(** The values of one row, before escaping. *)
Definition rowFields (r : Sale.t) : list Field :=
  [ FString (Sale.id r);
    FString (dateCell r);
    FString (formatTime (JS.orElse (Sale.time r) ""));
    FString (Sale.product r);
    FString (JS.orElse (Some (Sale.flavor r)) "");
    FNumber (Sale.unit r);
    FNumber (Sale.price r);
    FNumber (Sale.total r);
    FString (JS.orElse (Sale.paymentMode r) "POS");
    FString (JS.orElse (Some (Sale.userId r)) "");
    FString (JS.orElse (Sale.userEmail r) "") ].

Definition newline : string := String (ascii_of_nat 10) EmptyString.

(** The text of the exported file; [None] is the alert shown when there is
    nothing to export. *)
Definition exportCSV (dataset : list Sale.t) (st : State) : option string :=
  let rows := filteredRecent dataset st in
  match rows with
  | [] => None
  | _ =>
      Some (JS.join newline
              (JS.join "," header
               :: List.map (fun r => JS.join "," (List.map esc (rowFields r))) rows))
  end.

End Platform.

(** Reading one quoted cell back, as a CSV reader does: the cell opens and
    closes with a double quote, and inside it a doubled double quote stands
    for one.  [None] when the text is not a well-formed quoted cell.  The
    sources hold no reader; this one is the inverse the export is written
    for. *)
Fixpoint unescBody (s : string) : option string :=
  match s with
  | EmptyString => None
  | String c r =>
      if Ascii.eqb c JS.dquote then
        match r with
        | EmptyString => Some EmptyString
        | String d r' =>
            if Ascii.eqb d JS.dquote
            then option_map (String JS.dquote) (unescBody r')
            else None
        end
      else option_map (String c) (unescBody r)
  end.

Definition unesc (cell : string) : option string :=
  match cell with
  | String c r => if Ascii.eqb c JS.dquote then unescBody r else None
  | EmptyString => None
  end.

End AdminDashboard.

(** ** RevenueChart *)
Module RevenueChart.

(** [x.toFixed(1)] on binary64.  A finite [x] is [m * 2^e] exactly; the
    result is the integer [n] nearest to [10 * x], the larger one on a tie,
    written with one digit after the point.  From [10^21] on the engine
    switches to exponent notation, which is not modelled: [None]. *)
Definition tenths (m : positive) (e : Z) : Z :=
  if 0 <=? e then 10 * Z.pos m * 2 ^ e
  else (20 * Z.pos m + 2 ^ (- e)) / 2 ^ (- e + 1).

Definition atLeast1e21 (m : positive) (e : Z) : bool :=
  if 0 <=? e then 10 ^ 21 <=? Z.pos m * 2 ^ e
  else 10 ^ 21 * 2 ^ (- e) <=? Z.pos m.

Definition fixed1 (n : Z) : string :=
  JS.ofZ (n / 10) ++ "." ++ JS.ofZ (n mod 10).

Definition toFixed1 (x : float) : option string :=
  match Prim2SF x with
  | S754_nan => Some "NaN"
  | S754_infinity s => Some (if s then "-Infinity" else "Infinity")
  | S754_zero _ => Some "0.0"
  | S754_finite s m e =>
      if atLeast1e21 m e then None
      else Some ((if s then "-" else "") ++ fixed1 (tenths m e))
  end.

Definition up : string := "▲".
Definition down : string := "▼".
Definition neutralCopy : string := "— vs last month".
Definition newCopy : string := "▲ New vs last month".

(** The text under the current month's figure. *)
Definition deltaCopy (previousMonthTotal currentMonthTotal : float)
  : option string :=
  let delta := PrimFloat.sub currentMonthTotal previousMonthTotal in
  let deltaPositive := PrimFloat.leb 0 delta in
  if PrimFloat.eqb previousMonthTotal 0 && PrimFloat.ltb 0 currentMonthTotal
  then Some newCopy
  else if PrimFloat.eqb previousMonthTotal 0 && PrimFloat.eqb currentMonthTotal 0
  then Some neutralCopy
  else if PrimFloat.ltb 0 previousMonthTotal then
    let deltaPercent :=
      PrimFloat.mul (PrimFloat.div delta previousMonthTotal) 100 in
    option_map
      (fun pct =>
         (if deltaPositive then up else down) ++ " " ++ pct
         ++ "% vs last month")
      (toFixed1 (PrimFloat.abs deltaPercent))
  else Some neutralCopy.

(** The colour of that text. *)
Definition deltaColor (previousMonthTotal currentMonthTotal : float) : string :=
  let delta := PrimFloat.sub currentMonthTotal previousMonthTotal in
  let deltaPositive := PrimFloat.leb 0 delta in
  let neutralDelta :=
    PrimFloat.eqb previousMonthTotal 0 && PrimFloat.eqb currentMonthTotal 0 in
  if neutralDelta then "#94a3b8"
  else if deltaPositive then "#0f9d58" else "#dc2626".
End RevenueChart.

(** ** AppContext *)
Module AppContext.

Definition OFFLINE_SESSION_KEY : string := "offlineSessionCache".

(** The user object of the auth provider, and the minimal record kept of
    it: uid, email and display name. *)
Module User.
Record t := mk {
  uid : string;
  email : option string;
  displayName : option string
}.
End User.

(** [type CachedSession]. *)
Module CachedSession.
Record t := mk {
  email : string;
  salt : list Z;
  hash : string;
  user : User.t
}.
End CachedSession.

(** What a key of [localStorage] holds.  The two records are written with
    [JSON.stringify] and read with [JSON.parse], which give a record of
    strings, nulls and small numbers back unchanged; anything else under
    the key is text [JSON.parse] fails on. *)
Inductive Stored :=
| StoredSession (c : CachedSession.t)
| StoredUser (u : User.t)
| StoredText (raw : string).

(** The platform: a browser or not, with [TextEncoder] or not, with
    [window.crypto.subtle] or not. *)
Record Env := mkEnv {
  isBrowser : bool;
  hasTextEncoder : bool;
  hasSubtle : bool
}.

(** [x || null] on an optional string. *)
Definition orNull (x : option string) : option string :=
  match x with
  | Some s => if JS.truthy s then Some s else None
  | None => None
  end.

Section Digest.

(** [sha256Hex salt value]: the lower-case hex of the SHA-256 digest of the
    salt bytes followed by the UTF-8 bytes of [value], as the platform
    computes it. *)
Variable sha256Hex : list Z -> string -> string.

Definition hashWithSalt (env : Env) (value : string) (salt : list Z) : string :=
  if negb (hasTextEncoder env) || negb (hasSubtle env) then value
  else sha256Hex salt value.

(** [salt] is what [getRandomValues] returned. *)
Definition persistOfflineSession (env : Env) (salt : list Z)
    (email password : string) (user : User.t)
    (localStorage : gmap string Stored) : gmap string Stored :=
  if negb (isBrowser env) || negb (hasSubtle env) then localStorage
  else
    let hash := hashWithSalt env password salt in
    let payload :=
      CachedSession.mk email salt hash
        (User.mk (User.uid user) (orNull (User.email user))
           (orNull (User.displayName user))) in
    <[OFFLINE_SESSION_KEY := StoredSession payload]> localStorage.

Definition tryOfflineSessionLogin (env : Env)
    (localStorage : gmap string Stored) (email password : string)
  : option User.t :=
  if negb (isBrowser env) then None
  else
    match localStorage !! OFFLINE_SESSION_KEY with
    | None => None
    | Some (StoredSession session) =>
        if negb (String.eqb (CachedSession.email session) email) then None
        else
          let salt := CachedSession.salt session in
          let hash := hashWithSalt env password salt in
          if negb (String.eqb hash (CachedSession.hash session)) then None
          else Some (CachedSession.user session)
    | Some _ => None
    end.

(** The state of the provider that [login] reads and writes. *)
Record Ctx := mkCtx {
  user : option User.t;
  error : option string;
  toasts : list (string * string);
  isOnline : bool;
  localStorage : gmap string Stored
}.

(** What [signInWithEmailAndPassword] answers. *)
Inductive SignIn :=
| SignedIn (credentialUser : User.t)
| SignInFailed (message : option string).

Definition offlineLoginError : string :=
  "Offline mode requires a prior successful online login.".

(** Login with email and password (supports offline after initial sync).
    [tryOfflineSessionLogin] catches what it awaits and [localStorage] is
    taken to be readable, so the [catch] of the offline branch is never
    entered. *)
Definition login (env : Env) (signIn : SignIn) (salt : list Z)
    (email password : string) (c : Ctx) : Ctx :=
  if negb (isOnline c) then
    match tryOfflineSessionLogin env (localStorage c) email password with
    | Some offlineUser =>
        mkCtx (Some offlineUser) None
          (toasts c ++ [("Signed in (offline mode)", "success")])
          (isOnline c) (localStorage c)
    | None =>
        mkCtx (user c) (Some offlineLoginError) (toasts c) (isOnline c)
          (localStorage c)
    end
  else
    match signIn with
    | SignedIn credentialUser =>
        mkCtx (user c) None (toasts c) (isOnline c)
          (persistOfflineSession env salt email password credentialUser
             (localStorage c))
    | SignInFailed message =>
        mkCtx (user c) (Some (JS.orElse message "Login failed")) (toasts c)
          (isOnline c) (localStorage c)
    end.

End Digest.

(** *** The sales collection of the store *)

(** A document of the [sales] collection; its id is its key. *)
Module SaleDoc.
Record t := mk {
  userId : string;
  userEmail : option string;
  product : string;
  flavor : string;
  unit : Z;
  price : Z;
  total : Z;
  paymentMode : string;
  date : string;
  time : string;
  createdAt : option JSDate.t
}.
End SaleDoc.

(** [Omit<Sale, 'id' | 'userId' | 'date'>] as [addSale] reads it. *)
Module NewSale.
Record t := mk {
  product : string;
  flavor : string;
  unit : Z;
  price : Z;
  total : Z;
  paymentMode : option string
}.
End NewSale.

(** [Partial<Sale>]: any field may be given, also those [updateSale] does
    not pass on. *)
Module Updates.
Record t := mk {
  id : option string;
  userId : option string;
  userEmail : option (option string);
  product : option string;
  flavor : option string;
  unit : option Z;
  price : option Z;
  total : option Z;
  paymentMode : option string;
  date : option string;
  time : option string;
  createdAt : option (option JSDate.t)
}.
End Updates.

(** The object handed to [updateDoc]. *)
Module Payload.
Record t := mk {
  product : option string;
  flavor : option string;
  unit : option Z;
  price : option Z;
  total : option Z;
  paymentMode : option string;
  date : option string;
  time : option string
}.
End Payload.

(** The local date and time [addSale] reads from [new Date()]. *)
Record Clock := mkClock {
  year : Z; month : Z; day : Z; hours : Z; minutes : Z; seconds : Z
}.

(** The store as the provider sees it: the collection, the signed-in user
    and the last error. *)
Record Store := mkStore {
  sales : gmap string SaleDoc.t;
  currentUser : option User.t;
  lastError : option string
}.

(** [updateDoc(ref, payload)]: the fields of the payload replace those of
    the document, the others stay. *)
Definition mergePayload (payload : Payload.t) (d : SaleDoc.t) : SaleDoc.t :=
  SaleDoc.mk (SaleDoc.userId d) (SaleDoc.userEmail d)
    (default (SaleDoc.product d) (Payload.product payload))
    (default (SaleDoc.flavor d) (Payload.flavor payload))
    (default (SaleDoc.unit d) (Payload.unit payload))
    (default (SaleDoc.price d) (Payload.price payload))
    (default (SaleDoc.total d) (Payload.total payload))
    (default (SaleDoc.paymentMode d) (Payload.paymentMode payload))
    (default (SaleDoc.date d) (Payload.date payload))
    (default (SaleDoc.time d) (Payload.time payload))
    (SaleDoc.createdAt d).

(** Add a new sale to the store.  [newId] is the id the store assigns,
    [serverTime] what [serverTimestamp()] resolves to, [accepted] whether
    the write goes through. *)
Definition addSale (now : Clock) (newId : string) (serverTime : JSDate.t)
    (accepted : bool) (sale : NewSale.t) (s : Store) : Store :=
  match currentUser s with
  | None => mkStore (sales s) (currentUser s) (Some "User not authenticated")
  | Some user =>
      let dateOnly :=
        JS.ofZ (year now) ++ "-" ++ JS.padStart2 (JS.ofZ (month now + 1))
        ++ "-" ++ JS.padStart2 (JS.ofZ (day now)) in
      let timeOnly :=
        JS.padStart2 (JS.ofZ (hours now)) ++ ":"
        ++ JS.padStart2 (JS.ofZ (minutes now)) ++ ":"
        ++ JS.padStart2 (JS.ofZ (seconds now)) in
      let doc :=
        SaleDoc.mk (User.uid user) (orNull (User.email user))
          (NewSale.product sale) (NewSale.flavor sale) (NewSale.unit sale)
          (NewSale.price sale) (NewSale.total sale)
          (JS.orElse (NewSale.paymentMode sale) "POS")
          dateOnly timeOnly (Some serverTime) in
      if accepted
      then mkStore (<[newId := doc]> (sales s)) (currentUser s) None
      else mkStore (sales s) (currentUser s) (Some "Failed to save sale")
  end.

(** Only pass primitive fields expected by the store. *)
Definition payloadOf (updates : Updates.t) : Payload.t :=
  Payload.mk (Updates.product updates) (Updates.flavor updates)
    (Updates.unit updates) (Updates.price updates) (Updates.total updates)
    (Updates.paymentMode updates) (Updates.date updates)
    (Updates.time updates).

(** Update an existing sale.  The write fails when the store rejects it or
    holds no document under [id]. *)
Definition updateSale (accepted : bool) (id : string) (updates : Updates.t)
    (s : Store) : Store :=
  let payload := payloadOf updates in
  match sales s !! id with
  | Some d =>
      if accepted
      then mkStore (<[id := mergePayload payload d]> (sales s)) (currentUser s) None
      else mkStore (sales s) (currentUser s) (Some "Failed to update sale")
  | None => mkStore (sales s) (currentUser s) (Some "Failed to update sale")
  end.

(** Delete a sale by id.  Deleting a document the store does not hold is
    no failure. *)
Definition deleteSale (accepted : bool) (id : string) (s : Store) : Store :=
  if accepted
  then mkStore (delete id (sales s)) (currentUser s) None
  else mkStore (sales s) (currentUser s) (Some "Failed to delete sale").

(** *** The session around [login] *)

Definition OFFLINE_USER_KEY : string := "offlineUser".

(** [handleOnline] and [handleOffline], the listeners of the connectivity
    events. *)
Definition handleOnline (c : Ctx) : Ctx :=
  mkCtx (user c) (error c) (toasts c) true (localStorage c).

Definition handleOffline (c : Ctx) : Ctx :=
  mkCtx (user c) (error c) (toasts c) false (localStorage c).

(** The provider's state that [logout] and the auth listener touch: the
    session, the user's sales as last received, and the loading flag. *)
Record Provider := mkProvider {
  ctx : Ctx;
  salesState : list Sale.t;
  loading : bool
}.

(** What [firebaseSignOut] answers. *)
Inductive SignOut :=
| SignedOut
| SignOutFailed (message : option string).

(** Logout. *)
Definition logout (env : Env) (signOut : SignOut) (p : Provider) : Provider :=
  let c := ctx p in
  match signOut with
  | SignedOut =>
      let storage :=
        if isBrowser env
        then delete OFFLINE_USER_KEY (delete OFFLINE_SESSION_KEY (localStorage c))
        else localStorage c in
      mkProvider (mkCtx (user c) None (toasts c) (isOnline c) storage) []
        (loading p)
  | SignOutFailed message =>
      mkProvider
        (mkCtx (user c) (Some (JS.orElse message "Logout failed")) (toasts c)
           (isOnline c) (localStorage c))
        (salesState p) (loading p)
  end.

(** The listener given to [onAuthStateChanged].  It is created once, on
    mount, and reads the [isOnline] of that render: [mountedOnline].  The
    result is [None] where [JSON.parse] gives an object that is not a user
    record, which the provider never stores under this key. *)
Definition onAuthStateChanged (mountedOnline : bool)
    (currentUser : option User.t) (p : Provider) : option Provider :=
  let c := ctx p in
  let set user storage :=
    Some (mkProvider (mkCtx user (error c) (toasts c) (isOnline c) storage)
            (salesState p) false) in
  match currentUser with
  | Some u =>
      let userObj := User.mk (User.uid u) (User.email u) (User.displayName u) in
      set (Some u) (<[OFFLINE_USER_KEY := StoredUser userObj]> (localStorage c))
  | None =>
      if negb mountedOnline then
        match localStorage c !! OFFLINE_USER_KEY with
        | Some (StoredUser offlineUser) => set (Some offlineUser) (localStorage c)
        | Some (StoredText _) =>
            set None (delete OFFLINE_USER_KEY (localStorage c))
        | Some (StoredSession _) => None
        | None => set None (localStorage c)
        end
      else set None (delete OFFLINE_USER_KEY (localStorage c))
  end.

(** *** Admin users *)
Section Admin.

(** [s.trim()], as the platform does it. *)
Variable trim : string -> string.

(** Determine admin users from env (comma separated emails). *)
Definition adminEmails (adminEmailsRaw : string) : list string :=
  List.filter JS.truthy (List.map trim (JS.split "," adminEmailsRaw)).

Definition isAdmin (adminEmailsRaw : string) (user : option User.t) : bool :=
  match user with
  | Some u =>
      match User.email u with
      | Some email =>
          JS.truthy email
          && existsb (String.eqb email) (adminEmails adminEmailsRaw)
      | None => false
      end
  | None => false
  end.

End Admin.

(** *** The snapshot listener *)

(** The data of a document as the store hands it over: any field may be
    missing, and the date is a string or a timestamp. *)
Module DocData.
Record t := mk {
  userId : string;
  userEmail : option string;
  product : string;
  flavor : string;
  unit : Z;
  price : Z;
  total : Z;
  paymentMode : option string;
  date : option (string + JSDate.t);
  time : option string;
  createdAt : option JSDate.t
}.
End DocData.

(** The data of a document this application wrote. *)
Definition dataOf (d : SaleDoc.t) : DocData.t :=
  DocData.mk (SaleDoc.userId d) (SaleDoc.userEmail d) (SaleDoc.product d)
    (SaleDoc.flavor d) (SaleDoc.unit d) (SaleDoc.price d) (SaleDoc.total d)
    (Some (SaleDoc.paymentMode d)) (Some (inl (SaleDoc.date d)))
    (Some (SaleDoc.time d)) (SaleDoc.createdAt d).

Section Snapshot.

(** [d.toISOString()], as the platform writes it. *)
Variable toISOString : JSDate.t -> string.

(** prefer explicit [time], otherwise fall back to [createdAt] timestamp.
    An ISO text always holds a [T]; for one without, where the source
    fails, this gives the empty text. *)
Definition timeFromCreatedAt (createdAt : option JSDate.t) : string :=
  match createdAt with
  | Some ca =>
      match JS.split "T" (toISOString ca) !! 1%nat with
      | Some t => hd "" (JS.split "Z" t)
      | None => ""
      end
  | None => ""
  end.

(** Ensure date is always in YYYY-MM-DD format. *)
Definition dateStrOf (date : option (string + JSDate.t)) : option string :=
  match date with
  | Some (inr d) =>
      let y := JSDate.getFullYear d in
      let m := JS.padStart2 (JS.ofZ (JSDate.getMonth d + 1)) in
      let dy := JS.padStart2 (JS.ofZ (JSDate.getDate d)) in
      Some (JS.ofZ y ++ "-" ++ m ++ "-" ++ dy)
  | Some (inl s) =>
      if JS.includes "T" s then Some (hd "" (JS.split "T" s)) else Some s
  | None => None
  end.

(** The [Sale] pushed for one document of a snapshot. *)
Definition toSale (id : string) (data : DocData.t) : Sale.t :=
  Sale.mk id (DocData.userId data) (orNull (DocData.userEmail data))
    (DocData.product data) (DocData.flavor data) (DocData.unit data)
    (DocData.price data) (DocData.total data)
    (Some (JS.orElse (DocData.paymentMode data) "POS"))
    (dateStrOf (DocData.date data))
    (Some (JS.orElse (DocData.time data)
             (JS.orElse (Some (timeFromCreatedAt (DocData.createdAt data))) "")))
    (DocData.createdAt data).

(** The list a snapshot listener sets, from the documents in the order the
    store delivers them. *)
Definition salesData (docs : list (string * DocData.t)) : list Sale.t :=
  List.map (fun doc => toSale (fst doc) (snd doc)) docs.

End Snapshot.

End AppContext.

(** ** SalesForm *)
Module SalesForm.

Record Flavor := mkFlavor { flavorName : string; flavorPrice : Z }.

Record Product := mkProduct {
  productId : string;
  productName : string;
  flavors : list Flavor
}.

(** Fallback products if the store is down. *)
Definition FALLBACK_PRODUCTS : list Product :=
  [ mkProduct "yoghurt" "Yoghurt"
      [ mkFlavor "Plain" 850; mkFlavor "Strawberry" 950; mkFlavor "Mango" 970 ];
    mkProduct "ice_cream" "Ice Cream"
      [ mkFlavor "Vanilla" 1200; mkFlavor "Chocolate" 1350;
        mkFlavor "Caramel" 1380 ];
    mkProduct "snack_pack" "Snack Pack"
      [ mkFlavor "Spicy" 730; mkFlavor "Salted" 650; mkFlavor "Sweet" 680 ] ].

(** The form state. *)
Record Form := mkForm {
  product : string;
  flavor : string;
  unit : Z;
  paymentMode : string;
  submitted : bool
}.

(** Auto price calculation - get from the selected flavor's direct price. *)
Definition price (products : list Product) (f : Form) : Z :=
  match List.find
          (fun p => String.eqb (productId p) (product f)
                    || String.eqb (productName p) (product f)) products with
  | None => 0
  | Some selectedProduct =>
      match List.find (fun fl => String.eqb (flavorName fl) (flavor f))
              (flavors selectedProduct) with
      | Some selectedFlavor => flavorPrice selectedFlavor
      | None => 0
      end
  end.

(** Auto total. *)
Definition total (products : list Product) (f : Form) : Z :=
  price products f * unit f.

(** Form is valid when no errors. *)
Definition isValid (f : Form) : bool :=
  JS.truthy (product f) && JS.truthy (flavor f) && negb (unit f <? 1)
  && JS.truthy (paymentMode f).

(** What [handleSubmit] calls on the application context. *)
Inductive Call :=
| NoCall
| CallUpdateSale (id : string) (updates : AppContext.Updates.t)
| CallAddSale (sale : AppContext.NewSale.t).

Definition handleSubmit (products : list Product) (editingSale : option Sale.t)
    (f : Form) : Call :=
  if negb (isValid f) then NoCall
  else
    let price := price products f in
    let total := total products f in
    match editingSale with
    | Some e =>
        if JS.truthy (Sale.id e) then
          CallUpdateSale (Sale.id e)
            (AppContext.Updates.mk None None None
               (Some (product f)) (Some (flavor f)) (Some (unit f))
               (Some price) (Some total) (Some (paymentMode f))
               (Sale.date e) (Sale.time e) None)
        else
          CallAddSale
            (AppContext.NewSale.mk (product f) (flavor f) (unit f) price total
               (Some (paymentMode f)))
    | None =>
        CallAddSale
          (AppContext.NewSale.mk (product f) (flavor f) (unit f) price total
             (Some (paymentMode f)))
    end.

(** A submit of the form, carried through to the store. *)
Definition submit (products : list Product) (editingSale : option Sale.t)
    (now : AppContext.Clock) (newId : string) (serverTime : JSDate.t)
    (accepted : bool) (f : Form) (s : AppContext.Store) : AppContext.Store :=
  match handleSubmit products editingSale f with
  | NoCall => s
  | CallUpdateSale id updates => AppContext.updateSale accepted id updates s
  | CallAddSale sale => AppContext.addSale now newId serverTime accepted sale s
  end.

(** *** The events of the form *)

(** Update flavors when product changes: reset flavor to first available. *)
Definition handleProductChange (products : list Product) (newProduct : string)
    (f : Form) : Form :=
  let selectedProduct :=
    List.find
      (fun p => String.eqb (productId p) newProduct
                || String.eqb (productName p) newProduct) products in
  let firstFlavor :=
    match selectedProduct with
    | Some p =>
        match flavors p with
        | fl :: _ => Some (flavorName fl)
        | [] => None
        end
    | None => None
    end in
  match firstFlavor with
  | Some name =>
      if JS.truthy name
      then mkForm newProduct name (unit f) (paymentMode f) (submitted f)
      else mkForm newProduct (flavor f) (unit f) (paymentMode f) (submitted f)
  | None => mkForm newProduct (flavor f) (unit f) (paymentMode f) (submitted f)
  end.

(** When [editingSale] changes, populate the form fields. *)
Definition populate (editingSale : option Sale.t) (f : Form) : Form :=
  match editingSale with
  | Some e =>
      mkForm (JS.orElse (Some (Sale.product e)) "")
        (JS.orElse (Some (Sale.flavor e)) "")
        (if Sale.unit e =? 0 then 0 else Sale.unit e)
        (paymentMode f) (submitted f)
  | None => mkForm "" "" 0 "" (submitted f)
  end.

(** The flavor and payment selectors. *)
Definition setFlavor (name : string) (f : Form) : Form :=
  mkForm (product f) name (unit f) (paymentMode f) (submitted f).

Definition setPaymentMode (mode : string) (f : Form) : Form :=
  mkForm (product f) (flavor f) (unit f) mode (submitted f).

(** What a submit leaves behind: the store, the form, the sale being
    edited and the toasts pushed. *)
Record Submitted := mkSubmitted {
  store : AppContext.Store;
  form : Form;
  editingSale : option Sale.t;
  toasts : list (string * string)
}.

(** [handleSubmit] with all it does.  [updateSale] and [addSale] catch
    what they await, so the promise of [updateSale] is always fulfilled:
    its [then] runs, its [catch] never does. *)
Definition handleSubmitAll (products : list Product)
    (editingSale : option Sale.t) (now : AppContext.Clock) (newId : string)
    (serverTime : JSDate.t) (accepted : bool) (f : Form)
    (s : AppContext.Store) : Submitted :=
  let submittedForm :=
    mkForm (product f) (flavor f) (unit f) (paymentMode f) true in
  let reset := mkForm "" "" 0 "" false in
  match handleSubmit products editingSale f with
  | NoCall => mkSubmitted s submittedForm editingSale []
  | CallUpdateSale id updates =>
      mkSubmitted (AppContext.updateSale accepted id updates s) reset None
        [("Sale updated", "success")]
  | CallAddSale sale =>
      mkSubmitted (AppContext.addSale now newId serverTime accepted sale s)
        reset editingSale [("Sale recorded", "success")]
  end.

End SalesForm.

(** ** AdminDashboard: the actions of a row *)
Module AdminActions.

(** [handleEditClick]: the sale being edited, and the toast. *)
Definition handleEditClick (s : Sale.t) : option Sale.t * list (string * string) :=
  (Some s, [("Opening sales form to edit record", "info")]).

(** [handleDeleteClick]; [ok] is the answer to the confirm toast.
    [deleteSale] catches what it awaits, so the [catch] here is never
    entered. *)
Definition handleDeleteClick (ok accepted : bool) (s : Sale.t)
    (st : AppContext.Store) : AppContext.Store * list (string * string) :=
  let confirm := [("Delete this record permanently?", "info")] in
  if negb ok then (st, confirm)
  else (AppContext.deleteSale accepted (Sale.id s) st,
        (confirm ++ [("Record deleted", "success")])%list).

End AdminActions.

(** ** App *)
Module App.

Inductive View := staff | admin | products.

(** The local UI state of [AppContent]. *)
Record State := mkState {
  showSplash : bool;
  menuOpen : bool;
  view : View
}.

Definition initial : State := mkState true false staff.

(** What [useApp] hands a render. *)
Record Context := mkContext {
  user : option AppContext.User.t;
  loading : bool;
  isAdmin : bool;
  editingSale : option Sale.t
}.

(** What is on the screen. *)
Inductive Screen :=
| SplashScreen
| AuthScreen
| MainScreen (menuOpen : bool) (view : View).

Definition render (c : Context) (st : State) : Screen :=
  if loading c || showSplash st then SplashScreen
  else match user c with
       | None => AuthScreen
       | Some _ => MainScreen (menuOpen st) (view st)
       end.

(** The callbacks of the splash, the navbar and the side menu. *)
Inductive Event :=
| SplashComplete
| ToggleMenu
| CloseMenu
| Select (v : View)
| Logout.

(** The controls the rendered screen carries: the side menu shows the
    dashboard and products buttons to an admin only. *)
Definition offered (c : Context) (st : State) (ev : Event) : bool :=
  match render c st, ev with
  | SplashScreen, SplashComplete => true
  | MainScreen _ _, (ToggleMenu | CloseMenu | Logout) => true
  | MainScreen _ _, Select staff => true
  | MainScreen _ _, Select (admin | products) => isAdmin c
  | _, _ => false
  end.

Definition handle (ev : Event) (st : State) : State :=
  match ev with
  | SplashComplete => mkState false (menuOpen st) (view st)
  | ToggleMenu => mkState (showSplash st) (negb (menuOpen st)) (view st)
  | CloseMenu | Logout => mkState (showSplash st) false (view st)
  | Select v => mkState (showSplash st) false v
  end.

(** When an edit is started from the dashboard, switch to staff view. *)
Definition editingEffect (c : Context) (st : State) : State :=
  match editingSale c with
  | Some _ => mkState (showSplash st) (menuOpen st) staff
  | None => st
  end.

(** The states of a run in which every render gets a context of the kind
    [ok]. *)
Inductive Reachable (ok : Context -> Prop) : State -> Prop :=
| reach_initial : Reachable ok initial
| reach_event c ev st :
    Reachable ok st -> ok c -> offered c st ev = true ->
    Reachable ok (handle ev st)
| reach_effect c st :
    Reachable ok st -> ok c -> Reachable ok (editingEffect c st).

End App.

(** ** ProductsAdmin *)
Module ProductsAdmin.

Record Flavor := mkFlavor { flavorName : string; flavorPrice : float }.

(** A product of the component's state.  Its flavors are objects that the
    handlers share and change in place: they are held by address. *)
Record Product := mkProduct {
  productId : string;
  productName : string;
  flavors : list nat
}.

(** A document of the [catalog] collection, as this component writes
    them; its id is its key. *)
Record Doc := mkDoc { docName : string; docFlavors : list Flavor }.

(** A toast, or the toast of [pushConfirm]. *)
Inductive Toast :=
| Plain (msg kind : string)
| Confirm (msg : string).

(** The state of the component, the flavor objects ([heap]) and the
    toasts it has pushed. *)
Record State := mkState {
  products : list Product;
  heap : list Flavor;
  loading : bool;
  error : option string;
  newProductName : string;
  selectedProductId : string;
  newFlavorName : string;
  newFlavorPrice : string;
  editingKey : option string;
  editPrice : string;
  toasts : list Toast
}.

(** What the store answers during one handler: whether it accepts a write
    to a document, and the message [getDocs] fails with, if it fails. *)
Record Answers := mkAnswers {
  accepted : string -> bool;
  getDocsFails : option string
}.

(** Default products to seed on first load. *)
Definition DEFAULT_PRODUCTS : list (string * Doc) :=
  [ ("yoghurt",
     mkDoc "Yoghurt"
       [ mkFlavor "Plain" 850; mkFlavor "Strawberry" 950; mkFlavor "Mango" 970 ]);
    ("ice_cream",
     mkDoc "Ice Cream"
       [ mkFlavor "Vanilla" 1200; mkFlavor "Chocolate" 1350;
         mkFlavor "Caramel" 1380 ]);
    ("snack_pack",
     mkDoc "Snack Pack"
       [ mkFlavor "Spicy" 730; mkFlavor "Salted" 650; mkFlavor "Sweet" 680 ]) ].

(** The setters. *)
Definition setProducts (ps : list Product) (objects : list Flavor) (st : State) : State :=
  mkState ps objects (loading st) (error st) (newProductName st)
    (selectedProductId st) (newFlavorName st) (newFlavorPrice st)
    (editingKey st) (editPrice st) (toasts st).

Definition setHeap (objects : list Flavor) (st : State) : State :=
  setProducts (products st) objects st.

Definition setLoading (b : bool) (st : State) : State :=
  mkState (products st) (heap st) b (error st) (newProductName st)
    (selectedProductId st) (newFlavorName st) (newFlavorPrice st)
    (editingKey st) (editPrice st) (toasts st).

Definition setError (e : option string) (st : State) : State :=
  mkState (products st) (heap st) (loading st) e (newProductName st)
    (selectedProductId st) (newFlavorName st) (newFlavorPrice st)
    (editingKey st) (editPrice st) (toasts st).

Definition setNewProductName (s : string) (st : State) : State :=
  mkState (products st) (heap st) (loading st) (error st) s
    (selectedProductId st) (newFlavorName st) (newFlavorPrice st)
    (editingKey st) (editPrice st) (toasts st).

Definition clearFlavorForm (st : State) : State :=
  mkState (products st) (heap st) (loading st) (error st) (newProductName st)
    (selectedProductId st) "" "" (editingKey st) (editPrice st) (toasts st).

Definition closeEdit (st : State) : State :=
  mkState (products st) (heap st) (loading st) (error st) (newProductName st)
    (selectedProductId st) (newFlavorName st) (newFlavorPrice st)
    None "" (toasts st).

Definition push (t : Toast) (st : State) : State :=
  mkState (products st) (heap st) (loading st) (error st) (newProductName st)
    (selectedProductId st) (newFlavorName st) (newFlavorPrice st)
    (editingKey st) (editPrice st) (toasts st ++ [t]).

Definition pushToast (msg kind : string) : State -> State := push (Plain msg kind).

(** [pushConfirm(msg)]: the provider's function takes the message and
    nothing else, and answers through the promise it returns.  What a
    caller passes after the message is not looked at. *)
Definition pushConfirm {Callback : Type} (msg : string)
    (rest : list Callback) : State -> State :=
  push (Confirm msg).

(** New objects for the flavors of the products a snapshot or the
    defaults hold. *)
Fixpoint newProducts (docs : list (string * Doc)) (objects : list Flavor)
  : list Product * list Flavor :=
  match docs with
  | [] => ([], objects)
  | (id, d) :: rest =>
      let addresses := seq (length objects) (length (docFlavors d)) in
      let (ps, objects') := newProducts rest (objects ++ docFlavors d) in
      (mkProduct id (docName d) addresses :: ps, objects')
  end.

(** The flavors of a product as they stand. *)
Definition flavorsOf (objects : list Flavor) (p : Product) : list Flavor :=
  omap (fun a => objects !! a) (flavors p).

(** What the list of the screen shows. *)
Definition shown (st : State) : list (string * Doc) :=
  List.map (fun p => (productId p, mkDoc (productName p) (flavorsOf (heap st) p)))
    (products st).

Section Platform.

(** [s.trim()], [s.toLowerCase().replace(/\s+/g, '_')] and
    [parseFloat(s)], as the platform computes them, and the documents of
    a snapshot in the order the store delivers them. *)
Variable trim : string -> string.
Variable slug : string -> string.
Variable parseFloat : string -> float.
Variable docsOf : gmap string Doc -> list (string * Doc).

(** The loop of [seedDefaultProducts]: it stops at the first write the
    store refuses. *)
Fixpoint seedDocs (ans : Answers) (defaults : list (string * Doc))
    (catalog : gmap string Doc) : gmap string Doc * bool :=
  match defaults with
  | [] => (catalog, true)
  | (id, d) :: rest =>
      if accepted ans id then seedDocs ans rest (<[id := d]> catalog)
      else (catalog, false)
  end.

Definition seedDefaultProducts (ans : Answers) (st : State)
    (catalog : gmap string Doc) : State * gmap string Doc :=
  let (catalog', ok) := seedDocs ans DEFAULT_PRODUCTS catalog in
  if ok then
    let (ps, objects) := newProducts DEFAULT_PRODUCTS (heap st) in
    (setProducts ps objects st, catalog')
  else (setError (Some "Failed to initialize default products") st, catalog').

Definition loadProducts (ans : Answers) (st : State)
    (catalog : gmap string Doc) : State * gmap string Doc :=
  let st := setError None (setLoading true st) in
  match getDocsFails ans with
  | Some message =>
      (setLoading false
         (setError (Some ("Failed to load products: " ++ message)) st),
       catalog)
  | None =>
      let productsData := docsOf catalog in
      match productsData with
      | [] =>
          let (st', catalog') := seedDefaultProducts ans st catalog in
          (setLoading false st', catalog')
      | _ =>
          let (ps, objects) := newProducts productsData (heap st) in
          (setLoading false (setProducts ps objects st), catalog)
      end
  end.

Definition addProduct (ans : Answers) (st : State)
    (catalog : gmap string Doc) : State * gmap string Doc :=
  if negb (JS.truthy (trim (newProductName st))) then
    (pushToast "Please enter a product name" "error" st, catalog)
  else
    let productId := slug (newProductName st) in
    if accepted ans productId then
      let catalog := <[productId := mkDoc (newProductName st) []]> catalog in
      let (st', catalog') := loadProducts ans (setNewProductName "" st) catalog in
      (pushToast "Product created! Now add flavors to it." "success" st', catalog')
    else (pushToast "Failed to add product" "error" st, catalog).

Definition findProduct (productId : string) (st : State) : option Product :=
  List.find (fun p => String.eqb (ProductsAdmin.productId p) productId)
    (products st).

(** A callback handed to [pushConfirm] after the message. *)
Definition Callback : Type :=
  Answers -> State -> gmap string Doc -> State * gmap string Doc.

Definition deleteProduct (productId : string) (st : State)
    (catalog : gmap string Doc) : State * gmap string Doc :=
  let product := findProduct productId st in
  let name :=
    match product with Some p => productName p | None => "undefined" end in
  let count :=
    match product with
    | Some p => Z.of_nat (length (flavors p))
    | None => 0
    end in
  let onConfirm : Callback := fun ans st catalog =>
    if accepted ans productId then
      let (st', catalog') := loadProducts ans st (delete productId catalog) in
      (pushToast
         (String JS.dquote name ++ String JS.dquote " deleted successfully")
         "success" st',
       catalog')
    else (pushToast "Failed to delete product" "error" st, catalog) in
  let onCancel : Callback := fun _ st catalog =>
    (pushToast "Delete cancelled" "info" st, catalog) in
  (pushConfirm
     ("Delete " ++ String JS.dquote name ++ String JS.dquote " and all "
      ++ JS.ofZ count ++ " flavor(s)? This cannot be undone.")
     [onConfirm; onCancel] st,
   catalog).

Definition addFlavor (ans : Answers) (st : State)
    (catalog : gmap string Doc) : State * gmap string Doc :=
  if negb (JS.truthy (selectedProductId st))
     || negb (JS.truthy (trim (newFlavorName st)))
     || negb (JS.truthy (newFlavorPrice st))
  then
    (pushToast "Please select a product and fill in all fields" "error" st,
     catalog)
  else
    match findProduct (selectedProductId st) st with
    | None => (st, catalog)
    | Some product =>
        let updatedFlavors :=
          (flavorsOf (heap st) product
           ++ [mkFlavor (newFlavorName st) (parseFloat (newFlavorPrice st))])%list in
        match catalog !! selectedProductId st with
        | Some d =>
            if accepted ans (selectedProductId st) then
              let catalog :=
                <[selectedProductId st := mkDoc (docName d) updatedFlavors]> catalog in
              let (st', catalog') := loadProducts ans (clearFlavorForm st) catalog in
              (pushToast "Flavor added!" "success" st', catalog')
            else (pushToast "Failed to add flavor" "error" st, catalog)
        | None => (pushToast "Failed to add flavor" "error" st, catalog)
        end
    end.

Definition updateFlavorPrice (ans : Answers) (productId : string)
    (flavorIndex : nat) (newPrice : string) (st : State)
    (catalog : gmap string Doc) : State * gmap string Doc :=
  (* Validate price *)
  if negb (JS.truthy newPrice) || PrimFloat.is_nan (parseFloat newPrice)
     || PrimFloat.leb (parseFloat newPrice) 0
  then (setError (Some "Price must be a positive number") st, catalog)
  else
    let failed st :=
      pushToast "Failed to update price" "error"
        (setError (Some "Failed to update price") st) in
    match findProduct productId st with
    | None => (st, catalog)
    | Some product =>
        let updatedFlavors := flavors product in
        match updatedFlavors !! flavorIndex with
        | None => (failed st, catalog)
        | Some a =>
            match heap st !! a with
            | None => (failed st, catalog)
            | Some object =>
                (* the object is changed where it is *)
                let st :=
                  setHeap
                    (<[a := mkFlavor (flavorName object) (parseFloat newPrice)]>
                       (heap st)) st in
                match catalog !! productId with
                | Some d =>
                    if accepted ans productId then
                      let updatedProducts :=
                        List.map
                          (fun p =>
                             if String.eqb (ProductsAdmin.productId p) productId
                             then mkProduct (ProductsAdmin.productId p)
                                    (productName p) updatedFlavors
                             else p)
                          (products st) in
                      (pushToast "Price updated" "success"
                         (setError None
                            (closeEdit (setProducts updatedProducts (heap st) st))),
                       <[productId :=
                           mkDoc (docName d) (flavorsOf (heap st) product)]> catalog)
                    else (failed st, catalog)
                | None => (failed st, catalog)
                end
            end
        end
    end.

Definition deleteFlavor (productId : string) (flavorIndex : nat) (st : State)
    (catalog : gmap string Doc) : State * gmap string Doc :=
  let product := findProduct productId st in
  let name :=
    match product with
    | Some p =>
        match flavorsOf (heap st) p !! flavorIndex with
        | Some fl => flavorName fl
        | None => "undefined"
        end
    | None => "undefined"
    end in
  let onConfirm : Callback := fun ans st' catalog =>
    match product with
    | None => (st', catalog)
    | Some p =>
        let updatedFlavors :=
          List.map snd
            (List.filter (fun x => negb (Nat.eqb (fst x) flavorIndex))
               (combine (seq 0 (length (flavors p))) (flavorsOf (heap st') p))) in
        match catalog !! productId with
        | Some d =>
            if accepted ans productId then
              let (st'', catalog') :=
                loadProducts ans st'
                  (<[productId := mkDoc (docName d) updatedFlavors]> catalog) in
              (pushToast (String JS.dquote name ++ String JS.dquote " deleted")
                 "success" st'',
               catalog')
            else (pushToast "Failed to delete flavor" "error" st', catalog)
        | None => (pushToast "Failed to delete flavor" "error" st', catalog)
        end
    end in
  let onCancel : Callback := fun _ st' catalog =>
    (pushToast "Delete cancelled" "info" st', catalog) in
  (pushConfirm
     ("Delete flavor " ++ String JS.dquote name
      ++ String JS.dquote "? This cannot be undone.")
     [onConfirm; onCancel] st,
   catalog).

(** The handlers of the screen. *)
Inductive Event :=
| Load
| AddProduct
| DeleteProduct (productId : string)
| AddFlavor
| UpdateFlavorPrice (productId : string) (flavorIndex : nat) (newPrice : string)
| DeleteFlavor (productId : string) (flavorIndex : nat).

Definition handle (ans : Answers) (ev : Event) (st : State)
    (catalog : gmap string Doc) : State * gmap string Doc :=
  match ev with
  | Load => loadProducts ans st catalog
  | AddProduct => addProduct ans st catalog
  | DeleteProduct productId => deleteProduct productId st catalog
  | AddFlavor => addFlavor ans st catalog
  | UpdateFlavorPrice productId flavorIndex newPrice =>
      updateFlavorPrice ans productId flavorIndex newPrice st catalog
  | DeleteFlavor productId flavorIndex =>
      deleteFlavor productId flavorIndex st catalog
  end.

End Platform.

End ProductsAdmin.

(** ** Reading CSV *)
Module CsvRead.
Import AdminDashboard.

(** A reader of CSV text in the usual form: records end at a line feed,
    fields at a comma; a field may stand between double quotes, where a
    doubled double quote stands for one and commas and line feeds are
    text.  [None] when the text is not well formed.  The sources hold no
    reader; this is the reading the export is written for. *)
Inductive Mode := FieldStart | Bare | Quoted | QuoteSeen.

Definition lineFeed : ascii := ascii_of_nat 10.

Definition snoc (s : string) (c : ascii) : string := s ++ String c "".

Fixpoint parse (m : Mode) (field : string) (row : list string)
    (rows : list (list string)) (s : string) : option (list (list string)) :=
  match s with
  | EmptyString =>
      match m with
      | Quoted => None
      | _ => Some (rows ++ [row ++ [field]])%list
      end
  | String c r =>
      let endField := parse FieldStart "" (row ++ [field])%list rows r in
      let endRecord := parse FieldStart "" [] (rows ++ [row ++ [field]])%list r in
      match m with
      | FieldStart =>
          if Ascii.eqb c JS.dquote then parse Quoted "" row rows r
          else if Ascii.eqb c "," then endField
          else if Ascii.eqb c lineFeed then endRecord
          else parse Bare (String c "") row rows r
      | Bare =>
          if Ascii.eqb c JS.dquote then None
          else if Ascii.eqb c "," then endField
          else if Ascii.eqb c lineFeed then endRecord
          else parse Bare (snoc field c) row rows r
      | Quoted =>
          if Ascii.eqb c JS.dquote then parse QuoteSeen field row rows r
          else parse Quoted (snoc field c) row rows r
      | QuoteSeen =>
          if Ascii.eqb c JS.dquote then parse Quoted (snoc field c) row rows r
          else if Ascii.eqb c "," then endField
          else if Ascii.eqb c lineFeed then endRecord
          else None
      end
  end.

Definition readCsv (s : string) : option (list (list string)) :=
  parse FieldStart "" [] [] s.

(** A text that needs no quotes: not empty, and without double quote,
    comma or line feed. *)
Definition isPlain (c : ascii) : bool :=
  negb (Ascii.eqb c JS.dquote) && negb (Ascii.eqb c ",")
  && negb (Ascii.eqb c lineFeed).

Fixpoint allPlain (w : string) : bool :=
  match w with
  | EmptyString => true
  | String c r => isPlain c && allPlain r
  end.

Definition plainWord (w : string) : bool := JS.truthy w && allPlain w.

(** A row of the export, and the texts of its cells. *)
Definition line (r : Sale.t) : string := JS.join "," (List.map esc (rowFields r)).
Definition cells (r : Sale.t) : list string := List.map fieldText (rowFields r).

End CsvRead.

(** ** Vocabulary of the properties *)
Module Props.
Import AdminDashboard.

(** The month after a (year, month) pair, months counted from 0. *)
Definition nextMonth (ym : Z * Z) : Z * Z :=
  if snd ym =? 11 then (fst ym + 1, 0) else (fst ym, snd ym + 1).

(** The key of a (year, month) pair: the year, a dash, the month from 1 on
    two digits. *)
Definition monthKey (ym : Z * Z) : string :=
  JS.ofZ (fst ym) ++ "-" ++ JS.padStart2 (JS.ofZ (snd ym + 1)).

Definition monthAbbrevs : list string :=
  [ "Jan"; "Feb"; "Mar"; "Apr"; "May"; "Jun";
    "Jul"; "Aug"; "Sep"; "Oct"; "Nov"; "Dec" ].

Definition monthAbbrev (m : Z) : string := nth (Z.to_nat m) monthAbbrevs "".

(** The last two digits of a year. *)
Definition twoDigitYear (y : Z) : string := JS.padStart2 (JS.ofZ (y mod 100)).

(** The month [5 - i] months before the month of [now]. *)
Definition trendMonth (now : JSDate.t) (i : Z) : Z * Z :=
  let m := JSDate.getMonth now + i - 5 in
  (JSDate.getFullYear now + m / 12, m mod 12).

(** The sum of the totals of the records of a bucket. *)
Definition bucketTotal (k : string) (dataset : list Sale.t) : Z :=
  foldr (fun s acc =>
           if bool_decide (bucketKey s = Some k) then Sale.total s + acc
           else acc)
    0 dataset.

(** The time a record is sorted by: its time, or the empty string. *)
Definition timeOf (s : Sale.t) : string := JS.orElse (Sale.time s) "".

(** The collation orders the times of a dataset as their character codes
    do: what the platform's collation does for times of day, digits
    between [:] and [.] in fixed places. *)
Definition collatesByCode (localeCompare : string -> string -> Z)
    (dataset : list Sale.t) : Prop :=
  forall a b, In a dataset -> In b dataset ->
    (localeCompare (timeOf a) (timeOf b) <= 0
     <-> String.compare (timeOf a) (timeOf b) <> Gt).

(** The cursor of a state, and the state turned to another page. *)
Definition cursor (st : State) : string * string * string :=
  (selectedYear st, selectedMonth st, selectedDay st).

Definition onPage (st : State) (page : Z) : State :=
  mkState (selectedYear st) (selectedMonth st) (selectedDay st) page.

(** The record [persistOfflineSession] keeps of a user. *)
Definition minimalUser (u : AppContext.User.t) : AppContext.User.t :=
  AppContext.User.mk (AppContext.User.uid u)
    (AppContext.orNull (AppContext.User.email u))
    (AppContext.orNull (AppContext.User.displayName u)).

(** The sum of two sets of KPIs, figure by figure. *)
Definition kpiAdd (a b : Kpi) : Kpi :=
  mkKpi (dayTotal a + dayTotal b) (dayCount a + dayCount b)
    (monthTotal a + monthTotal b) (monthCount a + monthCount b)
    (yearTotal a + yearTotal b) (yearCount a + yearCount b).

(** The sum of the totals of a list of records. *)
Definition sumTotals (l : list Sale.t) : Z :=
  fold_left Z.add (List.map Sale.total l) 0.

(** A date of at most three parts between dashes. *)
Definition threeParts (d : string) : Prop :=
  (length (JS.split "-" d) <= 3)%nat.

(** The current page is one of the pages of the listing, or page 1 when
    the listing is empty. *)
Definition pageInRange (localeCompare : string -> string -> Z)
    (dataset : list Sale.t) (st : State) : Prop :=
  1 <= currentPage st <= Z.max 1 (totalPages localeCompare dataset st).

(** The events of the pager. *)
Definition pagerEvent (ev : Event) : Prop :=
  match ev with
  | PrevPage | NextPage | GoToPage _ => True
  | _ => False
  end.

(** The year the selector reads off a record, if any. *)
Definition recordYear (parseInt : string -> option Z) (s : Sale.t) : option Z :=
  let dateStr := extractDateOnly s in
  if JS.truthy dateStr then parseInt (hd "" (JS.split "-" dateStr)) else None.

(** Texts of exactly two and of exactly four digits. *)
Definition twoDigits (s : string) : bool :=
  match s with
  | String a (String b EmptyString) => JS.isDigit a && JS.isDigit b
  | _ => false
  end.

Definition fourDigits (s : string) : bool :=
  match s with
  | String a (String b r) => JS.isDigit a && JS.isDigit b && twoDigits r
  | _ => false
  end.

(** The state a failed offline login leaves: the one error message, all
    else as before. *)
Definition offlineLoginFailed (c : AppContext.Ctx) : AppContext.Ctx :=
  AppContext.mkCtx (AppContext.user c) (Some AppContext.offlineLoginError)
    (AppContext.toasts c) (AppContext.isOnline c) (AppContext.localStorage c).

End Props.

(** ** Sample data *)
Module Samples.

(** A sale of one unit by [u1], with the given id, date, time and total. *)
Definition sale (id : string) (date time : option string) (total : Z) : Sale.t :=
  Sale.mk id "u1" (Some "staff@noyis.example") "Yoghurt" "Plain" 1 total total
    (Some "Cash") date time None.

Definition march5 : AdminDashboard.State :=
  AdminDashboard.mkState "2024" "03" "05" 1.

(** Two sales of 5 March 2024, one dated with a time part. *)
Definition sameDay : list Sale.t :=
  [ sale "a" (Some "2024-03-05") (Some "10:22:00") 850;
    sale "b" (Some "2024-03-05T10:22:00Z") None 950 ].

(** Sales of several days and months. *)
Definition dated : list Sale.t :=
  sameDay
  ++ [ sale "c" (Some "2024-03-07") (Some "09:00:00") 970;
       sale "d" (Some "2023-12-24") (Some "18:30:00") 1200 ].

(** The same, and a sale without any date. *)
Definition undated : Sale.t := sale "e" None None 730.

Definition mixed : list Sale.t := dated ++ [undated].

Definition mid_march : JSDate.t := JSDate.mk 2024 2 15.

(** A collation: the order of character codes. *)
Definition codeOrder (a b : string) : Z :=
  match String.compare a b with
  | Lt => -1
  | Eq => 0
  | Gt => 1
  end.

(** A stand-in for the platform digest: the salt bytes, a colon, the
    value. *)
Definition sampleDigest (salt : list Z) (value : string) : string :=
  JS.join "," (List.map JS.ofZ salt) ++ ":" ++ value.

Definition sampleSalt : list Z := [17; 4; 250; 9].

Definition alice : AppContext.User.t :=
  AppContext.User.mk "uid-alice" (Some "alice@x.com") None.

(** Twelve sales of 5 March 2024, on the hours 00 to 11. *)
Definition twelve : list Sale.t :=
  List.map
    (fun i =>
       sale (JS.ofZ i) (Some "2024-03-05")
         (Some (JS.padStart2 (JS.ofZ i) ++ ":00:00")) 100)
    (seqZ 0 12).

(** Three mangoes, paid in cash. *)
Definition mangoes : SalesForm.Form := SalesForm.mkForm "Yoghurt" "Mango" 3 "Cash" false.

Definition noon : AppContext.Clock := AppContext.mkClock 2024 2 5 12 0 0.

Definition march5th : JSDate.t := JSDate.mk 2024 2 5.

(** The store with alice signed in: empty, and holding one sale. *)
Definition emptyStore : AppContext.Store :=
  AppContext.mkStore ∅ (Some alice) None.

Definition plainYoghurt : AppContext.SaleDoc.t :=
  AppContext.SaleDoc.mk "uid-alice" (Some "alice@x.com") "Yoghurt" "Plain" 1
    850 850 "POS" "2024-03-05" "10:22:00" (Some march5th).

Definition oneSale : AppContext.Store :=
  AppContext.mkStore {[ "s1" := plainYoghurt ]} (Some alice) None.

(** An update that names every field, the four outside the allow-list
    too. *)
Definition overreach : AppContext.Updates.t :=
  AppContext.Updates.mk (Some "s2") (Some "uid-bob") (Some (Some "bob@x.com"))
    (Some "Yoghurt") (Some "Mango") (Some 2) (Some 970) (Some 1940)
    (Some "Cash") (Some "2024-03-06") (Some "11:00:00") (Some None).

(** A session that is online and signed out, nothing stored. *)
Definition freshCtx : AppContext.Ctx := AppContext.mkCtx None None [] true ∅.

Definition freshProvider : AppContext.Provider :=
  AppContext.mkProvider freshCtx [] true.

(** A trimming of blanks at both ends, for the samples. *)
Fixpoint dropBlanks (s : string) : string :=
  match s with
  | String " " r => dropBlanks r
  | _ => s
  end.

Definition reverse (s : string) : string :=
  string_of_list_ascii (rev (list_ascii_of_string s)).

Definition sampleTrim (s : string) : string :=
  reverse (dropBlanks (reverse (dropBlanks s))).

(** A stand-in for [toISOString]: the date at midnight, UTC. *)
Definition sampleISO (d : JSDate.t) : string :=
  JS.ofZ (JSDate.getFullYear d) ++ "-"
  ++ JS.padStart2 (JS.ofZ (JSDate.getMonth d + 1)) ++ "-"
  ++ JS.padStart2 (JS.ofZ (JSDate.getDate d)) ++ "T00:00:00.000Z".

(** The store of the products screen refusing and accepting every write. *)
Definition refuseAll : ProductsAdmin.Answers := ProductsAdmin.mkAnswers (fun _ => false) None.
Definition acceptAll : ProductsAdmin.Answers := ProductsAdmin.mkAnswers (fun _ => true) None.

(** A stand-in for [parseFloat] on the prices of the samples. *)
Definition sampleParseFloat (s : string) : float :=
  if String.eqb s "900" then 900 else if String.eqb s "0" then 0 else nan.

Definition sampleDocs (c : gmap string ProductsAdmin.Doc)
  : list (string * ProductsAdmin.Doc) := map_to_list c.

Definition freshScreen : ProductsAdmin.State :=
  ProductsAdmin.mkState [] [] true None "" "" "" "" None "" [].

(** A browser with everything, one without [TextEncoder], one without
    [crypto.subtle]. *)
Definition fullBrowser : AppContext.Env := AppContext.mkEnv true true true.
Definition noTextEncoder : AppContext.Env := AppContext.mkEnv true false true.
Definition noSubtle : AppContext.Env := AppContext.mkEnv true true false.

End Samples.

(* ===================================================================== *)
(** * Part II: properties                                                 *)
(* ===================================================================== *)

(** ** Strings *)
Section StringFacts.

(** Without the separator there is one part, the string itself. *)
Lemma split_without sep s :
  JS.includes sep s = false -> JS.split sep s = [s].
Proof.
  induction s as [|c r IH]; simpl; [reflexivity|].
  destruct (Ascii.eqb c sep); simpl; [discriminate|].
  intros H. rewrite (IH H). reflexivity.
Qed.

(** The part before the first separator is split off whole. *)
Lemma split_app sep a b :
  JS.includes sep a = false ->
  JS.split sep (a ++ String sep b) = a :: JS.split sep b.
Proof.
  induction a as [|c r IH]; simpl.
  - intros _. rewrite Ascii.eqb_refl. reflexivity.
  - destruct (Ascii.eqb c sep); simpl; [discriminate|].
    intros H. rewrite (IH H). reflexivity.
Qed.

Lemma includes_app c a b :
  JS.includes c (a ++ b) = JS.includes c a || JS.includes c b.
Proof.
  induction a as [|d r IH]; simpl; [reflexivity|].
  rewrite IH. apply orb_assoc.
Qed.

Lemma truthy_app_sep a c b : JS.truthy (a ++ String c b) = true.
Proof. destruct a; reflexivity. Qed.

End StringFacts.

(** ** Loops *)
Section FoldFacts.
Context {A B : Type}.

(** A property every turn of a loop keeps holds when the loop ends. *)
Lemma fold_left_invariant (P : A -> Prop) (f : A -> B -> A) :
  (forall a b, P a -> P (f a b)) ->
  forall l a, P a -> P (fold_left f l a).
Proof.
  intros Hstep l. induction l as [|b l IH]; simpl; intros a Ha; [exact Ha|].
  apply IH, Hstep, Ha.
Qed.

(** Turns that leave the accumulator alone can be dropped. *)
Lemma fold_left_skip (f : A -> B -> A) (x : B) :
  (forall a, f a x = a) ->
  forall l1 l2 a, fold_left f (l1 ++ x :: l2) a = fold_left f (l1 ++ l2) a.
Proof.
  intros Hx l1 l2 a. rewrite !fold_left_app. simpl. rewrite Hx. reflexivity.
Qed.

End FoldFacts.

(** ** The stable insertion sort *)
Section SortFacts.
Import AdminDashboard.
Context {A : Type} (cmp : A -> A -> Z).

Lemma insertBy_perm x (l : list A) : Permutation (insertBy cmp x l) (x :: l).
Proof.
  induction l as [|y l IH]; simpl; [reflexivity|].
  destruct (cmp x y <=? 0); [reflexivity|].
  rewrite IH. apply perm_swap.
Qed.

Lemma sortBy_perm (l : list A) : Permutation (sortBy cmp l) l.
Proof.
  induction l as [|x l IH]; simpl; [reflexivity|].
  rewrite insertBy_perm. apply perm_skip, IH.
Qed.

Lemma sortBy_length (l : list A) : length (sortBy cmp l) = length l.
Proof. apply Permutation_length, sortBy_perm. Qed.

(** On the elements at hand the comparator orders: of two elements one
    goes before the other, and going before is transitive. *)
Variable dom : A -> Prop.
Hypothesis cmp_total : forall x y, dom x -> dom y -> 0 < cmp x y -> cmp y x <= 0.
Hypothesis cmp_trans :
  forall x y z, dom x -> dom y -> dom z ->
    cmp x y <= 0 -> cmp y z <= 0 -> cmp x z <= 0.

Lemma insertBy_sorted x (l : list A) :
  dom x -> Forall dom l ->
  StronglySorted (fun a b => cmp a b <= 0) l ->
  StronglySorted (fun a b => cmp a b <= 0) (insertBy cmp x l).
Proof.
  intros Hx Hl Hsorted. induction Hsorted as [|y l Hs IH Hy]; simpl.
  - repeat constructor.
  - apply Forall_cons in Hl. destruct Hl as [Hdy Hl].
    destruct (Z.leb_spec (cmp x y) 0) as [Hle|Hgt].
    + constructor; [constructor; assumption|].
      constructor; [exact Hle|].
      rewrite Forall_forall in Hy, Hl. apply Forall_forall. intros z Hz.
      exact (cmp_trans x y z Hx Hdy (Hl z Hz) Hle (Hy z Hz)).
    + constructor; [exact (IH Hl)|].
      apply (Permutation_Forall (Permutation_sym (insertBy_perm x l))).
      constructor; [exact (cmp_total x y Hx Hdy Hgt) | exact Hy].
Qed.

Lemma sortBy_sorted (l : list A) :
  Forall dom l -> StronglySorted (fun a b => cmp a b <= 0) (sortBy cmp l).
Proof.
  induction l as [|x l IH]; simpl; intros Hl; [constructor|].
  apply Forall_cons in Hl. destruct Hl as [Hx Hl].
  apply insertBy_sorted; [exact Hx | | exact (IH Hl)].
  apply (Permutation_Forall (Permutation_sym (sortBy_perm l))), Hl.
Qed.

End SortFacts.

(** ** The order of strings *)
Section OrderFacts.

Lemma ascii_compare_eq x y : Ascii.compare x y = Eq -> x = y.
Proof.
  unfold Ascii.compare. intros H. apply N.compare_eq in H.
  rewrite <- (ascii_N_embedding x), <- (ascii_N_embedding y), H. reflexivity.
Qed.

Lemma ascii_compare_lt_trans x y z :
  Ascii.compare x y = Lt -> Ascii.compare y z = Lt -> Ascii.compare x z = Lt.
Proof.
  unfold Ascii.compare. rewrite !N.compare_lt_iff. lia.
Qed.

Lemma string_compare_trans a :
  forall b c,
    String.compare a b <> Gt -> String.compare b c <> Gt ->
    String.compare a c <> Gt.
Proof.
  induction a as [|x a IH]; intros [|y b] [|z c]; simpl; try congruence.
  destruct (Ascii.compare x y) eqn:Hxy; try congruence;
    destruct (Ascii.compare y z) eqn:Hyz; try congruence.
  - apply ascii_compare_eq in Hxy, Hyz. subst.
    replace (Ascii.compare z z) with Eq
      by (symmetry; unfold Ascii.compare; apply N.compare_refl).
    apply IH.
  - apply ascii_compare_eq in Hxy. subst. rewrite Hyz. congruence.
  - apply ascii_compare_eq in Hyz. subst. rewrite Hxy. congruence.
  - rewrite (ascii_compare_lt_trans _ _ _ Hxy Hyz). congruence.
Qed.

Lemma string_compare_total a b :
  String.compare a b = Gt -> String.compare b a = Lt.
Proof.
  intros H. rewrite String.compare_antisym, H. reflexivity.
Qed.

(** Only the empty string is not above the empty string. *)
Lemma string_compare_below_empty s : String.compare s "" <> Gt -> s = "".
Proof. destruct s; simpl; congruence. Qed.

End OrderFacts.

(** ** The cursor the component can hold *)
Section CursorFacts.
Import AdminDashboard.
Variable localeCompare : string -> string -> Z.

Lemma uint_plain d : JS.includes "-" (NilEmpty.string_of_uint d) = false.
Proof. induction d; simpl; auto. Qed.

(** A number that is not negative is written without a dash. *)
Lemma ofZ_plain n : 0 <= n -> JS.includes "-" (JS.ofZ n) = false.
Proof.
  intros H. unfold JS.ofZ. destruct n as [|p|p]; [reflexivity| |lia].
  cbn [Z.to_int NilZero.string_of_int]. unfold NilZero.string_of_uint.
  pose proof (uint_plain (Pos.to_uint p)) as Hp.
  destruct (Pos.to_uint p); [reflexivity | exact Hp ..].
Qed.

Lemma padStart2_plain s :
  JS.includes "-" s = false -> JS.includes "-" (JS.padStart2 s) = false.
Proof. destruct s as [|c [|d r]]; simpl; auto. Qed.

Lemma setAdd_Forall (P : Z -> Prop) x set :
  P x -> Forall P set -> Forall P (setAdd x set).
Proof.
  intros Hx Hs. unfold setAdd. case_bool_decide; [exact Hs|].
  apply Forall_app. split; [exact Hs | repeat constructor; exact Hx].
Qed.

(** Every year the selector offers is written without a dash. *)
Lemma years_plain parseInt now dataset :
  0 <= JSDate.getFullYear now ->
  Forall (fun y => JS.includes "-" y = false) (years parseInt now dataset).
Proof.
  intros Hy. unfold years. apply Forall_map.
  apply (Permutation_Forall (Permutation_sym (sortBy_perm _ _))).
  eapply Forall_impl;
    [|intros n Hn; apply ofZ_plain; exact Hn].
  apply fold_left_invariant.
  - intros set s Hset. destruct (JS.truthy (extractDateOnly s)); [|exact Hset].
    destruct (parseInt _) as [year|]; [|exact Hset].
    destruct (Z.leb_spec 2022 year); [|exact Hset].
    apply setAdd_Forall; [lia | exact Hset].
  - apply fold_left_invariant.
    + intros set y Hset. destruct (Z.leb_spec 2022 y); [|exact Hset].
      apply setAdd_Forall; [lia | exact Hset].
    + apply setAdd_Forall; [exact Hy | constructor].
Qed.

Lemma months_plain :
  Forall (fun m => JS.includes "-" m = false) (List.map fst monthOptions).
Proof. repeat constructor. Qed.

Lemma days_plain :
  Forall (fun d => JS.includes "-" d = false) (List.map fst dayOptions).
Proof.
  assert (H : forallb (fun d => negb (JS.includes "-" d))
                (List.map fst dayOptions) = true)
    by (vm_compute; reflexivity).
  rewrite forallb_forall in H.
  apply Forall_forall. intros d Hd. apply list_elem_of_In, H in Hd.
  destruct (JS.includes "-" d); [discriminate Hd | reflexivity].
Qed.

Lemma step_selected dataset ev st :
  let h := handle localeCompare dataset ev st in
  selectedYear (step localeCompare dataset ev st) = selectedYear h
  /\ selectedMonth (step localeCompare dataset ev st) = selectedMonth h
  /\ selectedDay (step localeCompare dataset ev st) = selectedDay h.
Proof.
  cbv zeta. unfold step, resetEffect.
  destruct (depsChanged st (handle localeCompare dataset ev st)); repeat split; reflexivity.
Qed.

(** The page buttons leave the cursor alone. *)
Lemma handle_page_selected dataset ev st :
  match ev with
  | PrevPage | NextPage | GoToPage _ =>
      selectedYear (handle localeCompare dataset ev st) = selectedYear st
      /\ selectedMonth (handle localeCompare dataset ev st) = selectedMonth st
      /\ selectedDay (handle localeCompare dataset ev st) = selectedDay st
  | _ => True
  end.
Proof.
  destruct ev; try exact I; unfold handle;
    match goal with |- context [if ?b then _ else _] => destruct b end;
    repeat split; reflexivity.
Qed.

(** No state the component reaches has a dash in a part of its cursor. *)
Lemma reachable_cursor_plain parseInt now st :
  0 <= JSDate.getFullYear now ->
  0 <= JSDate.getMonth now ->
  0 <= JSDate.getDate now ->
  Reachable localeCompare parseInt now st ->
  JS.includes "-" (selectedYear st) = false
  /\ JS.includes "-" (selectedMonth st) = false
  /\ JS.includes "-" (selectedDay st) = false.
Proof.
  intros Hy Hm Hd Hreach.
  induction Hreach as [|dataset ev st Hreach (Iy & Im & Id) Hev].
  - cbn [initial selectedYear selectedMonth selectedDay].
    repeat split; [|apply padStart2_plain ..]; apply ofZ_plain; lia.
  - destruct (step_selected dataset ev st) as (-> & -> & ->).
    pose proof (handle_page_selected dataset ev st) as Hpage.
    destruct ev as [y|m|d| | |page]; cbn in Hev;
      try (destruct Hpage as (-> & -> & ->); repeat split; assumption);
      cbn [handle selectedYear selectedMonth selectedDay];
      repeat split; try assumption.
    + pose proof (years_plain parseInt now dataset Hy) as Hall.
      rewrite Forall_forall in Hall. apply Hall, list_elem_of_In, Hev.
    + pose proof months_plain as Hall.
      rewrite Forall_forall in Hall. apply Hall, list_elem_of_In, Hev.
    + pose proof days_plain as Hall.
      rewrite Forall_forall in Hall. apply Hall, list_elem_of_In, Hev.
Qed.

End CursorFacts.

(** ** KPI roll-up *)
Section KpiFacts.
Import AdminDashboard.

(** The running sum of the totals of a list of records. *)
Lemma sum_totals_step (l : list Sale.t) (z : Z) :
  fold_left Z.add (List.map Sale.total l) z
  = z + fold_left Z.add (List.map Sale.total l) 0.
Proof.
  revert z. induction l as [|s l IH]; simpl; intros z; [lia|].
  rewrite (IH (z + Sale.total s)), (IH (0 + Sale.total s)). lia.
Qed.

(** The ways one turn of the loop can go. *)
Lemma kpiStep_cases st k s :
  let t := Sale.total s in
  kpiStep st k s = k
  \/ kpiStep st k s
     = mkKpi (dayTotal k) (dayCount k) (monthTotal k) (monthCount k)
         (yearTotal k + t) (yearCount k + 1)
  \/ kpiStep st k s
     = mkKpi (dayTotal k) (dayCount k) (monthTotal k + t) (monthCount k + 1)
         (yearTotal k + t) (yearCount k + 1)
  \/ kpiStep st k s
     = mkKpi (dayTotal k + t) (dayCount k + 1) (monthTotal k + t)
         (monthCount k + 1) (yearTotal k + t) (yearCount k + 1).
Proof.
  unfold kpiStep. destruct k; simpl.
  destruct (negb _); [by left|].
  destruct (bool_decide _); [|by left].
  destruct (bool_decide _); [|by right; left].
  destruct (bool_decide _); [by right; right; right | by right; right; left].
Qed.

Lemma kpiStep_counts st k s :
  0 <= dayCount k <= monthCount k /\ monthCount k <= yearCount k ->
  0 <= dayCount (kpiStep st k s) <= monthCount (kpiStep st k s)
  /\ monthCount (kpiStep st k s) <= yearCount (kpiStep st k s).
Proof.
  intros H.
  destruct (kpiStep_cases st k s) as [E|[E|[E|E]]]; rewrite E; simpl; lia.
Qed.

(** A record dated on the cursor day, the cursor parts holding no dash,
    is counted at all three levels. *)
Lemma kpiStep_on_cursor st k s :
  JS.includes "-" (selectedYear st) = false ->
  JS.includes "-" (selectedMonth st) = false ->
  JS.includes "-" (selectedDay st) = false ->
  extractDateOnly s = selectedDateStr st ->
  kpiStep st k s
  = mkKpi (dayTotal k + Sale.total s) (dayCount k + 1)
      (monthTotal k + Sale.total s) (monthCount k + 1)
      (yearTotal k + Sale.total s) (yearCount k + 1).
Proof.
  intros Hy Hm Hd E.
  assert (Hs : selectedDateStr st
               = selectedYear st
                 ++ String "-" (selectedMonth st ++ String "-" (selectedDay st)))
    by reflexivity.
  unfold kpiStep. rewrite E, Hs, truthy_app_sep.
  rewrite (split_app _ _ _ Hy), (split_app _ _ _ Hm), (split_without _ _ Hd).
  simpl. rewrite !bool_decide_eq_true_2 by reflexivity. reflexivity.
Qed.

Lemma kpis_on_cursor st (ds : list Sale.t) :
  JS.includes "-" (selectedYear st) = false ->
  JS.includes "-" (selectedMonth st) = false ->
  JS.includes "-" (selectedDay st) = false ->
  Forall (fun s => extractDateOnly s = selectedDateStr st) ds ->
  forall k,
    fold_left (kpiStep st) ds k
    = let n := Z.of_nat (length ds) in
      let t := fold_left Z.add (List.map Sale.total ds) 0 in
      mkKpi (dayTotal k + t) (dayCount k + n) (monthTotal k + t)
        (monthCount k + n) (yearTotal k + t) (yearCount k + n).
Proof.
  intros Hy Hm Hd Hall. induction Hall as [|s ds Hs Hall IH]; intros k.
  - destruct k; simpl. f_equal; lia.
  - cbn [fold_left List.map length]. rewrite IH.
    rewrite (kpiStep_on_cursor st k s Hy Hm Hd Hs).
    rewrite (sum_totals_step ds (0 + Sale.total s)). simpl.
    f_equal; lia.
Qed.

(** C1.  The KPI roll-up is hierarchical.  A turn of the loop that counts
    a record for the day counts it for the month and the year too, with
    the same amount, so the day count never exceeds the month count nor
    the month count the year count.  When every record of the dataset is
    dated on the cursor day, the three counts are equal, each the size of
    the dataset, and the three totals are equal, each the sum of the
    totals: for every cursor whose parts hold no dash, and so for every
    cursor the component can hold, its parts being options of the
    selectors. *)
Theorem kpi_rollup_hierarchical (dataset : list Sale.t) (st : State) :
  let k := kpis dataset st in
  (forall acc s,
     dayCount (kpiStep st acc s) <> dayCount acc ->
     dayCount (kpiStep st acc s) = dayCount acc + 1
     /\ monthCount (kpiStep st acc s) = monthCount acc + 1
     /\ yearCount (kpiStep st acc s) = yearCount acc + 1
     /\ dayTotal (kpiStep st acc s) = dayTotal acc + Sale.total s
     /\ monthTotal (kpiStep st acc s) = monthTotal acc + Sale.total s
     /\ yearTotal (kpiStep st acc s) = yearTotal acc + Sale.total s)
  /\ (0 <= dayCount k <= monthCount k /\ monthCount k <= yearCount k)
  /\ (JS.includes "-" (selectedYear st) = false ->
      JS.includes "-" (selectedMonth st) = false ->
      JS.includes "-" (selectedDay st) = false ->
      Forall (fun s => extractDateOnly s = selectedDateStr st) dataset ->
      dayCount k = Z.of_nat (length dataset)
      /\ monthCount k = Z.of_nat (length dataset)
      /\ yearCount k = Z.of_nat (length dataset)
      /\ dayTotal k = fold_left Z.add (List.map Sale.total dataset) 0
      /\ monthTotal k = dayTotal k
      /\ yearTotal k = dayTotal k)
  /\ (forall localeCompare parseInt now,
        0 <= JSDate.getFullYear now ->
        0 <= JSDate.getMonth now ->
        0 <= JSDate.getDate now ->
        Reachable localeCompare parseInt now st ->
        Forall (fun s => extractDateOnly s = selectedDateStr st) dataset ->
        dayCount k = monthCount k /\ monthCount k = yearCount k
        /\ dayTotal k = monthTotal k /\ monthTotal k = yearTotal k).
Proof.
  cbv zeta. split; [|split; [|split]].
  - intros acc s Hne.
    destruct (kpiStep_cases st acc s) as [E|[E|[E|E]]];
      rewrite E in Hne |- *; simpl in *; try congruence.
    repeat split; reflexivity.
  - unfold kpis.
    apply (fold_left_invariant
             (fun k => 0 <= dayCount k <= monthCount k
                       /\ monthCount k <= yearCount k)).
    + intros a b. apply kpiStep_counts.
    + simpl. lia.
  - intros Hy Hm Hd Hall. unfold kpis.
    rewrite (kpis_on_cursor st dataset Hy Hm Hd Hall kpi0). simpl.
    repeat split; reflexivity.
  - intros localeCompare parseInt now Hy Hm Hd Hreach Hall.
    destruct (reachable_cursor_plain localeCompare parseInt now st Hy Hm Hd Hreach)
      as (Py & Pm & Pd).
    unfold kpis. rewrite (kpis_on_cursor st dataset Py Pm Pd Hall kpi0). simpl.
    repeat split; reflexivity.
Qed.

End KpiFacts.

(** ** Six-month trend *)
Section TrendFacts.
Import AdminDashboard Props.

Lemma newDate_normal y m : 100 <= y -> JS.newDate y m = (y + m / 12, m mod 12).
Proof.
  intros H. unfold JS.newDate, JS.MakeFullYear.
  replace (y <=? 99) with false by (symmetry; apply Z.leb_gt; lia).
  rewrite andb_false_r. reflexivity.
Qed.

(** The month the loop reaches at index [i]. *)
Lemma trend_current (now : JSDate.t) (i : Z) :
  1970 <= JSDate.getFullYear now ->
  0 <= JSDate.getMonth now <= 11 ->
  0 <= i < 6 ->
  let refDate := JS.newDate (JSDate.getFullYear now) (JSDate.getMonth now) in
  let start := JS.newDate (fst refDate) (snd refDate - (monthsToShow - 1)) in
  JS.newDate (fst start) (snd start + i) = trendMonth now i.
Proof.
  intros Hy Hm Hi. cbv zeta. unfold monthsToShow, trendMonth.
  set (Y := JSDate.getFullYear now) in *. set (M := JSDate.getMonth now) in *.
  rewrite (newDate_normal Y M) by lia. cbn [fst snd].
  rewrite (newDate_normal (Y + M / 12) (M mod 12 - (6 - 1)))
    by (Z.div_mod_to_equations; lia).
  cbn [fst snd].
  rewrite newDate_normal by (Z.div_mod_to_equations; lia).
  f_equal; Z.div_mod_to_equations; lia.
Qed.

Lemma trendMonth_range now i :
  0 <= snd (trendMonth now i) <= 11.
Proof. unfold trendMonth. cbn [snd]. Z.div_mod_to_equations; lia. Qed.

Lemma trendMonth_year now i :
  0 <= JSDate.getMonth now <= 11 -> 0 <= i < 6 ->
  JSDate.getFullYear now - 1 <= fst (trendMonth now i) <= JSDate.getFullYear now.
Proof. intros. unfold trendMonth. cbn [fst]. Z.div_mod_to_equations; lia. Qed.

Lemma trendMonth_now now :
  0 <= JSDate.getMonth now <= 11 ->
  trendMonth now 5 = (JSDate.getFullYear now, JSDate.getMonth now).
Proof.
  intros. unfold trendMonth. f_equal; Z.div_mod_to_equations; lia.
Qed.

Lemma trendMonth_next now i :
  trendMonth now (i + 1) = nextMonth (trendMonth now i).
Proof.
  unfold trendMonth, nextMonth. cbn [fst snd].
  destruct (Z.eqb_spec ((JSDate.getMonth now + i - 5) mod 12) 11);
    f_equal; Z.div_mod_to_equations; lia.
Qed.

(** The label of a month: three letters of its name. *)
Lemma month_label m :
  0 <= m <= 11 ->
  JS.sliceTo 3 (getMonthName (JS.padStart2 (JS.ofZ (m + 1)))) = monthAbbrev m.
Proof.
  intros H.
  assert (E : m = 0 \/ m = 1 \/ m = 2 \/ m = 3 \/ m = 4 \/ m = 5 \/ m = 6
              \/ m = 7 \/ m = 8 \/ m = 9 \/ m = 10 \/ m = 11) by lia.
  repeat (destruct E as [-> | E]; [reflexivity|]). subst m. reflexivity.
Qed.

(** A check over a range of integers, run once and used pointwise. *)
Lemma range_check (P : Z -> bool) (lo len : Z) :
  forallb P (seqZ lo len) = true ->
  forall y, lo <= y < lo + len -> P y = true.
Proof.
  intros H y Hy. rewrite forallb_forall in H. apply H.
  apply list_elem_of_In, elem_of_seqZ. lia.
Qed.

(** The label of a four-digit year: its last two digits. *)
Lemma year_label y :
  1000 <= y <= 9999 -> JS.sliceFrom 2 (JS.ofZ y) = twoDigitYear y.
Proof.
  intros H.
  apply String.eqb_eq.
  apply (range_check
           (fun y => String.eqb (JS.sliceFrom 2 (JS.ofZ y)) (twoDigitYear y))
           1000 9000); [vm_compute; reflexivity | lia].
Qed.

(** What the map of totals holds for a key once the loop is through. *)
Lemma totals_lookup (k : string) (dataset : list Sale.t) :
  forall totals : gmap string Z,
    default 0 (fold_left totalsStep dataset totals !! k)
    = default 0 (totals !! k) + bucketTotal k dataset.
Proof.
  induction dataset as [|s ds IH]; intros totals; simpl; [lia|].
  rewrite IH. unfold totalsStep.
  destruct (bucketKey s) as [key|] eqn:E.
  - case_bool_decide as Hk.
    + inversion Hk; subst key. rewrite lookup_insert_eq. simpl. lia.
    + rewrite lookup_insert_ne by congruence. reflexivity.
  - rewrite bool_decide_eq_false_2 by discriminate. reflexivity.
Qed.

Lemma bucketTotal_empty (k : string) (dataset : list Sale.t) :
  (forall s, In s dataset -> bucketKey s <> Some k) ->
  bucketTotal k dataset = 0.
Proof.
  induction dataset as [|s ds IH]; intros H; simpl; [reflexivity|].
  rewrite bool_decide_eq_false_2 by (apply H; left; reflexivity).
  apply IH. intros s' Hs'. apply H. right. exact Hs'.
Qed.

(** The series, entry by entry. *)
Lemma monthlySeries_entries (now : JSDate.t) (dataset : list Sale.t) :
  1970 <= JSDate.getFullYear now <= 9999 ->
  0 <= JSDate.getMonth now <= 11 ->
  monthlySeries now dataset
  = List.map
      (fun i =>
         let ym := trendMonth now i in
         mkPoint (monthKey ym)
           (monthAbbrev (snd ym) ++ " " ++ twoDigitYear (fst ym))
           (bucketTotal (monthKey ym) dataset)
           (i =? 5))
      (seqZ 0 6).
Proof.
  intros Hy Hm. unfold monthlySeries.
  change (seqZ 0 monthsToShow) with (seqZ 0 6).
  apply List.map_ext_in. intros i Hi.
  apply list_elem_of_In, elem_of_seqZ in Hi.
  rewrite (trend_current now i) by lia.
  pose proof (trendMonth_range now i) as Hr.
  pose proof (trendMonth_year now i Hm ltac:(lia)) as Hyr.
  rewrite month_label by exact Hr.
  rewrite year_label by lia.
  rewrite totals_lookup, lookup_empty. reflexivity.
Qed.

End TrendFacts.

Section TrendTheorem.
Import AdminDashboard Props.
Variable localeCompare : string -> string -> Z.

Lemma monthAbbrev_length m : 0 <= m <= 11 -> String.length (monthAbbrev m) = 3%nat.
Proof.
  intros H.
  apply Nat.eqb_eq.
  apply (range_check (fun m => Nat.eqb (String.length (monthAbbrev m)) 3) 0 12);
    [vm_compute; reflexivity | lia].
Qed.

Lemma twoDigitYear_length y : String.length (twoDigitYear y) = 2%nat.
Proof.
  unfold twoDigitYear.
  assert (H : 0 <= y mod 100 < 0 + 100) by (Z.div_mod_to_equations; lia).
  apply Nat.eqb_eq.
  apply (range_check
           (fun r => Nat.eqb (String.length (JS.padStart2 (JS.ofZ r))) 2) 0 100);
    [vm_compute; reflexivity | exact H].
Qed.

(** C2.  Whatever the dataset and the cursor, the trend series has exactly
    six entries; they stand for six consecutive months, the last of them
    the month of the real current date, which is the entry flagged as
    current; each entry is keyed by its year and month, labelled with the
    three-letter month abbreviation and the two digits of the year, and
    valued with the sum of the totals of its bucket, which is 0 for a
    bucket no record falls in.  (The current date is a real one: a year
    from 1970 to 9999, a month from 0 to 11.) *)
Theorem trend_series_six_months
    (now : JSDate.t) (dataset : list Sale.t) (st : State) :
  1970 <= JSDate.getFullYear now <= 9999 ->
  0 <= JSDate.getMonth now <= 11 ->
  let series := vSeries (render localeCompare now dataset st) in
  length series = 6%nat
  /\ List.map isCurrent series = [false; false; false; false; false; true]
  /\ exists months : list (Z * Z),
       last months = Some (JSDate.getFullYear now, JSDate.getMonth now)
       /\ (forall i a b,
             months !! i = Some a -> months !! S i = Some b -> b = nextMonth a)
       /\ Forall2
            (fun p ym =>
               0 <= snd ym <= 11
               /\ key p = monthKey ym
               /\ label p = monthAbbrev (snd ym) ++ " " ++ twoDigitYear (fst ym)
               /\ String.length (monthAbbrev (snd ym)) = 3%nat
               /\ String.length (twoDigitYear (fst ym)) = 2%nat
               /\ value p = bucketTotal (key p) dataset
               /\ ((forall s, In s dataset -> bucketKey s <> Some (key p)) ->
                   value p = 0))
            series months.
Proof.
  intros Hy Hm. cbv zeta. cbn [render vSeries].
  rewrite (monthlySeries_entries now dataset Hy Hm).
  change (seqZ 0 6) with [0; 1; 2; 3; 4; 5].
  split; [reflexivity|]. split; [reflexivity|].
  exists (List.map (trendMonth now) [0; 1; 2; 3; 4; 5]).
  split; [|split].
  - cbn [List.map last]. rewrite (trendMonth_now now Hm). reflexivity.
  - intros i a b Ha Hb.
    do 5 (destruct i as [|i];
          [cbn in Ha, Hb; inversion Ha; inversion Hb;
           match goal with
           | |- _ = nextMonth (trendMonth _ ?j) => exact (trendMonth_next now j)
           end |]).
    destruct i; discriminate Hb.
  - cbn [List.map].
    repeat (apply List.Forall2_cons;
            [ cbn [key label value];
              (split; [apply trendMonth_range|]);
              (split; [reflexivity|]); (split; [reflexivity|]);
              (split; [apply monthAbbrev_length, trendMonth_range|]);
              (split; [apply twoDigitYear_length|]);
              (split; [reflexivity|]); apply bucketTotal_empty
            | ]).
    apply List.Forall2_nil.
Qed.

End TrendTheorem.

Section AggregationWitnesses.
Import AdminDashboard Props Samples.

Lemma kpi_rollup_hierarchical_witness :
  (dayCount (kpis sameDay march5) = 2
   /\ monthCount (kpis sameDay march5) = 2
   /\ yearCount (kpis sameDay march5) = 2
   /\ dayTotal (kpis sameDay march5) = 1800
   /\ monthTotal (kpis sameDay march5) = dayTotal (kpis sameDay march5)
   /\ yearTotal (kpis sameDay march5) = dayTotal (kpis sameDay march5))
  /\ (let picked := step codeOrder mixed (SetSelectedDay "05") (initial mid_march) in
      dayCount (kpis sameDay picked) = monthCount (kpis sameDay picked)
      /\ monthCount (kpis sameDay picked) = yearCount (kpis sameDay picked)
      /\ dayTotal (kpis sameDay picked) = monthTotal (kpis sameDay picked)
      /\ monthTotal (kpis sameDay picked) = yearTotal (kpis sameDay picked)).
Proof.
  assert (Hall : Forall (fun s => extractDateOnly s = selectedDateStr march5)
                   sameDay)
    by (repeat constructor).
  split.
  - apply (proj1 (proj2 (proj2 (kpi_rollup_hierarchical sameDay march5))));
      try reflexivity.
    exact Hall.
  - cbv zeta.
    apply (proj2 (proj2 (proj2
             (kpi_rollup_hierarchical sameDay
                (step codeOrder mixed (SetSelectedDay "05") (initial mid_march)))))
             codeOrder (fun _ => None) mid_march);
      try (simpl; lia).
    + apply reach_step; [apply reach_initial|].
      cbn. repeat (first [left; reflexivity | right]).
    + exact Hall.
Defined.

Lemma trend_series_six_months_witness :
  (1970 <= JSDate.getFullYear mid_march <= 9999
   /\ 0 <= JSDate.getMonth mid_march <= 11)
  /\ length (vSeries (render codeOrder mid_march mixed march5)) = 6%nat.
Proof.
  assert (Hy : 1970 <= JSDate.getFullYear mid_march <= 9999) by (simpl; lia).
  assert (Hm : 0 <= JSDate.getMonth mid_march <= 11) by (simpl; lia).
  split; [split; assumption|].
  exact (proj1 (trend_series_six_months codeOrder mid_march mixed march5 Hy Hm)).
Defined.

(** The series of the sample data: October 2023 to March 2024. *)
Example trend_series_sample :
  List.map (fun p => (key p, label p, value p)) (monthlySeries mid_march mixed)
  = [ ("2023-10", "Oct 23", 0); ("2023-11", "Nov 23", 0);
      ("2023-12", "Dec 23", 1200); ("2024-01", "Jan 24", 0);
      ("2024-02", "Feb 24", 0); ("2024-03", "Mar 24", 2770) ].
Proof. vm_compute. reflexivity. Qed.

End AggregationWitnesses.

(** ** Month-over-month delta *)
Section DeltaFacts.
Import RevenueChart.

(** On binary64 a number above zero is not zero, and zero is not above
    zero. *)
Lemma positive_not_zero (x : float) :
  PrimFloat.ltb 0 x = true -> PrimFloat.eqb x 0 = false.
Proof.
  rewrite FloatAxioms.ltb_spec, FloatAxioms.eqb_spec.
  destruct (Prim2SF x) as [ [] | [] | | [] m e]; vm_compute; congruence.
Qed.

Lemma zero_not_positive (x : float) :
  PrimFloat.eqb x 0 = true -> PrimFloat.ltb 0 x = false.
Proof.
  rewrite FloatAxioms.ltb_spec, FloatAxioms.eqb_spec.
  destruct (Prim2SF x) as [ [] | [] | | [] m e]; vm_compute; congruence.
Qed.

(** The tenths [toFixed1] prints are the nearest to ten times the number,
    [m * 2^e]: exact when that is whole, else within a half, a tie going
    up. *)
Lemma tenths_nearest (m : positive) (e : Z) :
  (0 <= e -> tenths m e = 10 * (Z.pos m * 2 ^ e))
  /\ (e < 0 ->
      2 * tenths m e * 2 ^ (- e) <= 20 * Z.pos m + 2 ^ (- e)
      /\ 20 * Z.pos m + 2 ^ (- e) < 2 * (tenths m e + 1) * 2 ^ (- e)).
Proof.
  unfold tenths. split; intros He.
  - replace (0 <=? e) with true by (symmetry; apply Z.leb_le; lia). lia.
  - replace (0 <=? e) with false by (symmetry; apply Z.leb_gt; lia).
    assert (Hpow : 0 < 2 ^ (- e)) by (apply Z.pow_pos_nonneg; lia).
    rewrite Z.pow_add_r by lia. change (2 ^ 1) with 2.
    set (d := 2 ^ (- e)) in *. set (a := 20 * Z.pos m + d).
    pose proof (Z.mul_div_le a (d * 2) ltac:(lia)).
    pose proof (Z.mul_succ_div_gt a (d * 2) ltac:(lia)).
    lia.
Qed.

(** C3.  The delta text as a function of the previous and the current
    month's totals: both zero give the neutral text; a zero previous month
    and a positive current month give the qualitative "New" text, with no
    percentage and no division; a positive previous month gives the
    percentage change 100 * (c - p) / p, its magnitude printed with one
    decimal after the marker of its direction (up when c - p >= 0, down
    otherwise).  So (1000, 1500) reads up 50.0%, (1000, 500) down 50.0%,
    (0, 500) New and (0, 0) neutral. *)
Theorem delta_classification :
  (forall p c : float,
     PrimFloat.eqb p 0 = true -> PrimFloat.eqb c 0 = true ->
     deltaCopy p c = Some neutralCopy)
  /\ (forall p c : float,
        PrimFloat.eqb p 0 = true -> PrimFloat.ltb 0 c = true ->
        deltaCopy p c = Some newCopy)
  /\ (forall p c : float,
        PrimFloat.ltb 0 p = true ->
        deltaCopy p c
        = option_map
            (fun pct =>
               (if PrimFloat.leb 0 (PrimFloat.sub c p) then up else down)
               ++ " " ++ pct ++ "% vs last month")
            (toFixed1
               (PrimFloat.abs
                  (PrimFloat.mul (PrimFloat.div (PrimFloat.sub c p) p) 100))))
  /\ deltaCopy 1000 1500 = Some "▲ 50.0% vs last month"
  /\ deltaCopy 1000 500 = Some "▼ 50.0% vs last month"
  /\ deltaCopy 0 500 = Some "▲ New vs last month"
  /\ deltaCopy 0 0 = Some "— vs last month".
Proof.
  split; [|split; [|split]].
  - intros p c Hp Hc. unfold deltaCopy.
    rewrite Hp, Hc, (zero_not_positive c Hc). reflexivity.
  - intros p c Hp Hc. unfold deltaCopy. rewrite Hp, Hc. reflexivity.
  - intros p c Hp. unfold deltaCopy.
    rewrite (positive_not_zero p Hp), Hp. reflexivity.
  - repeat split; vm_compute; reflexivity.
Qed.

Lemma delta_classification_witness :
  deltaCopy 0 0 = Some neutralCopy
  /\ deltaCopy 0 730 = Some newCopy
  /\ deltaCopy 800 1000 = Some "▲ 25.0% vs last month".
Proof.
  destruct delta_classification as (Hneutral & Hnew & Hpct & _).
  split; [|split].
  - exact (Hneutral 0%float 0%float eq_refl eq_refl).
  - exact (Hnew 0%float 730%float eq_refl eq_refl).
  - rewrite (Hpct 800%float 1000%float eq_refl). vm_compute. reflexivity.
Defined.

(** A tie that binary64 breaks downwards: 3 in 2000 is 0.15 percent, but
    the quotient computed is just under it. *)
Example delta_rounding_sample :
  deltaCopy 2000 2003 = Some "▲ 0.1% vs last month".
Proof. vm_compute. reflexivity. Qed.

End DeltaFacts.

(** ** Offline session cache *)
Section OfflineLoginFacts.
Import AppContext Props.
Variable sha256Hex : list Z -> string -> string.

(** What is read back from a cache entry. *)
Lemma tryLogin_cached env (ls : gmap string Stored) c email password :
  isBrowser env = true ->
  ls !! OFFLINE_SESSION_KEY = Some (StoredSession c) ->
  tryOfflineSessionLogin sha256Hex env ls email password
  = if String.eqb (CachedSession.email c) email
       && String.eqb (hashWithSalt sha256Hex env password (CachedSession.salt c))
            (CachedSession.hash c)
    then Some (CachedSession.user c) else None.
Proof.
  intros Hb Hc. unfold tryOfflineSessionLogin. rewrite Hb, Hc. simpl.
  destruct (String.eqb (CachedSession.email c) email); simpl; [|reflexivity].
  destruct (String.eqb _ (CachedSession.hash c)); reflexivity.
Qed.

Lemma tryLogin_no_cache env (ls : gmap string Stored) email password :
  ls !! OFFLINE_SESSION_KEY = None -> tryOfflineSessionLogin sha256Hex env ls email password = None.
Proof.
  intros Hc. unfold tryOfflineSessionLogin. rewrite Hc.
  destruct (negb (isBrowser env)); reflexivity.
Qed.

(** What a successful online login leaves in the cache. *)
Lemma persist_written env salt email password u (ls : gmap string Stored) :
  isBrowser env = true -> hasSubtle env = true ->
  persistOfflineSession sha256Hex env salt email password u ls !! OFFLINE_SESSION_KEY
  = Some (StoredSession
            (CachedSession.mk email salt
               (hashWithSalt sha256Hex env password salt) (minimalUser u))).
Proof.
  intros Hb Hs. unfold persistOfflineSession. rewrite Hb, Hs. simpl.
  apply lookup_insert_eq.
Qed.

Lemma login_offline_failed env signIn salt email password c :
  isOnline c = false ->
  tryOfflineSessionLogin sha256Hex env (localStorage c) email password = None ->
  login sha256Hex env signIn salt email password c = offlineLoginFailed c.
Proof.
  intros Ho Hn. unfold login, offlineLoginFailed. rewrite Ho, Hn. reflexivity.
Qed.

(** C4.  Offline login against the cache written for email [e] and
    password [p].  An attempt is answered with the cached minimal user
    record exactly when it gives the email [e] and a password whose digest
    under the cached salt is the cached digest, and with nothing
    otherwise; [login] then signs that user in.  A different email, a wrong
    password and a missing cache entry all leave the same state: the one
    error message, nothing else changed. *)
Theorem offline_login_iff
    (env : Env) (salt : list Z) (e p : string) (u : User.t)
    (ls0 : gmap string Stored) :
  isBrowser env = true ->
  hasSubtle env = true ->
  let ls := persistOfflineSession sha256Hex env salt e p u ls0 in
  let digest pw := hashWithSalt sha256Hex env pw salt in
  (forall e' p',
     tryOfflineSessionLogin sha256Hex env ls e' p' = Some (minimalUser u)
     <-> e' = e /\ digest p' = digest p)
  /\ (forall e' p',
        ~ (e' = e /\ digest p' = digest p) -> tryOfflineSessionLogin sha256Hex env ls e' p' = None)
  /\ (forall (empty : gmap string Stored) e' p',
        empty !! OFFLINE_SESSION_KEY = None -> tryOfflineSessionLogin sha256Hex env empty e' p' = None)
  /\ (forall signIn salt' c p',
        isOnline c = false -> localStorage c = ls -> digest p' = digest p ->
        login sha256Hex env signIn salt' e p' c
        = mkCtx (Some (minimalUser u)) None
            (toasts c ++ [("Signed in (offline mode)", "success")])
            (isOnline c) (localStorage c))
  /\ (forall signIn salt' c e' p',
        isOnline c = false ->
        (localStorage c = ls /\ e' <> e
         \/ localStorage c = ls /\ digest p' <> digest p
         \/ localStorage c !! OFFLINE_SESSION_KEY = None) ->
        login sha256Hex env signIn salt' e' p' c = offlineLoginFailed c).
Proof.
  intros Hb Hs ls digest.
  pose proof (persist_written env salt e p u ls0 Hb Hs) as Hw. fold ls in Hw.
  assert (Hread : forall e' p',
             tryOfflineSessionLogin sha256Hex env ls e' p'
             = if String.eqb e e' && String.eqb (digest p') (digest p)
               then Some (minimalUser u) else None).
  { intros e' p'. rewrite (tryLogin_cached env ls _ e' p' Hb Hw). reflexivity. }
  assert (Hiff : forall e' p',
             tryOfflineSessionLogin sha256Hex env ls e' p' = Some (minimalUser u)
             <-> e' = e /\ digest p' = digest p).
  { intros e' p'. rewrite Hread.
    destruct (String.eqb_spec e e') as [->|Hne];
      destruct (String.eqb_spec (digest p') (digest p)) as [Hd|Hd]; simpl;
      split; try (intros [? ?]); try discriminate; try congruence; auto. }
  assert (Hnone : forall e' p',
             ~ (e' = e /\ digest p' = digest p) -> tryOfflineSessionLogin sha256Hex env ls e' p' = None).
  { intros e' p' Hnot. rewrite Hread.
    destruct (String.eqb_spec e e') as [->|Hne];
      destruct (String.eqb_spec (digest p') (digest p)) as [Hd|Hd]; simpl;
      try reflexivity.
    exfalso. apply Hnot. split; [reflexivity | exact Hd]. }
  split; [exact Hiff|]. split; [exact Hnone|]. split; [|split].
  - intros empty e' p' Hempty. apply tryLogin_no_cache, Hempty.
  - intros signIn salt' c p' Ho Hls Hd. unfold login. rewrite Ho, Hls. simpl.
    rewrite (proj2 (Hiff e p') (conj eq_refl Hd)). reflexivity.
  - intros signIn salt' c e' p' Ho Hcause.
    apply login_offline_failed; [exact Ho|].
    destruct Hcause as [[Hls Hne] | [[Hls Hd] | Hnone']].
    + rewrite Hls. apply Hnone. intros [He _]. exact (Hne He).
    + rewrite Hls. apply Hnone. intros [_ Hd']. exact (Hd Hd').
    + apply tryLogin_no_cache, Hnone'.
Qed.

End OfflineLoginFacts.

Section OfflineLoginWitness.
Import AppContext Props Samples.

(** The cache written for alice and "pw1", tried with a wrong password,
    with another email, and with the right pair. *)
Lemma offline_login_iff_witness :
  let ls := persistOfflineSession sampleDigest fullBrowser sampleSalt
              "alice@x.com" "pw1" alice ∅ in
  tryOfflineSessionLogin sampleDigest fullBrowser ls "alice@x.com" "wrong" = None
  /\ tryOfflineSessionLogin sampleDigest fullBrowser ls "bob@x.com" "pw1" = None
  /\ tryOfflineSessionLogin sampleDigest fullBrowser ls "alice@x.com" "pw1"
     = Some (minimalUser alice).
Proof.
  cbv zeta.
  destruct (offline_login_iff sampleDigest fullBrowser sampleSalt
              "alice@x.com" "pw1" alice ∅ eq_refl eq_refl)
    as (Hiff & Hnone & _).
  split; [|split].
  - apply Hnone. intros [_ H]. discriminate H.
  - apply Hnone. intros [H _]. discriminate H.
  - apply Hiff. split; reflexivity.
Defined.

End OfflineLoginWitness.

(** ** Hashing without the platform's crypto *)
Section NoCryptoFacts.
Import AppContext Props.
Variable sha256Hex : list Z -> string -> string.

Lemma hashWithSalt_fallback env value salt :
  hasTextEncoder env = false \/ hasSubtle env = false ->
  hashWithSalt sha256Hex env value salt = value.
Proof.
  intros [H|H]; unfold hashWithSalt; rewrite H; simpl;
    [reflexivity | rewrite orb_true_r; reflexivity].
Qed.

(** C10, as the code has it.  Without [TextEncoder] or without
    [crypto.subtle], [hashWithSalt] returns its input unchanged, whatever
    the salt, so checking an attempt against a cache entry is plain string
    equality of the supplied password with the stored hash.  What is
    stored differs: a browser with [crypto.subtle] but no [TextEncoder]
    stores the plaintext password as the hash; without [crypto.subtle]
    [persistOfflineSession] writes nothing at all. *)
Theorem no_crypto_fallback (env : Env) :
  hasTextEncoder env = false \/ hasSubtle env = false ->
  (forall value salt, hashWithSalt sha256Hex env value salt = value)
  /\ (isBrowser env = true ->
      forall (ls : gmap string Stored) c e' p',
        ls !! OFFLINE_SESSION_KEY = Some (StoredSession c) ->
        (tryOfflineSessionLogin sha256Hex env ls e' p' = Some (CachedSession.user c)
         <-> e' = CachedSession.email c /\ p' = CachedSession.hash c))
  /\ (isBrowser env = true -> hasSubtle env = true ->
      forall salt e p u (ls : gmap string Stored),
        persistOfflineSession sha256Hex env salt e p u ls !! OFFLINE_SESSION_KEY
        = Some (StoredSession (CachedSession.mk e salt p (minimalUser u))))
  /\ (hasSubtle env = false ->
      forall salt e p u (ls : gmap string Stored),
        persistOfflineSession sha256Hex env salt e p u ls = ls).
Proof.
  intros Hno.
  assert (Hh : forall value salt, hashWithSalt sha256Hex env value salt = value)
    by (intros; apply hashWithSalt_fallback, Hno).
  split; [exact Hh|]. split; [|split].
  - intros Hb ls c e' p' Hc.
    rewrite (tryLogin_cached sha256Hex env ls c e' p' Hb Hc), Hh.
    destruct (String.eqb_spec (CachedSession.email c) e') as [He|He];
      destruct (String.eqb_spec p' (CachedSession.hash c)) as [Hp|Hp]; simpl;
      split; try (intros [? ?]); try discriminate; try congruence; auto.
  - intros Hb Hs salt e p u ls.
    rewrite (persist_written sha256Hex env salt e p u ls Hb Hs), Hh.
    reflexivity.
  - intros Hs salt e p u ls. unfold persistOfflineSession. rewrite Hs.
    simpl. rewrite orb_true_r. reflexivity.
Qed.

End NoCryptoFacts.

Section NoCryptoWitness.
Import AppContext Props Samples.

Lemma no_crypto_fallback_witness :
  hashWithSalt sampleDigest noTextEncoder "pw1" sampleSalt = "pw1"
  /\ persistOfflineSession sampleDigest noTextEncoder sampleSalt
       "alice@x.com" "pw1" alice ∅ !! OFFLINE_SESSION_KEY
     = Some (StoredSession
               (CachedSession.mk "alice@x.com" sampleSalt "pw1"
                  (minimalUser alice))).
Proof.
  destruct (no_crypto_fallback sampleDigest noTextEncoder (or_introl eq_refl))
    as (Hh & _ & Hstored & _).
  split.
  - apply Hh.
  - apply Hstored; reflexivity.
Defined.

(** Without [crypto.subtle] the hash of a password is the password, yet
    after a successful online login the cache holds no entry whose stored
    digest is that password: it holds no entry at all. *)
Lemma no_subtle_stores_nothing :
  (hasTextEncoder noSubtle = false \/ hasSubtle noSubtle = false)
  /\ hashWithSalt sampleDigest noSubtle "pw1" sampleSalt = "pw1"
  /\ ~ (exists c,
          persistOfflineSession sampleDigest noSubtle sampleSalt
            "alice@x.com" "pw1" alice ∅ !! OFFLINE_SESSION_KEY
          = Some (StoredSession c)
          /\ CachedSession.hash c = "pw1").
Proof.
  split; [right; reflexivity|]. split; [reflexivity|].
  intros [c [H _]]. discriminate H.
Qed.

End NoCryptoWitness.

(** ** Date extraction *)
Section DateFacts.
Import AdminDashboard Props.
Variable localeCompare : string -> string -> Z.

(** A character of a plain date, a digit or the dash, is not the letter
    that separates date and time. *)
Lemma date_char_not_T c :
  JS.isDigit c || Ascii.eqb c "-" = true -> Ascii.eqb c "T" = false.
Proof.
  destruct c as [[] [] [] [] [] [] [] []]; vm_compute; congruence.
Qed.

Lemma isYMD_chars d :
  isYMD d = true ->
  JS.truthy d = true /\ JS.includes "T" d = false.
Proof.
  unfold isYMD.
  do 10 (destruct d as [|? d]; [discriminate|]).
  destruct d; [|discriminate]. cbn [list_ascii_of_string].
  intros H. repeat (apply andb_prop in H; destruct H as [H ?]).
  split; [reflexivity|]. cbn [JS.includes].
  rewrite !date_char_not_T; [reflexivity | ..];
    unfold JS.isDigit in *;
    repeat match goal with
           | Hc : _ = true |- _ => rewrite Hc; clear Hc
           end;
    rewrite ?orb_true_r; reflexivity.
Qed.

Lemma includes_sep_app c a b : JS.includes c (a ++ String c b) = true.
Proof.
  rewrite includes_app. simpl. rewrite Ascii.eqb_refl.
  apply orb_true_r.
Qed.

(** The three ways a date is read, and the way none is. *)
Lemma extract_plain s d :
  Sale.date s = Some d -> isYMD d = true -> extractDateOnly s = d.
Proof.
  intros Hd Hy. destruct (isYMD_chars d Hy) as [Ht _].
  unfold extractDateOnly, JS.orElse. rewrite Hd, Ht, Ht, Hy. reflexivity.
Qed.

Lemma extract_before_T s d rest :
  Sale.date s = Some (d ++ String "T" rest) ->
  JS.includes "T" d = false ->
  extractDateOnly s = d.
Proof.
  intros Hd Hno.
  assert (Hy : isYMD (d ++ String "T" rest) = false).
  { destruct (isYMD (d ++ String "T" rest)) eqn:E; [|reflexivity].
    apply isYMD_chars in E. destruct E as [_ E].
    rewrite includes_sep_app in E. discriminate E. }
  unfold extractDateOnly, JS.orElse.
  rewrite Hd, truthy_app_sep, truthy_app_sep, Hy, includes_sep_app.
  simpl. rewrite (split_app _ _ _ Hno). reflexivity.
Qed.

Lemma extract_created s ca :
  Sale.date s = None \/ Sale.date s = Some "" ->
  Sale.createdAt s = Some ca ->
  extractDateOnly s
  = JS.ofZ (JSDate.getFullYear ca) ++ "-"
    ++ JS.padStart2 (JS.ofZ (JSDate.getMonth ca + 1)) ++ "-"
    ++ JS.padStart2 (JS.ofZ (JSDate.getDate ca)).
Proof.
  intros [Hd|Hd] Hc; unfold extractDateOnly, JS.orElse; rewrite Hd, Hc;
    reflexivity.
Qed.

Lemma extract_nothing s :
  Sale.date s = None \/ Sale.date s = Some "" ->
  Sale.createdAt s = None ->
  extractDateOnly s = "".
Proof.
  intros [Hd|Hd] Hc; unfold extractDateOnly, JS.orElse; rewrite Hd, Hc;
    reflexivity.
Qed.

(** The aggregates read a record's date through [extractDateOnly] only. *)
Lemma kpiStep_ext st k a b :
  extractDateOnly a = extractDateOnly b -> Sale.total a = Sale.total b ->
  kpiStep st k a = kpiStep st k b.
Proof. intros Hd Ht. unfold kpiStep. rewrite Hd, Ht. reflexivity. Qed.

Lemma totalsStep_ext totals a b :
  extractDateOnly a = extractDateOnly b -> Sale.total a = Sale.total b ->
  totalsStep totals a = totalsStep totals b.
Proof.
  intros Hd Ht. unfold totalsStep, bucketKey. rewrite Hd, Ht. reflexivity.
Qed.

Lemma fold_left_ext2 {S : Type} (f : S -> Sale.t -> S) (l1 l2 : list Sale.t) :
  Forall2 (fun a b => forall acc, f acc a = f acc b) l1 l2 ->
  forall acc, fold_left f l1 acc = fold_left f l2 acc.
Proof.
  induction 1 as [|a b l1 l2 Hab _ IH]; intros acc; simpl; [reflexivity|].
  rewrite Hab. apply IH.
Qed.

Lemma filter_length_ext (f : Sale.t -> bool) (l1 l2 : list Sale.t) :
  Forall2 (fun a b => f a = f b) l1 l2 ->
  length (List.filter f l1) = length (List.filter f l2).
Proof.
  induction 1 as [|a b l1 l2 Hab _ IH]; simpl; [reflexivity|].
  rewrite Hab. destruct (f b); simpl; congruence.
Qed.

(** A record without a date leaves every turn of the loops unchanged. *)
Lemma kpiStep_undated st k s : extractDateOnly s = "" -> kpiStep st k s = k.
Proof. intros H. unfold kpiStep. rewrite H. reflexivity. Qed.

Lemma totalsStep_undated totals s :
  extractDateOnly s = "" -> totalsStep totals s = totals.
Proof. intros H. unfold totalsStep, bucketKey. rewrite H. reflexivity. Qed.

Lemma selectedDateStr_not_empty st : selectedDateStr st <> "".
Proof.
  unfold selectedDateStr. destruct (selectedYear st); discriminate.
Qed.

(** C5.  Date extraction returns a string for every record, and
    normalizes: a plain YYYY-MM-DD date is returned as it is; of a date
    with a T only the part before the first T is returned, so that
    2024-03-05T10:22:00Z and 2024-03-05 extract to the same date, and
    records that differ in nothing the extraction keeps are aggregated
    alike; an absent date falls back to the local-calendar date of the
    creation timestamp; and a record for which the extraction returns the
    empty string changes neither the day, month and year KPIs, nor the
    trend series, nor the filtered listing: it is dropped, not reported. *)
Theorem date_extraction_normalizes :
  (forall s d, Sale.date s = Some d -> isYMD d = true -> extractDateOnly s = d)
  /\ (forall s d rest,
        Sale.date s = Some (d ++ String "T" rest) ->
        JS.includes "T" d = false ->
        extractDateOnly s = d)
  /\ (forall s1 s2,
        Sale.date s1 = Some "2024-03-05T10:22:00Z" ->
        Sale.date s2 = Some "2024-03-05" ->
        extractDateOnly s1 = "2024-03-05" /\ extractDateOnly s2 = "2024-03-05")
  /\ (forall now st ds1 ds2,
        Forall2 (fun a b => extractDateOnly a = extractDateOnly b
                            /\ Sale.total a = Sale.total b) ds1 ds2 ->
        kpis ds1 st = kpis ds2 st
        /\ monthlySeries now ds1 = monthlySeries now ds2
        /\ length (filteredRecent localeCompare ds1 st) = length (filteredRecent localeCompare ds2 st))
  /\ (forall s ca,
        Sale.date s = None \/ Sale.date s = Some "" ->
        Sale.createdAt s = Some ca ->
        extractDateOnly s
        = JS.ofZ (JSDate.getFullYear ca) ++ "-"
          ++ JS.padStart2 (JS.ofZ (JSDate.getMonth ca + 1)) ++ "-"
          ++ JS.padStart2 (JS.ofZ (JSDate.getDate ca)))
  /\ (forall s,
        Sale.date s = None \/ Sale.date s = Some "" ->
        Sale.createdAt s = None ->
        extractDateOnly s = "")
  /\ (forall s,
        extractDateOnly s = "" ->
        forall now st before after,
          kpis (before ++ s :: after) st = kpis (before ++ after) st
          /\ monthlySeries now (before ++ s :: after)
             = monthlySeries now (before ++ after)
          /\ filteredRecent localeCompare (before ++ s :: after) st
             = filteredRecent localeCompare (before ++ after) st).
Proof.
  split; [exact extract_plain|]. split; [exact extract_before_T|].
  split; [|split; [|split; [exact extract_created|split; [exact extract_nothing|]]]].
  - intros s1 s2 H1 H2. split.
    + apply (extract_before_T s1 "2024-03-05" "10:22:00Z"); [exact H1|reflexivity].
    + apply extract_plain; [exact H2|reflexivity].
  - intros now st ds1 ds2 Hrel. split; [|split].
    + unfold kpis. apply fold_left_ext2.
      eapply Forall2_impl; [exact Hrel|]. intros a b [Hd Ht] acc.
      apply kpiStep_ext; assumption.
    + unfold monthlySeries.
      rewrite (fold_left_ext2 totalsStep ds1 ds2); [reflexivity|].
      eapply Forall2_impl; [exact Hrel|]. intros a b [Hd Ht] acc.
      apply totalsStep_ext; assumption.
    + unfold filteredRecent. rewrite !sortBy_length.
      apply filter_length_ext.
      eapply Forall2_impl; [exact Hrel|]. intros a b [Hd _].
      cbv beta. rewrite Hd. reflexivity.
  - intros s Hs now st before after. split; [|split].
    + unfold kpis. apply fold_left_skip. intros k. apply kpiStep_undated, Hs.
    + unfold monthlySeries. rewrite fold_left_skip; [reflexivity|].
      intros totals. apply totalsStep_undated, Hs.
    + unfold filteredRecent. rewrite !List.filter_app. cbn [List.filter].
      rewrite Hs.
      replace (String.eqb "" (selectedDateStr st)) with false; [reflexivity|].
      symmetry. apply String.eqb_neq. intros E.
      exact (selectedDateStr_not_empty st (eq_sym E)).
Qed.

End DateFacts.

(** ** Filtered listing and pagination *)
Section ListingFacts.
Import AdminDashboard Props.
Variable localeCompare : string -> string -> Z.

Lemma byTimeDesc_total dataset x y :
  collatesByCode localeCompare dataset -> In x dataset -> In y dataset ->
  0 < byTimeDesc localeCompare x y -> byTimeDesc localeCompare y x <= 0.
Proof.
  intros Hc Hx Hy. unfold byTimeDesc. fold (timeOf x) (timeOf y). intros H.
  apply (Hc x y Hx Hy). intros E.
  assert (Hyx : String.compare (timeOf y) (timeOf x) <> Gt).
  { rewrite String.compare_antisym, E. discriminate. }
  apply (Hc y x Hy Hx) in Hyx. lia.
Qed.

Lemma byTimeDesc_trans dataset x y z :
  collatesByCode localeCompare dataset ->
  In x dataset -> In y dataset -> In z dataset ->
  byTimeDesc localeCompare x y <= 0 -> byTimeDesc localeCompare y z <= 0 ->
  byTimeDesc localeCompare x z <= 0.
Proof.
  intros Hc Hx Hy Hz. unfold byTimeDesc.
  fold (timeOf x) (timeOf y) (timeOf z).
  rewrite (Hc y x Hy Hx), (Hc z y Hz Hy), (Hc z x Hz Hx). intros Hxy Hyz.
  exact (string_compare_trans _ _ _ Hyz Hxy).
Qed.

Lemma StronglySorted_weaken {A} (dom : A -> Prop) (R1 R2 : A -> A -> Prop)
    (l : list A) :
  (forall a b, dom a -> dom b -> R1 a b -> R2 a b) ->
  Forall dom l -> StronglySorted R1 l -> StronglySorted R2 l.
Proof.
  intros Himp Hl Hsorted. induction Hsorted as [|x l _ IH Hx]; [constructor|].
  apply Forall_cons in Hl. destruct Hl as [Hdx Hl].
  constructor; [exact (IH Hl)|].
  rewrite Forall_forall in Hx, Hl. apply Forall_forall. intros b Hb.
  exact (Himp x b Hdx (Hl b Hb) (Hx b Hb)).
Qed.

Lemma StronglySorted_suffix {A} (R : A -> A -> Prop) (l1 l2 : list A) :
  StronglySorted R (l1 ++ l2) -> StronglySorted R l2.
Proof.
  induction l1 as [|x l1 IH]; simpl; intros H; [exact H|].
  apply StronglySorted_inv in H. apply IH, H.
Qed.

(** A page of five cut out by [slice]. *)
Lemma slice_page {A} (l : list A) (start : Z) :
  0 <= start ->
  JS.slice start (start + 5) l = take 5 (drop (Z.to_nat start) l).
Proof.
  intros H. unfold JS.slice, JS.sliceIndex.
  replace (start <? 0) with false by (symmetry; apply Z.ltb_ge; lia).
  replace (start + 5 <? 0) with false by (symmetry; apply Z.ltb_ge; lia).
  destruct (Z.le_gt_cases start (Z.of_nat (length l))) as [Hin|Hout].
  - rewrite (Z.min_l start) by lia.
    destruct (Z.le_gt_cases (start + 5) (Z.of_nat (length l))) as [Hfull|Hlast].
    + rewrite Z.min_l by lia. f_equal. lia.
    + rewrite Z.min_r by lia.
      rewrite !take_ge; [reflexivity | rewrite length_drop; lia ..].
  - rewrite !drop_ge by lia. rewrite !take_nil. reflexivity.
Qed.

Lemma paginatedRecent_page dataset st p :
  1 <= p ->
  paginatedRecent localeCompare dataset (onPage st p)
  = take 5 (drop (Z.to_nat (5 * (p - 1))) (filteredRecent localeCompare dataset st)).
Proof.
  intros H. unfold paginatedRecent, RECORDS_PER_PAGE. cbn [onPage currentPage].
  rewrite slice_page by lia.
  replace ((p - 1) * 5) with (5 * (p - 1)) by lia. reflexivity.
Qed.

(** The effect resets the page whenever the cursor is not what it was. *)
Lemma resetEffect_page before after :
  cursor after <> cursor before ->
  currentPage (resetEffect before after) = 1.
Proof.
  intros Hne. unfold resetEffect, depsChanged.
  destruct (String.eqb_spec (selectedYear before) (selectedYear after)) as [Ey|Ey];
    [|reflexivity].
  destruct (String.eqb_spec (selectedMonth before) (selectedMonth after)) as [Em|Em];
    [|reflexivity].
  destruct (String.eqb_spec (selectedDay before) (selectedDay after)) as [Ed|Ed];
    [|reflexivity].
  exfalso. apply Hne. unfold cursor. congruence.
Qed.

Lemma resetEffect_cursor before after :
  cursor (resetEffect before after) = cursor after.
Proof. unfold resetEffect. destruct (depsChanged before after); reflexivity. Qed.

(** C6.  The filtered listing holds exactly the records whose extracted
    date is the cursor date.  Where the collation orders the times of the
    dataset as their character codes do, as it does for times of day, the
    listing is sorted by time descending in the lexicographic order of
    strings, a record without a time standing as the empty string and so
    after every record with one.  Pages hold five records and are counted
    from 1: page [p] is the five records after the first [5 * (p - 1)], so
    twelve records make three pages of 5, 5 and 2.  An event that changes
    the cursor year, month or day puts the current page back to 1. *)
Theorem filtered_listing_sorted_paged (dataset : list Sale.t) (st : State) :
  let shown := filteredRecent localeCompare dataset st in
  Permutation shown
    (List.filter (fun s => String.eqb (extractDateOnly s) (selectedDateStr st))
       dataset)
  /\ (forall s,
        In s shown <-> In s dataset /\ extractDateOnly s = selectedDateStr st)
  /\ (collatesByCode localeCompare dataset ->
      StronglySorted (fun a b => String.compare (timeOf b) (timeOf a) <> Gt)
        shown
      /\ (forall front a back,
            shown = (front ++ a :: back)%list -> timeOf a = "" ->
            Forall (fun b => timeOf b = "") back))
  /\ (forall s, Sale.time s = None \/ Sale.time s = Some "" -> timeOf s = "")
  /\ totalPages localeCompare dataset st = (Z.of_nat (length shown) + 4) / 5
  /\ (forall p,
        1 <= p ->
        paginatedRecent localeCompare dataset (onPage st p)
        = take 5 (drop (Z.to_nat (5 * (p - 1))) shown))
  /\ (length shown = 12%nat ->
      totalPages localeCompare dataset st = 3
      /\ List.map
           (fun p => length (paginatedRecent localeCompare dataset (onPage st p)))
           [1; 2; 3]
         = [5; 5; 2]%nat)
  /\ (forall ev,
        cursor (step localeCompare dataset ev st) <> cursor st ->
        currentPage (step localeCompare dataset ev st) = 1).
Proof.
  cbv zeta.
  assert (Hperm : Permutation (filteredRecent localeCompare dataset st)
                    (List.filter
                       (fun s => String.eqb (extractDateOnly s) (selectedDateStr st))
                       dataset))
    by apply sortBy_perm.
  assert (Hin : forall s,
             In s (filteredRecent localeCompare dataset st)
             <-> In s dataset /\ extractDateOnly s = selectedDateStr st).
  { intros s. split.
    - intros Hs. apply (Permutation_in _ Hperm) in Hs.
      apply List.filter_In in Hs. destruct Hs as [Hs E].
      split; [exact Hs | apply String.eqb_eq, E].
    - intros [Hs E]. apply (Permutation_in _ (Permutation_sym Hperm)).
      apply List.filter_In. split; [exact Hs | apply String.eqb_eq, E]. }
  split; [exact Hperm|]. split; [exact Hin|]. split; [|split].
  - intros Hc.
    assert (Hdom : Forall (fun s => In s dataset)
                     (filteredRecent localeCompare dataset st)).
    { apply Forall_forall. intros s Hs. apply list_elem_of_In, Hin in Hs.
      exact (proj1 Hs). }
    assert (Hsorted : StronglySorted
                        (fun a b => String.compare (timeOf b) (timeOf a) <> Gt)
                        (filteredRecent localeCompare dataset st)).
    { apply (StronglySorted_weaken (fun s => In s dataset)
               (fun a b => byTimeDesc localeCompare a b <= 0));
        [ | exact Hdom | ].
      - intros a b Ha Hb Hab. apply (Hc b a Hb Ha). exact Hab.
      - apply (sortBy_sorted (byTimeDesc localeCompare) (fun s => In s dataset)).
        + intros x y. apply byTimeDesc_total, Hc.
        + intros x y z. apply byTimeDesc_trans, Hc.
        + apply (Permutation_Forall Hperm), Hdom. }
    split; [exact Hsorted|].
    intros front a back E Ha. rewrite E in Hsorted.
    apply StronglySorted_suffix in Hsorted.
    apply StronglySorted_inv in Hsorted. destruct Hsorted as [_ Hall].
    eapply Forall_impl; [exact Hall|]. intros b Hb. cbv beta in Hb.
    rewrite Ha in Hb. apply string_compare_below_empty, Hb.
  - intros s [Hs|Hs]; unfold timeOf; rewrite Hs; reflexivity.
  - split; [|split; [|split]].
    + unfold totalPages, ceilDiv, RECORDS_PER_PAGE.
      Z.div_mod_to_equations. lia.
    + intros p Hp. apply paginatedRecent_page, Hp.
    + intros Hlen. split.
      * unfold totalPages, ceilDiv, RECORDS_PER_PAGE. rewrite Hlen. reflexivity.
      * cbn [List.map]. rewrite !paginatedRecent_page by lia.
        rewrite !length_take, !length_drop, Hlen. reflexivity.
    + intros ev. unfold step. rewrite resetEffect_cursor.
      apply resetEffect_page.
Qed.

End ListingFacts.

(** ** CSV export *)
Section CsvFacts.
Import AdminDashboard Props.
Variable localeCompare : string -> string -> Z.

Lemma unescBody_doubleQuotes s :
  unescBody (doubleQuotes s ++ String JS.dquote "") = Some s.
Proof.
  induction s as [|c s IH]; [reflexivity|].
  cbn [doubleQuotes].
  destruct (Ascii.eqb c JS.dquote) eqn:E; simpl.
  - apply Ascii.eqb_eq in E. subst c. rewrite IH. reflexivity.
  - rewrite E, IH. reflexivity.
Qed.

Lemma unesc_esc v : unesc (esc v) = Some (fieldText v).
Proof.
  unfold unesc, esc. rewrite Ascii.eqb_refl. apply unescBody_doubleQuotes.
Qed.

(** C7.  Every value of an exported row is written by [esc]: between two
    double quotes, with each double quote of the value doubled; the date
    column carries the date wrapped once more, as a formula of the quoted
    date.  Reading an emitted cell back recovers the value that was
    escaped, for every string, one with a double quote included. *)
Theorem csv_escape_round_trip :
  (forall v,
     esc v
     = String JS.dquote (doubleQuotes (fieldText v) ++ String JS.dquote ""))
  /\ (forall s : string, unesc (esc (FString s)) = Some s)
  /\ (forall v, unesc (esc v) = Some (fieldText v))
  /\ (forall r,
        List.map unesc (List.map esc (rowFields r))
        = List.map (fun v => Some (fieldText v)) (rowFields r))
  /\ (forall r,
        rowFields r !! 3%nat = Some (FString (Sale.product r))
        /\ rowFields r !! 1%nat = Some (FString (dateCell r)))
  /\ (forall r d,
        Sale.date r = Some d -> JS.truthy d = true ->
        dateCell r = "=" ++ String JS.dquote (d ++ String JS.dquote ""))
  /\ (forall dataset st csv,
        exportCSV localeCompare dataset st = Some csv ->
        csv = JS.join newline
                (JS.join "," header
                 :: List.map (fun r => JS.join "," (List.map esc (rowFields r)))
                      (filteredRecent localeCompare dataset st)))
  /\ (let name := "6" ++ String JS.dquote " Sub" in
      esc (FString name)
      = String JS.dquote
          ("6" ++ String JS.dquote (String JS.dquote (" Sub" ++ String JS.dquote "")))
      /\ unesc (esc (FString name)) = Some name).
Proof.
  split; [reflexivity|]. split; [intros s; apply (unesc_esc (FString s))|].
  split; [exact unesc_esc|]. split; [|split; [|split; [|split]]].
  - intros r. rewrite List.map_map. apply List.map_ext. intros v. apply unesc_esc.
  - intros r. split; reflexivity.
  - intros r d Hd Ht. unfold dateCell. rewrite Hd, Ht. reflexivity.
  - intros dataset st csv. unfold exportCSV.
    destruct (filteredRecent localeCompare dataset st); [discriminate|].
    intros E. inversion E. reflexivity.
  - split; reflexivity.
Qed.

End CsvFacts.

(** ** Sale writes *)
Section SaleWriteFacts.
Import AppContext.

Lemma updateSale_sales accepted id updates (s : Store) :
  sales (updateSale accepted id updates s)
  = match sales s !! id with
    | Some d =>
        if accepted then <[id := mergePayload (payloadOf updates) d]> (sales s)
        else sales s
    | None => sales s
    end.
Proof.
  unfold updateSale. destruct (sales s !! id); [|reflexivity].
  destruct accepted; reflexivity.
Qed.

Lemma addSale_sales now newId serverTime accepted sale (s : Store) :
  sales (addSale now newId serverTime accepted sale s) = sales s
  \/ exists u date time,
       currentUser s = Some u
       /\ sales (addSale now newId serverTime accepted sale s)
          = <[newId :=
                SaleDoc.mk (User.uid u) (orNull (User.email u))
                  (NewSale.product sale) (NewSale.flavor sale)
                  (NewSale.unit sale) (NewSale.price sale) (NewSale.total sale)
                  (JS.orElse (NewSale.paymentMode sale) "POS")
                  date time (Some serverTime)]> (sales s).
Proof.
  unfold addSale. destruct (currentUser s) as [u|]; [|left; reflexivity].
  destruct accepted; [|left; reflexivity].
  right. eexists _, _, _. split; reflexivity.
Qed.

(** C9.  [updateSale] writes through an allow-list: whatever the update
    holds, the document stays under its id, keeps its owning user, that
    user's email and its creation timestamp, and each of product, flavor,
    unit, price, total, payment mode, date and time is either as before or
    as the update gives it; no other document is touched, none is added
    and none removed. *)
Theorem updateSale_frame
    (accepted : bool) (id : string) (updates : Updates.t) (s : Store) :
  let s' := updateSale accepted id updates s in
  dom (sales s') = dom (sales s)
  /\ currentUser s' = currentUser s
  /\ (forall j, j <> id -> sales s' !! j = sales s !! j)
  /\ (sales s !! id = None -> sales s' !! id = None)
  /\ (forall d,
        sales s !! id = Some d ->
        exists d',
          sales s' !! id = Some d'
          /\ SaleDoc.userId d' = SaleDoc.userId d
          /\ SaleDoc.userEmail d' = SaleDoc.userEmail d
          /\ SaleDoc.createdAt d' = SaleDoc.createdAt d
          /\ (SaleDoc.product d' = SaleDoc.product d
              \/ Updates.product updates = Some (SaleDoc.product d'))
          /\ (SaleDoc.flavor d' = SaleDoc.flavor d
              \/ Updates.flavor updates = Some (SaleDoc.flavor d'))
          /\ (SaleDoc.unit d' = SaleDoc.unit d
              \/ Updates.unit updates = Some (SaleDoc.unit d'))
          /\ (SaleDoc.price d' = SaleDoc.price d
              \/ Updates.price updates = Some (SaleDoc.price d'))
          /\ (SaleDoc.total d' = SaleDoc.total d
              \/ Updates.total updates = Some (SaleDoc.total d'))
          /\ (SaleDoc.paymentMode d' = SaleDoc.paymentMode d
              \/ Updates.paymentMode updates = Some (SaleDoc.paymentMode d'))
          /\ (SaleDoc.date d' = SaleDoc.date d
              \/ Updates.date updates = Some (SaleDoc.date d'))
          /\ (SaleDoc.time d' = SaleDoc.time d
              \/ Updates.time updates = Some (SaleDoc.time d'))).
Proof.
  cbv zeta. rewrite updateSale_sales.
  split; [|split; [|split; [|split]]].
  - destruct (sales s !! id) as [d|] eqn:E; [|reflexivity].
    destruct accepted; [|reflexivity].
    rewrite dom_insert_L.
    assert (Hin : id ∈ dom (sales s)) by (apply elem_of_dom; eauto).
    apply subseteq_union_1_L, singleton_subseteq_l, Hin.
  - unfold updateSale. destruct (sales s !! id); [|reflexivity].
    destruct accepted; reflexivity.
  - intros j Hj. destruct (sales s !! id) as [d|]; [|reflexivity].
    destruct accepted; [|reflexivity]. apply lookup_insert_ne. congruence.
  - intros E. rewrite E. exact E.
  - intros d E. rewrite E. destruct accepted.
    + exists (mergePayload (payloadOf updates) d).
      split; [apply lookup_insert_eq|].
      destruct updates as [? ? ? up uf uu upr ut upm ud uti ?].
      unfold mergePayload, payloadOf. cbn.
      repeat split;
        match goal with
        | |- _ \/ ?o = Some _ => destruct o; [right; reflexivity | left; reflexivity]
        end.
    + exists d. split; [exact E|]. repeat split; left; reflexivity.
Qed.

End SaleWriteFacts.

(** ** The sales-entry form *)
Section SalesFormFacts.
Import AppContext SalesForm.

(** What the form hands over carries the total it computed. *)
Lemma handleSubmit_total products editingSale (f : Form) :
  match handleSubmit products editingSale f with
  | NoCall => True
  | CallAddSale sale =>
      NewSale.price sale = price products f
      /\ NewSale.unit sale = unit f
      /\ NewSale.total sale = NewSale.price sale * NewSale.unit sale
  | CallUpdateSale _ updates =>
      Updates.price updates = Some (price products f)
      /\ Updates.unit updates = Some (unit f)
      /\ Updates.total updates = Some (price products f * unit f)
  end.
Proof.
  unfold handleSubmit, total.
  destruct (negb (isValid f)); [exact I|].
  destruct editingSale as [e|]; [destruct (JS.truthy (Sale.id e))|];
    cbn; repeat split; reflexivity.
Qed.

(** C8.  A submit of the sales-entry form, whether it creates a sale or
    edits one, writes a document whose total is its price times its unit,
    the price being that of the selected flavor and the unit the entered
    quantity: this holds of every document the submit leaves changed, and
    of the document the accepted write lands on.  The store keeps the
    total it is sent, whatever it is. *)
Theorem sale_total_is_price_times_unit
    (products : list Product) (editingSale : option Sale.t) (now : Clock)
    (newId : string) (serverTime : JSDate.t) (accepted : bool)
    (f : Form) (s : Store) :
  let s' := submit products editingSale now newId serverTime accepted f s in
  (forall id d',
     sales s' !! id = Some d' -> sales s !! id <> Some d' ->
     SaleDoc.price d' = price products f
     /\ SaleDoc.unit d' = unit f
     /\ SaleDoc.total d' = SaleDoc.price d' * SaleDoc.unit d')
  /\ match handleSubmit products editingSale f with
     | NoCall => s' = s
     | CallUpdateSale id _ =>
         accepted = true -> is_Some (sales s !! id) ->
         exists d',
           sales s' !! id = Some d'
           /\ SaleDoc.price d' = price products f
           /\ SaleDoc.unit d' = unit f
           /\ SaleDoc.total d' = SaleDoc.price d' * SaleDoc.unit d'
     | CallAddSale _ =>
         accepted = true -> is_Some (currentUser s) ->
         exists d',
           sales s' !! newId = Some d'
           /\ SaleDoc.price d' = price products f
           /\ SaleDoc.unit d' = unit f
           /\ SaleDoc.total d' = SaleDoc.price d' * SaleDoc.unit d'
     end
  /\ (forall sale u,
        currentUser s = Some u ->
        exists d,
          sales (addSale now newId serverTime true sale s) !! newId = Some d
          /\ SaleDoc.total d = NewSale.total sale
          /\ SaleDoc.price d = NewSale.price sale
          /\ SaleDoc.unit d = NewSale.unit sale)
  /\ (forall id updates d t,
        sales s !! id = Some d -> Updates.total updates = Some t ->
        exists d',
          sales (updateSale true id updates s) !! id = Some d'
          /\ SaleDoc.total d' = t).
Proof.
  cbv zeta. split; [|split; [|split]].
  - intros id d' Hnew Hold. unfold submit in Hnew.
    pose proof (handleSubmit_total products editingSale f) as Hcall.
    destruct (handleSubmit products editingSale f) as [|uid updates|sale].
    + contradiction.
    + destruct Hcall as (Hp & Hu & Ht).
      rewrite updateSale_sales in Hnew.
      destruct (sales s !! uid) as [d|] eqn:E; [|contradiction].
      destruct accepted; [|contradiction].
      destruct (decide (uid = id)) as [->|Hne].
      * rewrite lookup_insert_eq in Hnew. inversion Hnew.
        unfold mergePayload, payloadOf. cbn. rewrite Hp, Hu, Ht. cbn.
        repeat split; reflexivity.
      * rewrite lookup_insert_ne in Hnew by exact Hne. contradiction.
    + destruct Hcall as (Hp & Hu & Ht).
      destruct (addSale_sales now newId serverTime accepted sale s)
        as [E | (u & date & time & _ & E)];
        rewrite E in Hnew; [contradiction|].
      destruct (decide (newId = id)) as [->|Hne].
      * rewrite lookup_insert_eq in Hnew. inversion Hnew. cbn.
        rewrite <- Hp, <- Hu. repeat split; try reflexivity. exact Ht.
      * rewrite lookup_insert_ne in Hnew by exact Hne. contradiction.
  - unfold submit.
    pose proof (handleSubmit_total products editingSale f) as Hcall.
    destruct (handleSubmit products editingSale f) as [|uid updates|sale].
    + reflexivity.
    + destruct Hcall as (Hp & Hu & Ht). intros -> [d Hd].
      rewrite updateSale_sales, Hd.
      eexists. split; [apply lookup_insert_eq|].
      unfold mergePayload, payloadOf. cbn. rewrite Hp, Hu, Ht. cbn.
      repeat split; reflexivity.
    + destruct Hcall as (Hp & Hu & Ht). intros -> [u Hcu].
      unfold addSale. rewrite Hcu. cbn.
      eexists. split; [apply lookup_insert_eq|]. cbn.
      rewrite <- Hp, <- Hu. repeat split; try reflexivity. exact Ht.
  - intros sale u Hu. unfold addSale. rewrite Hu. cbn.
    eexists. split; [apply lookup_insert_eq|]. repeat split; reflexivity.
  - intros id updates d t Hd Ht. rewrite updateSale_sales, Hd.
    eexists. split; [apply lookup_insert_eq|].
    unfold mergePayload, payloadOf. cbn. rewrite Ht. reflexivity.
Qed.

End SalesFormFacts.

(** ** The theorems at the sample data *)
Section SampleFacts.
Import AdminDashboard Props Samples.

Lemma date_extraction_normalizes_witness :
  extractDateOnly (sale "b" (Some "2024-03-05T10:22:00Z") None 950)
  = "2024-03-05"
  /\ extractDateOnly (sale "a" (Some "2024-03-05") (Some "10:22:00") 850)
     = "2024-03-05"
  /\ kpis mixed march5 = kpis dated march5
  /\ monthlySeries mid_march mixed = monthlySeries mid_march dated
  /\ filteredRecent codeOrder mixed march5 = filteredRecent codeOrder dated march5.
Proof.
  destruct (date_extraction_normalizes codeOrder)
    as (Hplain & HT & _ & _ & _ & _ & Hdrop).
  split; [|split].
  - exact (HT (sale "b" (Some "2024-03-05T10:22:00Z") None 950)
             "2024-03-05" "10:22:00Z" eq_refl eq_refl).
  - exact (Hplain (sale "a" (Some "2024-03-05") (Some "10:22:00") 850)
             "2024-03-05" eq_refl eq_refl).
  - pose proof (Hdrop undated eq_refl mid_march march5 dated []) as H.
    rewrite app_nil_r in H. exact H.
Defined.

(** The order of character codes is a collation of the kind asked for. *)
Lemma codeOrder_collatesByCode dataset : collatesByCode codeOrder dataset.
Proof.
  intros a b _ _. unfold codeOrder.
  destruct (String.compare (timeOf a) (timeOf b)); split; intros H;
    try lia; congruence.
Qed.

Lemma filtered_listing_sorted_paged_witness :
  StronglySorted (fun a b => String.compare (timeOf b) (timeOf a) <> Gt)
    (filteredRecent codeOrder twelve march5)
  /\ totalPages codeOrder twelve march5 = 3
  /\ List.map (fun p => length (paginatedRecent codeOrder twelve (onPage march5 p)))
       [1; 2; 3]
     = [5; 5; 2]%nat
  /\ currentPage (step codeOrder twelve (SetSelectedDay "06") (onPage march5 2)) = 1.
Proof.
  split; [|split; [|split]].
  - apply (filtered_listing_sorted_paged codeOrder twelve march5).
    exact (codeOrder_collatesByCode twelve).
  - apply (filtered_listing_sorted_paged codeOrder twelve march5). reflexivity.
  - apply (filtered_listing_sorted_paged codeOrder twelve march5). reflexivity.
  - apply (filtered_listing_sorted_paged codeOrder twelve (onPage march5 2)).
    discriminate.
Defined.

(** The sample listing: latest first, the sale without a time last. *)
Example filtered_listing_sample :
  List.map Sale.id
    (filteredRecent codeOrder
       (sale "x" (Some "2024-03-05") None 1
        :: sale "y" (Some "2024-03-05") (Some "23:59:59") 1 :: mixed)
       march5)
  = ["y"; "a"; "x"; "b"].
Proof. vm_compute. reflexivity. Qed.

Lemma csv_escape_round_trip_witness :
  dateCell (sale "a" (Some "2024-03-05") (Some "10:22:00") 850)
  = "=" ++ String JS.dquote ("2024-03-05" ++ String JS.dquote "")
  /\ unesc (esc (FString (dateCell (sale "a" (Some "2024-03-05")
                                      (Some "10:22:00") 850))))
     = Some ("=" ++ String JS.dquote ("2024-03-05" ++ String JS.dquote "")).
Proof.
  destruct (csv_escape_round_trip codeOrder)
    as (_ & Hstr & _ & _ & _ & Hdate & _).
  split.
  - exact (Hdate (sale "a" (Some "2024-03-05") (Some "10:22:00") 850)
             "2024-03-05" eq_refl eq_refl).
  - exact (Hstr ("=" ++ String JS.dquote ("2024-03-05" ++ String JS.dquote ""))).
Defined.

End SampleFacts.

Section StoreSampleFacts.
Import AppContext Samples.

(** Three mangoes at 970 submitted to the empty store. *)
Lemma sale_total_is_price_times_unit_witness :
  exists d,
    sales (SalesForm.submit SalesForm.FALLBACK_PRODUCTS None noon "s1"
             march5th true mangoes emptyStore) !! "s1" = Some d
    /\ SaleDoc.price d = 970
    /\ SaleDoc.unit d = 3
    /\ SaleDoc.total d = SaleDoc.price d * SaleDoc.unit d.
Proof.
  eexists. split; [reflexivity|].
  apply (proj1 (sale_total_is_price_times_unit SalesForm.FALLBACK_PRODUCTS
                  None noon "s1" march5th true mangoes emptyStore) "s1");
    [reflexivity | discriminate].
Defined.

(** The overreaching update changes the sale, not whose it is. *)
Lemma updateSale_frame_witness :
  exists d',
    sales (updateSale true "s1" overreach oneSale) !! "s1" = Some d'
    /\ SaleDoc.userId d' = "uid-alice"
    /\ SaleDoc.userEmail d' = Some "alice@x.com"
    /\ SaleDoc.createdAt d' = Some march5th.
Proof.
  destruct (updateSale_frame true "s1" overreach oneSale)
    as (_ & _ & _ & _ & Hdoc).
  destruct (Hdoc plainYoghurt eq_refl) as (d' & Hd' & Hu & He & Hc & _).
  exists d'. repeat split; assumption.
Defined.

Example updateSale_sample :
  sales (updateSale true "s1" overreach oneSale)
  = {[ "s1" :=
         SaleDoc.mk "uid-alice" (Some "alice@x.com") "Yoghurt" "Mango" 2 970
           1940 "Cash" "2024-03-06" "11:00:00" (Some march5th) ]}.
Proof. apply map_eq. intros k. vm_compute. reflexivity. Qed.

End StoreSampleFacts.

(* ===================================================================== *)
(** * Part III: further properties of the code                            *)
(* ===================================================================== *)

(** ** Online and offline login, one after the other *)
Section LoginSequence.
Import AppContext Props.
Variable sha256Hex : list Z -> string -> string.

(** A successful online login reports no error, leaves the signed-in user
    to the auth listener, and makes the same email and password sign in
    once the connection is lost; another email is then refused.  A failed
    online login reports the provider's message, or "Login failed", and
    leaves the cache as it was. *)
Theorem login_online_then_offline
    (env : Env) (salt : list Z) (e p : string) (u : User.t) (c : Ctx) :
  isBrowser env = true ->
  hasSubtle env = true ->
  isOnline c = true ->
  let c1 := login sha256Hex env (SignedIn u) salt e p c in
  error c1 = None
  /\ user c1 = user c
  /\ (forall signIn salt',
        login sha256Hex env signIn salt' e p (handleOffline c1)
        = mkCtx (Some (minimalUser u)) None
            (toasts c ++ [("Signed in (offline mode)", "success")])
            false (localStorage c1))
  /\ (forall signIn salt' e' p',
        e' <> e ->
        login sha256Hex env signIn salt' e' p' (handleOffline c1)
        = offlineLoginFailed (handleOffline c1))
  /\ (forall message,
        let c2 := login sha256Hex env (SignInFailed message) salt e p c in
        localStorage c2 = localStorage c
        /\ user c2 = user c
        /\ error c2 = Some (JS.orElse message "Login failed")).
Proof.
  intros Hb Hs Ho. cbv zeta.
  assert (E1 : login sha256Hex env (SignedIn u) salt e p c
               = mkCtx (user c) None (toasts c) (isOnline c)
                   (persistOfflineSession sha256Hex env salt e p u
                      (localStorage c)))
    by (unfold login; rewrite Ho; reflexivity).
  rewrite E1. unfold handleOffline.
  cbn [error user toasts localStorage isOnline].
  pose proof (persist_written sha256Hex env salt e p u (localStorage c) Hb Hs)
    as Hw.
  split; [reflexivity|]. split; [reflexivity|]. split; [|split].
  - intros signIn salt'. unfold login. cbn [isOnline negb localStorage].
    rewrite (tryLogin_cached sha256Hex env _ _ e p Hb Hw).
    cbn [CachedSession.email CachedSession.salt CachedSession.hash
         CachedSession.user].
    rewrite !String.eqb_refl. reflexivity.
  - intros signIn salt' e' p' Hne. apply login_offline_failed; [reflexivity|].
    cbn [localStorage].
    rewrite (tryLogin_cached sha256Hex env _ _ e' p' Hb Hw).
    cbn [CachedSession.email].
    rewrite (proj2 (String.eqb_neq e e')) by congruence. reflexivity.
  - intros message. unfold login. rewrite Ho. repeat split; reflexivity.
Qed.

End LoginSequence.

Section LoginSequenceWitness.
Import AppContext Props Samples.

Lemma login_online_then_offline_witness :
  let c1 := login sampleDigest fullBrowser (SignedIn alice) sampleSalt
              "alice@x.com" "pw1" freshCtx in
  user (login sampleDigest fullBrowser (SignInFailed None) [] "alice@x.com"
          "pw1" (handleOffline c1))
  = Some (minimalUser alice).
Proof.
  cbv zeta.
  destruct (login_online_then_offline sampleDigest fullBrowser sampleSalt
              "alice@x.com" "pw1" alice freshCtx eq_refl eq_refl eq_refl)
    as (_ & _ & Hoff & _).
  rewrite Hoff. reflexivity.
Defined.

End LoginSequenceWitness.

(** ** Logout and the auth listener *)
Section SessionEnd.
Import AppContext Props.

Lemma user_eta (u : User.t) :
  User.mk (User.uid u) (User.email u) (User.displayName u) = u.
Proof. destruct u; reflexivity. Qed.

(** A logout the provider carries out removes both cached records and
    nothing else from the local storage, empties the list of sales and
    clears the error; it does not itself reset the user, which is left to
    the auth listener.  From then on no email and password sign in
    offline, and the listener, told that nobody is signed in, sets no
    user.  A logout the provider refuses changes neither storage nor
    sales and reports the message, or "Logout failed". *)
Theorem logout_ends_offline_login (env : Env) (p : Provider) :
  isBrowser env = true ->
  let p' := logout env SignedOut p in
  localStorage (ctx p') !! OFFLINE_SESSION_KEY = None
  /\ localStorage (ctx p') !! OFFLINE_USER_KEY = None
  /\ (forall k,
        k <> OFFLINE_SESSION_KEY -> k <> OFFLINE_USER_KEY ->
        localStorage (ctx p') !! k = localStorage (ctx p) !! k)
  /\ salesState p' = []
  /\ error (ctx p') = None
  /\ user (ctx p') = user (ctx p)
  /\ (forall sha256Hex e pw,
        tryOfflineSessionLogin sha256Hex env (localStorage (ctx p')) e pw = None)
  /\ (forall sha256Hex signIn salt e pw,
        login sha256Hex env signIn salt e pw (handleOffline (ctx p'))
        = offlineLoginFailed (handleOffline (ctx p')))
  /\ (forall mountedOnline,
        exists p'',
          onAuthStateChanged mountedOnline None p' = Some p''
          /\ user (ctx p'') = None
          /\ loading p'' = false)
  /\ (forall message,
        let q := logout env (SignOutFailed message) p in
        localStorage (ctx q) = localStorage (ctx p)
        /\ salesState q = salesState p
        /\ error (ctx q) = Some (JS.orElse message "Logout failed")).
Proof.
  intros Hb. cbv zeta. unfold logout. rewrite Hb.
  cbn [ctx localStorage salesState error user loading].
  assert (Hsession :
            delete OFFLINE_USER_KEY
              (delete OFFLINE_SESSION_KEY (localStorage (ctx p)))
            !! OFFLINE_SESSION_KEY = None).
  { rewrite lookup_delete_ne by discriminate. apply lookup_delete_eq. }
  assert (Huser :
            delete OFFLINE_USER_KEY
              (delete OFFLINE_SESSION_KEY (localStorage (ctx p)))
            !! OFFLINE_USER_KEY = None)
    by apply lookup_delete_eq.
  split; [exact Hsession|]. split; [exact Huser|].
  split; [|split; [reflexivity|split; [reflexivity|split; [reflexivity|]]]].
  - intros k Hs Hu. rewrite !lookup_delete_ne by congruence. reflexivity.
  - split; [|split; [|split]].
    + intros sha256Hex e pw. apply tryLogin_no_cache, Hsession.
    + intros sha256Hex signIn salt e pw.
      apply login_offline_failed; [reflexivity|].
      apply tryLogin_no_cache, Hsession.
    + intros mountedOnline. unfold onAuthStateChanged.
      cbn [ctx localStorage]. rewrite Huser.
      destruct mountedOnline; cbn [negb]; eexists; repeat split; reflexivity.
    + intros message. repeat split; reflexivity.
Qed.

(** The auth listener, told of a signed-in user, sets that user, ends the
    loading state and stores the user's uid, email and display name.  If
    nobody is signed in at a later notification, a listener created while
    offline restores exactly that user and keeps the record, and a logout
    completed after that leaves the restored user in place; a listener
    created while online sets no user and removes the record. *)
Theorem auth_listener_restores_cached_user
    (mountedOnline : bool) (u : User.t) (p : Provider) :
  exists p1,
    onAuthStateChanged mountedOnline (Some u) p = Some p1
    /\ user (ctx p1) = Some u
    /\ loading p1 = false
    /\ localStorage (ctx p1) !! OFFLINE_USER_KEY = Some (StoredUser u)
    /\ (exists p2,
          onAuthStateChanged false None p1 = Some p2
          /\ user (ctx p2) = Some u
          /\ localStorage (ctx p2) = localStorage (ctx p1)
          /\ forall env, user (ctx (logout env SignedOut p2)) = Some u)
    /\ (exists p2,
          onAuthStateChanged true None p1 = Some p2
          /\ user (ctx p2) = None
          /\ localStorage (ctx p2) !! OFFLINE_USER_KEY = None).
Proof.
  unfold onAuthStateChanged at 1. rewrite user_eta.
  eexists. split; [reflexivity|].
  cbn [ctx user loading localStorage].
  split; [reflexivity|]. split; [reflexivity|].
  split; [apply lookup_insert_eq|]. split.
  - unfold onAuthStateChanged. cbn [negb ctx localStorage].
    rewrite lookup_insert_eq.
    eexists. split; [reflexivity|]. repeat split; reflexivity.
  - unfold onAuthStateChanged. cbn [negb ctx localStorage].
    eexists. split; [reflexivity|]. cbn [ctx user localStorage].
    split; [reflexivity | apply lookup_delete_eq].
Qed.

(** A stored record that cannot be parsed is removed, and no user is set;
    with nothing stored no user is set either. *)
Lemma auth_listener_without_record (raw : string) (p : Provider) :
  (localStorage (ctx p) !! OFFLINE_USER_KEY = Some (StoredText raw) ->
   exists p',
     onAuthStateChanged false None p = Some p'
     /\ user (ctx p') = None
     /\ localStorage (ctx p') !! OFFLINE_USER_KEY = None)
  /\ (localStorage (ctx p) !! OFFLINE_USER_KEY = None ->
      exists p',
        onAuthStateChanged false None p = Some p'
        /\ user (ctx p') = None
        /\ localStorage (ctx p') = localStorage (ctx p)).
Proof.
  split; intros H; unfold onAuthStateChanged; cbn [negb]; rewrite H;
    eexists; (split; [reflexivity|]); cbn [ctx user localStorage];
    (split; [reflexivity|]); [apply lookup_delete_eq | reflexivity].
Qed.

End SessionEnd.

(** ** Deleting a sale *)
Section DeleteFacts.
Import AppContext.

(** An accepted delete removes the document under the id and touches no
    other; a refused one changes nothing and reports the error.  After a
    delete an update of the same id fails and changes nothing; deleting
    again changes nothing; and deleting a sale just added under a fresh id
    gives the collection back. *)
Theorem deleteSale_removes_one (id : string) (s : Store) :
  let s' := deleteSale true id s in
  sales s' !! id = None
  /\ (forall j, j <> id -> sales s' !! j = sales s !! j)
  /\ lastError s' = None
  /\ currentUser s' = currentUser s
  /\ deleteSale false id s
     = mkStore (sales s) (currentUser s) (Some "Failed to delete sale")
  /\ (forall accepted updates,
        sales (updateSale accepted id updates s') = sales s'
        /\ lastError (updateSale accepted id updates s')
           = Some "Failed to update sale")
  /\ sales (deleteSale true id s') = sales s'
  /\ (forall now serverTime sale,
        sales s !! id = None ->
        sales (deleteSale true id (addSale now id serverTime true sale s))
        = sales s).
Proof.
  cbv zeta. unfold deleteSale. cbn [sales lastError currentUser].
  split; [apply lookup_delete_eq|].
  split; [intros j Hj; apply lookup_delete_ne; congruence|].
  split; [reflexivity|]. split; [reflexivity|]. split; [reflexivity|].
  split; [|split].
  - intros accepted updates. unfold updateSale. cbn [sales].
    rewrite lookup_delete_eq. split; reflexivity.
  - apply delete_id, lookup_delete_eq.
  - intros now serverTime sale Hfresh.
    destruct (addSale_sales now id serverTime true sale s)
      as [E | (u & date & time & _ & E)]; rewrite E.
    + apply delete_id, Hfresh.
    + rewrite delete_insert_eq. apply delete_id, Hfresh.
Qed.

End DeleteFacts.

(** ** Admin users *)
Section AdminFacts.
Import AppContext.
Variable trim : string -> string.

(** A user is an admin exactly when the user has an email that is not
    empty and is the trimmed form of one of the comma-separated entries of
    the configured list; nobody is while signed out, and with an empty
    list nobody is (trimming the empty string gives the empty string). *)
Theorem isAdmin_iff (adminEmailsRaw : string) (user : option User.t) :
  (isAdmin trim adminEmailsRaw user = true
   <-> exists u email entry,
         user = Some u
         /\ User.email u = Some email
         /\ email <> ""
         /\ In entry (JS.split "," adminEmailsRaw)
         /\ trim entry = email)
  /\ isAdmin trim adminEmailsRaw None = false
  /\ (trim "" = "" -> isAdmin trim "" user = false).
Proof.
  split; [|split; [reflexivity|]].
  - unfold isAdmin, adminEmails. split.
    + destruct user as [u|]; [|discriminate].
      destruct (User.email u) as [email|] eqn:E; [|discriminate].
      intros H. apply andb_prop in H. destruct H as [Ht Hex].
      apply existsb_exists in Hex. destruct Hex as (x & Hx & Heq).
      apply String.eqb_eq in Heq. subst x.
      apply List.filter_In in Hx. destruct Hx as [Hx _].
      apply List.in_map_iff in Hx. destruct Hx as (entry & Htrim & Hentry).
      exists u, email, entry. repeat split; try assumption.
      intros ->. discriminate Ht.
    + intros (u & email & entry & -> & E & Hne & Hentry & Htrim).
      rewrite E.
      assert (Ht : JS.truthy email = true)
        by (destruct email; [congruence | reflexivity]).
      rewrite Ht. cbn [andb]. apply existsb_exists. exists email.
      split; [|apply String.eqb_refl].
      apply List.filter_In. split; [|exact Ht].
      apply List.in_map_iff. exists entry. split; assumption.
  - intros Htrim. unfold isAdmin, adminEmails. cbn [JS.split List.map].
    rewrite Htrim. cbn.
    destruct user as [u|]; [|reflexivity].
    destruct (User.email u); [|reflexivity]. apply andb_false_r.
Qed.

End AdminFacts.

(** ** From the form to the dashboard *)
Section DateShape.
Import AdminDashboard Props.

Lemma pad2_twoDigits k : 0 <= k <= 99 -> twoDigits (JS.padStart2 (JS.ofZ k)) = true.
Proof.
  intros H.
  apply (range_check (fun k => twoDigits (JS.padStart2 (JS.ofZ k))) 0 100);
    [vm_compute; reflexivity | lia].
Qed.

Lemma year_fourDigits y : 1000 <= y <= 9999 -> fourDigits (JS.ofZ y) = true.
Proof.
  intros H.
  apply (range_check (fun y => fourDigits (JS.ofZ y)) 1000 9000);
    [vm_compute; reflexivity | lia].
Qed.

Lemma isYMD_parts y m d :
  fourDigits y = true -> twoDigits m = true -> twoDigits d = true ->
  isYMD (y ++ "-" ++ m ++ "-" ++ d) = true.
Proof.
  intros Hy Hm Hd.
  destruct y as [|y1 [|y2 [|y3 [|y4 [|? ?]]]]];
    cbn [fourDigits twoDigits] in Hy; rewrite ?andb_false_r in Hy;
    try discriminate Hy.
  destruct m as [|m1 [|m2 [|? ?]]]; cbn [twoDigits] in Hm; try discriminate Hm.
  destruct d as [|d1 [|d2 [|? ?]]]; cbn [twoDigits] in Hd; try discriminate Hd.
  unfold fourDigits, twoDigits in *.
  unfold isYMD. simpl.
  repeat match goal with
         | H : _ && _ = true |- _ => apply andb_prop in H; destruct H
         end.
  try discriminate.
  repeat match goal with H : JS.isDigit _ = true |- _ => rewrite H; clear H end.
  reflexivity.
Qed.

Lemma twoDigits_truthy s : twoDigits s = true -> JS.truthy s = true.
Proof. destruct s; [discriminate | reflexivity]. Qed.

Lemma formatTime_clock hh mm rest :
  twoDigits hh = true -> twoDigits mm = true ->
  formatTime (hh ++ ":" ++ mm ++ rest) = hh ++ ":" ++ mm.
Proof.
  intros Hh Hm.
  destruct hh as [|h1 [|h2 [|? ?]]]; cbn [twoDigits] in Hh; try discriminate Hh.
  destruct mm as [|m1 [|m2 [|? ?]]]; cbn [twoDigits] in Hm; try discriminate Hm.
  apply andb_prop in Hh. destruct Hh as [Hh1 Hh2].
  apply andb_prop in Hm. destruct Hm as [Hm1 Hm2].
  unfold formatTime. simpl. rewrite Hh1, Hh2, Hm1, Hm2. reflexivity.
Qed.

End DateShape.

Section NoTimePart.

Lemma hd_split_without sep s : JS.includes sep (hd "" (JS.split sep s)) = false.
Proof.
  induction s as [|c r IH]; [reflexivity|]. cbn [JS.split].
  destruct (Ascii.eqb c sep) eqn:E; [reflexivity|].
  destruct (JS.split sep r) as [|h t]; cbn [hd JS.includes] in *;
    rewrite E; [reflexivity | exact IH].
Qed.

Lemma uint_no_T d : JS.includes "T" (NilEmpty.string_of_uint d) = false.
Proof. induction d; simpl; auto. Qed.

Lemma ofZ_no_T n : JS.includes "T" (JS.ofZ n) = false.
Proof.
  unfold JS.ofZ. destruct n as [|p|p]; [reflexivity| |];
    cbn [Z.to_int NilZero.string_of_int]; unfold NilZero.string_of_uint;
    pose proof (uint_no_T (Pos.to_uint p)) as Hp;
    destruct (Pos.to_uint p); first [reflexivity | exact Hp].
Qed.

Lemma padStart2_no_T s :
  JS.includes "T" s = false -> JS.includes "T" (JS.padStart2 s) = false.
Proof. destruct s as [|c [|d r]]; simpl; auto. Qed.

End NoTimePart.

Section RecordedSale.
Import AdminDashboard AppContext Props.
Variable localeCompare : string -> string -> Z.
Variable toISOString : JSDate.t -> string.

Lemma dateStrOf_plain d :
  JS.includes "T" d = false -> dateStrOf (Some (inl d)) = Some d.
Proof. intros H. unfold dateStrOf. rewrite H. reflexivity. Qed.

(** A sale a signed-in user records is, once the listener hands it over,
    a sale of today: its extracted date is the date the dashboard opens
    on, so it is in the listing of that day whatever else the dataset
    holds, it adds its total and one to each of the six KPIs, and its time
    is shown as the hours and minutes of the clock.  The clock is any
    local time of the years 1000 to 9999. *)
Theorem recorded_sale_is_listed_today
    (now : Clock) (newId : string) (serverTime : JSDate.t)
    (sale : NewSale.t) (s : Store) (u : User.t) :
  currentUser s = Some u ->
  1000 <= year now <= 9999 ->
  0 <= month now <= 11 ->
  1 <= day now <= 31 ->
  0 <= hours now <= 23 ->
  0 <= minutes now <= 59 ->
  let today := initial (JSDate.mk (year now) (month now) (day now)) in
  exists d,
    sales (addSale now newId serverTime true sale s) !! newId = Some d
    /\ let r := toSale toISOString newId (dataOf d) in
       Sale.id r = newId
       /\ Sale.userId r = User.uid u
       /\ Sale.total r = NewSale.total sale
       /\ extractDateOnly r = selectedDateStr today
       /\ (forall dataset,
             In r dataset -> In r (filteredRecent localeCompare dataset today))
       /\ (forall dataset,
             let k := kpis dataset today in
             let t := NewSale.total sale in
             kpis (dataset ++ [r]) today
             = mkKpi (dayTotal k + t) (dayCount k + 1) (monthTotal k + t)
                 (monthCount k + 1) (yearTotal k + t) (yearCount k + 1))
       /\ formatTime (JS.orElse (Sale.time r) "")
          = JS.padStart2 (JS.ofZ (hours now)) ++ ":"
            ++ JS.padStart2 (JS.ofZ (minutes now)).
Proof.
  intros Hu Hy Hm Hd Hh Hmin today.
  unfold addSale. rewrite Hu. cbn [sales].
  eexists. split; [apply lookup_insert_eq|].
  set (date := JS.ofZ (year now) ++ "-" ++ JS.padStart2 (JS.ofZ (month now + 1))
               ++ "-" ++ JS.padStart2 (JS.ofZ (day now))).
  set (hh := JS.padStart2 (JS.ofZ (hours now))).
  set (mm := JS.padStart2 (JS.ofZ (minutes now))).
  assert (Hymd : isYMD date = true).
  { apply isYMD_parts;
      [apply year_fourDigits | apply pad2_twoDigits | apply pad2_twoDigits]; lia. }
  assert (Hhh : twoDigits hh = true) by (apply pad2_twoDigits; lia).
  assert (Hmm : twoDigits mm = true) by (apply pad2_twoDigits; lia).
  destruct (isYMD_chars date Hymd) as [_ HnoT].
  cbv zeta.
  set (r := toSale toISOString newId _).
  assert (Hdate : Sale.date r = Some date).
  { unfold r, toSale, dataOf. cbn [Sale.date DocData.date SaleDoc.date].
    apply dateStrOf_plain, HnoT. }
  assert (Hx : extractDateOnly r = selectedDateStr today)
    by (rewrite (extract_plain r date Hdate Hymd); reflexivity).
  split; [reflexivity|]. split; [reflexivity|]. split; [reflexivity|].
  split; [exact Hx|]. split; [|split].
  - intros dataset Hin. unfold filteredRecent.
    rewrite (sortBy_perm (byTimeDesc localeCompare)).
    apply List.filter_In. split; [exact Hin|]. apply String.eqb_eq, Hx.
  - intros dataset. unfold kpis. rewrite fold_left_app. cbn [fold_left].
    rewrite kpiStep_on_cursor; [reflexivity | | | | exact Hx];
      cbn [today initial selectedYear selectedMonth selectedDay
           JSDate.getFullYear JSDate.getMonth JSDate.getDate];
      [|apply padStart2_plain|apply padStart2_plain]; apply ofZ_plain; lia.
  - assert (Htime : Sale.time r = Some (hh ++ ":" ++ mm ++ ":"
                       ++ JS.padStart2 (JS.ofZ (seconds now)))).
    { unfold r, toSale, dataOf. cbn [Sale.time DocData.time SaleDoc.time].
      unfold JS.orElse at 1.
      pose proof (twoDigits_truthy hh Hhh) as Ht.
      destruct hh; [discriminate Ht | reflexivity]. }
    rewrite Htime. unfold JS.orElse.
    pose proof (twoDigits_truthy hh Hhh) as Ht.
    replace (JS.truthy (hh ++ ":" ++ mm ++ ":"
                        ++ JS.padStart2 (JS.ofZ (seconds now)))) with true
      by (destruct hh; [discriminate Ht | reflexivity]).
    apply formatTime_clock; assumption.
Qed.

Lemma toSale_date_plain (id : string) (data : DocData.t) :
  JS.includes "T" (JS.orElse (Sale.date (toSale toISOString id data)) "") = false.
Proof.
  assert (Hor : forall x, JS.includes "T" x = false ->
                          JS.includes "T" (JS.orElse (Some x) "") = false).
  { intros x Hx. unfold JS.orElse. destruct (JS.truthy x); [exact Hx | reflexivity]. }
  unfold toSale. cbn [Sale.date]. unfold dateStrOf.
  destruct (DocData.date data) as [[s|d]|]; [| |reflexivity].
  - destruct (JS.includes "T" s) eqn:E; apply Hor;
      [apply hd_split_without | exact E].
  - apply Hor. rewrite !includes_app. cbn [JS.includes Ascii.eqb Bool.eqb orb].
    rewrite ofZ_no_T, !padStart2_no_T by apply ofZ_no_T. reflexivity.
Qed.

(** What [extractDateOnly] gives on a sale of a snapshot: its date when
    that has the form YYYY-MM-DD, the day of its creation time when it has
    no date, and nothing otherwise. *)
Lemma extract_of_snapshot (id : string) (data : DocData.t) :
  let r := toSale toISOString id data in
  let dateStr := JS.orElse (Sale.date r) "" in
  extractDateOnly r
  = if JS.truthy dateStr then (if isYMD dateStr then dateStr else "")
    else match DocData.createdAt data with
         | Some ca =>
             JS.ofZ (JSDate.getFullYear ca) ++ "-"
             ++ JS.padStart2 (JS.ofZ (JSDate.getMonth ca + 1)) ++ "-"
             ++ JS.padStart2 (JS.ofZ (JSDate.getDate ca))
         | None => ""
         end.
Proof.
  cbv zeta. pose proof (toSale_date_plain id data) as HnoT.
  unfold extractDateOnly. rewrite HnoT, andb_false_r.
  destruct (JS.truthy (JS.orElse (Sale.date (toSale toISOString id data)) ""));
    cbn [andb negb]; [|reflexivity].
  destruct (isYMD _); reflexivity.
Qed.

(** Whatever a document holds, the date of the sale the listener makes of
    it has no time part: the part of [extractDateOnly] that cuts a date at
    its [T] has nothing to cut on the sales of a snapshot, which are dated
    by their date when that has the form YYYY-MM-DD, by the day of their
    creation time when they have no date, and not at all otherwise.  When
    the document's date is a text with a time part, the sale is dated by
    what stands before it. *)
Theorem snapshot_date_has_no_time_part (id : string) (data : DocData.t) :
  let r := toSale toISOString id data in
  let dateStr := JS.orElse (Sale.date r) "" in
  JS.includes "T" dateStr = false
  /\ extractDateOnly r
     = (if JS.truthy dateStr then (if isYMD dateStr then dateStr else "")
        else match DocData.createdAt data with
             | Some ca =>
                 JS.ofZ (JSDate.getFullYear ca) ++ "-"
                 ++ JS.padStart2 (JS.ofZ (JSDate.getMonth ca + 1)) ++ "-"
                 ++ JS.padStart2 (JS.ofZ (JSDate.getDate ca))
             | None => ""
             end)
  /\ (forall d rest,
        DocData.date data = Some (inl (d ++ String "T" rest)) ->
        JS.includes "T" d = false ->
        Sale.date r = Some d
        /\ (isYMD d = true -> extractDateOnly r = d)).
Proof.
  cbv zeta. split; [apply toSale_date_plain|].
  split; [apply extract_of_snapshot|].
  intros d rest Hdate HnoT.
  assert (Hd : Sale.date (toSale toISOString id data) = Some d).
  { unfold toSale. cbn [Sale.date]. rewrite Hdate. unfold dateStrOf.
    rewrite includes_sep_app, split_app by exact HnoT. reflexivity. }
  split; [exact Hd|]. intros Hymd. apply (extract_plain _ _ Hd Hymd).
Qed.

End RecordedSale.

Section EditFlow.
Import AdminDashboard AppContext SalesForm.
Variable toISOString : JSDate.t -> string.

(** Editing a sale of the listing through the form rewrites the six
    fields of the form and nothing else: the document keeps its owner, its
    date, its time and its creation time, no other document changes and
    none is added, so the sale stays on the day it was listed under.  This
    holds for a document whose date has no time part and whose time is not
    empty, as every document [addSale] writes; a document without a time
    gets the time of its creation timestamp written into it.  A refused
    write changes nothing. *)
Theorem edit_keeps_date_and_owner
    (products : list Product) (now : Clock) (newId : string)
    (serverTime : JSDate.t) (f : Form) (s : Store) (id : string)
    (d : SaleDoc.t) :
  sales s !! id = Some d ->
  id <> "" ->
  isValid f = true ->
  JS.includes "T" (SaleDoc.date d) = false ->
  let editing := toSale toISOString id (dataOf d) in
  let edited accepted :=
    submit products (Some editing) now newId serverTime accepted f s in
  let d' time :=
    SaleDoc.mk (SaleDoc.userId d) (SaleDoc.userEmail d) (product f) (flavor f)
      (unit f) (price products f) (price products f * unit f) (paymentMode f)
      (SaleDoc.date d) time (SaleDoc.createdAt d) in
  (SaleDoc.time d <> "" ->
   sales (edited true) = <[id := d' (SaleDoc.time d)]> (sales s)
   /\ extractDateOnly (toSale toISOString id (dataOf (d' (SaleDoc.time d))))
      = extractDateOnly editing)
  /\ (SaleDoc.time d = "" ->
      sales (edited true)
      = <[id := d' (timeFromCreatedAt toISOString (SaleDoc.createdAt d))]> (sales s))
  /\ lastError (edited true) = None
  /\ edited false = mkStore (sales s) (currentUser s) (Some "Failed to update sale").
Proof.
  intros Hd Hid Hvalid HnoT. cbv zeta.
  assert (Htruthy : JS.truthy id = true)
    by (destruct id; [congruence | reflexivity]).
  unfold submit, handleSubmit. rewrite Hvalid. cbn [negb].
  cbn [toSale Sale.id Sale.date Sale.time]. rewrite Htruthy.
  unfold updateSale. rewrite Hd. cbn [sales lastError].
  change (DocData.date (dataOf d))
    with (Some (inl (SaleDoc.date d) : string + JSDate.t)).
  change (DocData.time (dataOf d)) with (Some (SaleDoc.time d)).
  change (DocData.createdAt (dataOf d)) with (SaleDoc.createdAt d).
  rewrite !(dateStrOf_plain _ HnoT).
  split; [|split; [|split; reflexivity]].
  - intros Htime.
    assert (Ht : JS.orElse (Some (SaleDoc.time d))
                   (JS.orElse (Some (timeFromCreatedAt toISOString
                                       (SaleDoc.createdAt d))) "")
                 = SaleDoc.time d).
    { unfold JS.orElse at 1. destruct (SaleDoc.time d); [congruence | reflexivity]. }
    rewrite Ht. split; [reflexivity|].
    unfold extractDateOnly, toSale, dataOf. reflexivity.
  - intros Htime. rewrite Htime. f_equal. unfold mergePayload, payloadOf.
    cbn. f_equal. unfold JS.orElse. cbn.
    destruct (timeFromCreatedAt toISOString (SaleDoc.createdAt d)); reflexivity.
Qed.

End EditFlow.

Section SessionWitnesses.
Import AdminDashboard AppContext Props Samples.

Lemma logout_ends_offline_login_witness :
  let signedIn :=
    mkProvider
      (login sampleDigest fullBrowser (SignedIn alice) sampleSalt
         "alice@x.com" "pw1" freshCtx)
      sameDay false in
  let p' := logout fullBrowser SignedOut signedIn in
  salesState p' = []
  /\ tryOfflineSessionLogin sampleDigest fullBrowser (localStorage (ctx p'))
       "alice@x.com" "pw1" = None.
Proof.
  cbv zeta.
  destruct (logout_ends_offline_login fullBrowser
              (mkProvider
                 (login sampleDigest fullBrowser (SignedIn alice) sampleSalt
                    "alice@x.com" "pw1" freshCtx)
                 sameDay false) eq_refl)
    as (_ & _ & _ & Hsales & _ & _ & Htry & _).
  split; [exact Hsales | apply Htry].
Defined.

Lemma recorded_sale_is_listed_today_witness :
  exists d,
    sales (addSale noon "s1" march5th true
             (NewSale.mk "Yoghurt" "Mango" 3 970 2910 (Some "Cash"))
             emptyStore) !! "s1" = Some d
    /\ extractDateOnly (toSale sampleISO "s1" (dataOf d)) = "2024-03-05"
    /\ formatTime (JS.orElse (Sale.time (toSale sampleISO "s1" (dataOf d))) "")
       = "12:00".
Proof.
  destruct (recorded_sale_is_listed_today codeOrder sampleISO noon "s1"
              march5th (NewSale.mk "Yoghurt" "Mango" 3 970 2910 (Some "Cash"))
              emptyStore alice eq_refl)
    as (d & Hd & _ & _ & _ & Hdate & _ & _ & Htime);
    [cbn; lia ..|].
  exists d. split; [exact Hd|]. split; [exact Hdate | exact Htime].
Defined.

Lemma edit_keeps_date_and_owner_witness :
  sales (SalesForm.submit SalesForm.FALLBACK_PRODUCTS
           (Some (toSale sampleISO "s1" (dataOf plainYoghurt)))
           noon "s2" march5th true mangoes oneSale)
  = {[ "s1" :=
         SaleDoc.mk "uid-alice" (Some "alice@x.com") "Yoghurt" "Mango" 3 970
           2910 "Cash" "2024-03-05" "10:22:00" (Some march5th) ]}.
Proof.
  destruct (edit_keeps_date_and_owner sampleISO SalesForm.FALLBACK_PRODUCTS
              noon "s2" march5th mangoes oneSale "s1" plainYoghurt)
    as (Hedit & _); [reflexivity | discriminate | reflexivity | reflexivity |].
  destruct Hedit as [Hsales _]; [discriminate|].
  rewrite Hsales. apply insert_singleton_eq.
Defined.

End SessionWitnesses.

(** ** The figures as sums over the dataset *)
Section SumFacts.
Import AdminDashboard Props.
Variable localeCompare : string -> string -> Z.

Lemma kpiAdd_assoc a b c : kpiAdd (kpiAdd a b) c = kpiAdd a (kpiAdd b c).
Proof. unfold kpiAdd; cbn; f_equal; lia. Qed.


Lemma kpiAdd_0_r a : kpiAdd a kpi0 = a.
Proof. destruct a; unfold kpiAdd; cbn; f_equal; lia. Qed.

(** A turn of the KPI loop adds what the record alone would give. *)
Lemma kpiStep_add st k s : kpiStep st k s = kpiAdd k (kpiStep st kpi0 s).
Proof.
  unfold kpiStep.
  destruct (negb (JS.truthy (extractDateOnly s)));
    [symmetry; apply kpiAdd_0_r|].
  repeat case_bool_decide; cbv zeta;
    first [ symmetry; apply kpiAdd_0_r
          | destruct k; unfold kpiAdd; cbn; f_equal; lia ].
Qed.

Lemma kpis_fold st ds :
  forall k, fold_left (kpiStep st) ds k = kpiAdd k (kpis ds st).
Proof.
  unfold kpis. induction ds as [|s ds IH]; intros k; cbn [fold_left].
  - symmetry. apply kpiAdd_0_r.
  - rewrite IH, (IH (kpiStep st kpi0 s)), (kpiStep_add st k s).
    apply kpiAdd_assoc.
Qed.

Lemma kpis_app st ds1 ds2 :
  kpis (ds1 ++ ds2) st = kpiAdd (kpis ds1 st) (kpis ds2 st).
Proof. unfold kpis at 1. rewrite fold_left_app. apply kpis_fold. Qed.

Lemma kpis_cons st s ds :
  kpis (s :: ds) st = kpiAdd (kpiStep st kpi0 s) (kpis ds st).
Proof. apply (kpis_app st [s] ds). Qed.




(** The value of every point of the series is the total of its bucket. *)
Lemma monthlySeries_values now ds :
  monthlySeries now ds
  = List.map
      (fun i =>
         let refDate := JS.newDate (JSDate.getFullYear now) (JSDate.getMonth now) in
         let start := JS.newDate (fst refDate) (snd refDate - (monthsToShow - 1)) in
         let current := JS.newDate (fst start) (snd start + i) in
         let monthNumber := JS.padStart2 (JS.ofZ (snd current + 1)) in
         let key := JS.ofZ (fst current) ++ "-" ++ monthNumber in
         mkPoint key
           (JS.sliceTo 3 (getMonthName monthNumber) ++ " "
            ++ JS.sliceFrom 2 (JS.ofZ (fst current)))
           (bucketTotal key ds) (i =? monthsToShow - 1))
      (seqZ 0 monthsToShow).
Proof.
  unfold monthlySeries. cbv zeta. apply List.map_ext. intros i.
  rewrite totals_lookup, lookup_empty. reflexivity.
Qed.



Lemma filter_sorted_perm (ds : list Sale.t) st :
  Permutation (filteredRecent localeCompare ds st)
    (List.filter (fun s => String.eqb (extractDateOnly s) (selectedDateStr st)) ds).
Proof. apply sortBy_perm. Qed.



End SumFacts.

Section SumWitness.
Import AdminDashboard Samples.


End SumWitness.

(** ** The month card and the trend chart *)
Section MonthFacts.
Import AdminDashboard Props.

Lemma split_parts_plain sep s :
  Forall (fun p => JS.includes sep p = false) (JS.split sep s).
Proof.
  induction s as [|c r IH]; cbn [JS.split]; [repeat constructor|].
  destruct (Ascii.eqb c sep) eqn:E; [constructor; [reflexivity | exact IH]|].
  destruct (JS.split sep r) as [|h t]; [repeat constructor; cbn; rewrite E; reflexivity|].
  apply Forall_cons in IH. destruct IH as [Hh Ht].
  constructor; [cbn; rewrite E; exact Hh | exact Ht].
Qed.

Lemma append_cancel_l (a x y : string) : a ++ x = a ++ y -> x = y.
Proof. induction a as [|c a IH]; cbn; [auto|]. intros H. injection H. exact IH. Qed.

Lemma app_sep_inj sep a b a' b' :
  JS.includes sep a = false -> JS.includes sep a' = false ->
  a ++ String sep b = a' ++ String sep b' -> a = a' /\ b = b'.
Proof.
  intros Ha Ha' E.
  assert (Hs : JS.split sep (a ++ String sep b) = JS.split sep (a' ++ String sep b'))
    by (rewrite E; reflexivity).
  rewrite !split_app in Hs by assumption.
  injection Hs as Haa _. subst a'. split; [reflexivity|].
  apply append_cancel_l in E. injection E. auto.
Qed.

(** What one record adds to the month total of a cursor is what it adds to
    the bucket of the cursor's year and month. *)
Lemma month_share st s :
  JS.includes "-" (selectedYear st) = false ->
  JS.truthy (selectedYear st) = true ->
  JS.truthy (selectedMonth st) = true ->
  monthTotal (kpiStep st kpi0 s)
  = if bool_decide (bucketKey s = Some (selectedYear st ++ "-" ++ selectedMonth st))
    then Sale.total s else 0.
Proof.
  intros Hplain Hy Hm. unfold kpiStep, bucketKey.
  destruct (negb (JS.truthy (extractDateOnly s)));
    [rewrite bool_decide_eq_false_2 by discriminate; reflexivity|].
  cbv zeta.
  pose proof (split_parts_plain "-" (extractDateOnly s)) as Hparts.
  destruct (JS.split "-" (extractDateOnly s) !! 0%nat) as [y|] eqn:E0;
    [|rewrite !bool_decide_eq_false_2 by discriminate; reflexivity].
  assert (Hyplain : JS.includes "-" y = false).
  { exact (Forall_lookup_1 _ _ _ _ Hparts E0). }
  destruct (JS.split "-" (extractDateOnly s) !! 1%nat) as [m|] eqn:E1.
  - destruct (decide (y = selectedYear st)) as [->|Hne].
    + rewrite (bool_decide_eq_true_2 (Some _ = Some _)) by reflexivity.
      destruct (decide (m = selectedMonth st)) as [->|Hnm].
      * rewrite (bool_decide_eq_true_2 (Some _ = Some _)) by reflexivity.
        rewrite Hy, Hm. cbn [negb orb].
        rewrite (bool_decide_eq_true_2 (Some _ = Some _)) by reflexivity.
        case_bool_decide; cbn; lia.
      * rewrite (bool_decide_eq_false_2 (Some m = Some _)) by congruence.
        rewrite Hy. cbn [negb orb monthTotal].
        destruct (negb (JS.truthy m));
          [rewrite bool_decide_eq_false_2 by discriminate; reflexivity|].
        rewrite bool_decide_eq_false_2; [reflexivity|].
        intros H. injection H as H. do 2 apply append_cancel_l in H.
        congruence.
    + rewrite (bool_decide_eq_false_2 (Some y = Some _)) by congruence.
      cbn [monthTotal kpi0].
      destruct (negb (JS.truthy y) || negb (JS.truthy m));
        [rewrite bool_decide_eq_false_2 by discriminate; reflexivity|].
      rewrite bool_decide_eq_false_2; [reflexivity|].
      intros H. injection H as H.
      apply app_sep_inj in H; [|assumption ..]. destruct H; congruence.
  - rewrite (bool_decide_eq_false_2 (None = Some _)) by discriminate.
    rewrite (bool_decide_eq_false_2 (None = Some _)) by discriminate.
    case_bool_decide; reflexivity.
Qed.

Lemma monthTotal_bucket st ds :
  JS.includes "-" (selectedYear st) = false ->
  JS.truthy (selectedYear st) = true ->
  JS.truthy (selectedMonth st) = true ->
  monthTotal (kpis ds st)
  = bucketTotal (selectedYear st ++ "-" ++ selectedMonth st) ds.
Proof.
  intros Hplain Hy Hm. induction ds as [|s ds IH]; [reflexivity|].
  rewrite kpis_cons. cbn [kpiAdd monthTotal bucketTotal foldr].
  rewrite (month_share st s Hplain Hy Hm). fold (bucketTotal (selectedYear st ++ "-" ++ selectedMonth st) ds).
  rewrite IH. case_bool_decide; lia.
Qed.

Lemma numOrZero (v : Z) : (if v =? 0 then 0 else v) = v.
Proof. destruct (Z.eqb_spec v 0); congruence. Qed.

(** The two totals handed to the chart are the totals of the buckets of
    this month and of the month before, and this month's is the amount on
    the month card of a dashboard opened now.  On any cursor, the bar of
    the trend that carries the cursor's year and month shows the amount of
    the month card. *)
Theorem chart_totals_match_month_card (now : JSDate.t) (ds : list Sale.t) :
  1970 <= JSDate.getFullYear now <= 9999 ->
  0 <= JSDate.getMonth now <= 11 ->
  currentMonthTotal now ds
  = bucketTotal (monthKey (JSDate.getFullYear now, JSDate.getMonth now)) ds
  /\ previousMonthTotal now ds = bucketTotal (monthKey (trendMonth now 4)) ds
  /\ nextMonth (trendMonth now 4) = (JSDate.getFullYear now, JSDate.getMonth now)
  /\ currentMonthTotal now ds = monthTotal (kpis ds (initial now))
  /\ (forall st p,
        JS.includes "-" (selectedYear st) = false ->
        JS.truthy (selectedYear st) = true ->
        JS.truthy (selectedMonth st) = true ->
        In p (monthlySeries now ds) ->
        key p = selectedYear st ++ "-" ++ selectedMonth st ->
        value p = monthTotal (kpis ds st)).
Proof.
  intros Hy Hm.
  assert (Hseq : seqZ 0 6 = [0; 1; 2; 3; 4; 5]) by reflexivity.
  assert (Hlast : forall F : Z -> Point,
            let series := List.map F [0; 1; 2; 3; 4; 5] in
            valueAt series (Z.of_nat (length series) - 1) = value (F 5))
    by (intros F; unfold valueAt; cbn; apply numOrZero).
  assert (Hbefore : forall F : Z -> Point,
            let series := List.map F [0; 1; 2; 3; 4; 5] in
            valueAt series (Z.of_nat (length series) - 2) = value (F 4))
    by (intros F; unfold valueAt; cbn; apply numOrZero).
  cbv zeta in Hlast, Hbefore.
  assert (Hcur : currentMonthTotal now ds
                 = bucketTotal (monthKey (JSDate.getFullYear now, JSDate.getMonth now)) ds).
  { unfold currentMonthTotal. cbv zeta.
    rewrite (monthlySeries_entries now ds Hy Hm), Hseq, Hlast.
    cbn [value]. rewrite trendMonth_now by exact Hm. reflexivity. }
  split; [exact Hcur|]. split; [|split; [|split]].
  - unfold previousMonthTotal. cbv zeta.
    rewrite (monthlySeries_entries now ds Hy Hm), Hseq, Hbefore. reflexivity.
  - rewrite <- (trendMonth_now now Hm). symmetry. apply (trendMonth_next now 4).
  - rewrite Hcur. symmetry.
    rewrite monthTotal_bucket; [reflexivity | | |];
      cbn [initial selectedYear selectedMonth].
    + apply ofZ_plain. lia.
    + assert (H4 : fourDigits (JS.ofZ (JSDate.getFullYear now)) = true)
        by (apply year_fourDigits; lia).
      destruct (JS.ofZ (JSDate.getFullYear now)); [discriminate H4 | reflexivity].
    + apply twoDigits_truthy, pad2_twoDigits. lia.
  - intros st p Hplain Hty Htm Hin Hkey.
    rewrite monthTotal_bucket by assumption. rewrite <- Hkey.
    rewrite monthlySeries_values in Hin. apply List.in_map_iff in Hin.
    destruct Hin as (i & <- & _). reflexivity.
Qed.

End MonthFacts.

Section MonthWitness.
Import AdminDashboard Samples.

Lemma chart_totals_match_month_card_witness :
  currentMonthTotal mid_march mixed = 2770
  /\ previousMonthTotal mid_march mixed = 0
  /\ monthTotal (kpis mixed (initial mid_march)) = 2770.
Proof.
  destruct (chart_totals_match_month_card mid_march mixed)
    as (Hcur & Hprev & _ & Hcard & _); [cbn; lia ..|].
  split; [|split].
  - rewrite Hcur. reflexivity.
  - rewrite Hprev. reflexivity.
  - rewrite <- Hcard, Hcur. reflexivity.
Defined.

End MonthWitness.

(** ** The day card and the listing *)
Section DayFacts.
Import AdminDashboard Props.
Variable localeCompare : string -> string -> Z.

Lemma split_nonempty sep s : JS.split sep s <> [].
Proof.
  destruct s as [|c r]; cbn [JS.split]; [discriminate|].
  destruct (Ascii.eqb c sep); [discriminate|].
  destruct (JS.split sep r); discriminate.
Qed.

(** Joining the parts with the separator gives the text back. *)
Lemma join_split sep s : JS.join (String sep "") (JS.split sep s) = s.
Proof.
  induction s as [|c r IH]; [reflexivity|]. cbn [JS.split].
  pose proof (split_nonempty sep r) as Hne.
  destruct (Ascii.eqb_spec c sep) as [->|_].
  - destruct (JS.split sep r) as [|h t]; [congruence|].
    cbn [JS.join] in *. rewrite IH. reflexivity.
  - destruct (JS.split sep r) as [|h t]; [congruence|].
    destruct t; cbn [JS.join] in *; rewrite <- IH; reflexivity.
Qed.

Lemma isYMD_three_parts d :
  isYMD d = true -> length (JS.split "-" d) = 3%nat.
Proof.
  unfold isYMD. intros H.
  destruct d as [|y1 [|y2 [|y3 [|y4 [|d1 [|m1 [|m2 [|d2 [|a1 [|a2 [|? ?]]]]]]]]]]];
    try discriminate H.
  cbn [list_ascii_of_string] in H.
  repeat (apply andb_prop in H; destruct H as [H ?]).
  repeat match goal with
         | Hc : Ascii.eqb _ _ = true |- _ => apply Ascii.eqb_eq in Hc; subst
         end.
  assert (Hd : forall c, JS.isDigit c = true -> Ascii.eqb c "-" = false).
  { intros c Hc. destruct (Ascii.eqb_spec c "-") as [->|]; [discriminate Hc | reflexivity]. }
  cbn [JS.split].
  rewrite (Hd y1), (Hd y2), (Hd y3), (Hd y4), (Hd m1), (Hd m2), (Hd a1), (Hd a2)
    by first [ assumption
             | unfold JS.isDigit; cbv zeta; apply andb_true_intro; split;
               assumption ].
  reflexivity.
Qed.

Lemma sumTotals_cons s l : sumTotals (s :: l) = Sale.total s + sumTotals l.
Proof. unfold sumTotals. cbn [List.map fold_left]. apply sum_totals_step. Qed.

Lemma sumTotals_perm l1 l2 : Permutation l1 l2 -> sumTotals l1 = sumTotals l2.
Proof.
  induction 1 as [|x l l' _ IH|x y l|l l' l'' _ IH1 _ IH2];
    rewrite ?sumTotals_cons; [reflexivity | lia | lia | congruence].
Qed.

Lemma day_share_member st s :
  JS.includes "-" (selectedYear st) = false ->
  JS.includes "-" (selectedMonth st) = false ->
  JS.includes "-" (selectedDay st) = false ->
  extractDateOnly s = selectedDateStr st ->
  dayCount (kpiStep st kpi0 s) = 1 /\ dayTotal (kpiStep st kpi0 s) = Sale.total s.
Proof.
  intros Hy Hm Hd Hx. rewrite (kpiStep_on_cursor st kpi0 s Hy Hm Hd Hx).
  split; reflexivity.
Qed.

Lemma day_share_other st s :
  threeParts (extractDateOnly s) ->
  extractDateOnly s <> selectedDateStr st ->
  dayCount (kpiStep st kpi0 s) = 0 /\ dayTotal (kpiStep st kpi0 s) = 0.
Proof.
  unfold threeParts. intros Hlen Hx. unfold kpiStep.
  destruct (negb (JS.truthy (extractDateOnly s))); [split; reflexivity|].
  cbv zeta. pose proof (join_split "-" (extractDateOnly s)) as Hjoin.
  repeat case_bool_decide; try (split; reflexivity).
  exfalso. apply Hx. rewrite <- Hjoin.
  destruct (JS.split "-" (extractDateOnly s)) as [|y [|m [|d [|? ?]]]];
    try discriminate; [|cbn in Hlen; lia].
  cbn in *. unfold selectedDateStr. congruence.
Qed.

Lemma day_share_least st s :
  0 <= dayCount (kpiStep st kpi0 s).
Proof.
  destruct (kpiStep_cases st kpi0 s) as [E|[E|[E|E]]]; rewrite E; cbn; lia.
Qed.

Lemma listed_length_cons (st : State) s (ds : list Sale.t) :
  let listed := List.filter (fun s => String.eqb (extractDateOnly s) (selectedDateStr st)) in
  listed (s :: ds)
  = if String.eqb (extractDateOnly s) (selectedDateStr st)
    then s :: listed ds else listed ds.
Proof. reflexivity. Qed.

Lemma ymd_threeParts y m d :
  JS.includes "-" y = false -> JS.includes "-" m = false ->
  JS.includes "-" d = false ->
  threeParts (y ++ "-" ++ m ++ "-" ++ d).
Proof.
  intros Hy Hm Hd. unfold threeParts.
  change (y ++ "-" ++ m ++ "-" ++ d) with (y ++ String "-" (m ++ String "-" d)).
  rewrite !split_app, split_without by assumption. cbn. lia.
Qed.

Lemma snapshot_threeParts toISOString id data :
  (forall ca, AppContext.DocData.createdAt data = Some ca ->
              0 <= JSDate.getFullYear ca /\ 0 <= JSDate.getMonth ca + 1
              /\ 0 <= JSDate.getDate ca) ->
  threeParts (extractDateOnly (AppContext.toSale toISOString id data)).
Proof.
  intros Hca. rewrite extract_of_snapshot. cbv zeta.
  destruct (JS.truthy _).
  - destruct (isYMD _) eqn:E; [|unfold threeParts; cbn; lia].
    unfold threeParts. rewrite (isYMD_three_parts _ E). lia.
  - destruct (AppContext.DocData.createdAt data) as [ca|];
      [|unfold threeParts; cbn; lia].
    destruct (Hca ca eq_refl) as (Hy & Hm & Hd).
    apply ymd_threeParts;
      [|apply padStart2_plain|apply padStart2_plain]; apply ofZ_plain; assumption.
Qed.

(** The day card agrees with the listing under it.  For a cursor whose
    parts hold no dash, every record of the listing is counted on the day
    card; and where every record's extracted date has at most three parts
    between dashes, the card counts the records of the listing and no
    other, and shows the sum of their totals.  A date of the form
    YYYY-MM-DD has three parts, an empty one has one, and so it is with
    every sale a snapshot listener makes of documents created in a year
    that is not negative. *)
Theorem day_card_matches_listing (ds : list Sale.t) (st : State) :
  JS.includes "-" (selectedYear st) = false ->
  JS.includes "-" (selectedMonth st) = false ->
  JS.includes "-" (selectedDay st) = false ->
  let shown := filteredRecent localeCompare ds st in
  Z.of_nat (length shown) <= dayCount (kpis ds st)
  /\ (Forall (fun s => threeParts (extractDateOnly s)) ds ->
      dayCount (kpis ds st) = Z.of_nat (length shown)
      /\ dayTotal (kpis ds st) = sumTotals shown)
  /\ (forall d, isYMD d = true \/ d = "" -> threeParts d)
  /\ (forall toISOString docs,
        Forall
          (fun doc =>
             forall ca, AppContext.DocData.createdAt (snd doc) = Some ca ->
                        0 <= JSDate.getFullYear ca
                        /\ 0 <= JSDate.getMonth ca + 1
                        /\ 0 <= JSDate.getDate ca)
          docs ->
        Forall (fun s => threeParts (extractDateOnly s))
          (AppContext.salesData toISOString docs)).
Proof.
  intros Hy Hm Hd shown.
  set (listed := List.filter
                   (fun s => String.eqb (extractDateOnly s) (selectedDateStr st))).
  assert (Hshown : Permutation shown (listed ds)) by apply filter_sorted_perm.
  rewrite (Permutation_length Hshown), (sumTotals_perm _ _ Hshown).
  clear Hshown shown. subst listed.
  split; [|split; [|split]].
  - induction ds as [|s ds IH]; [cbn; lia|].
    rewrite kpis_cons. cbn [kpiAdd dayCount].
    rewrite listed_length_cons.
    destruct (String.eqb_spec (extractDateOnly s) (selectedDateStr st)) as [E|_].
    + destruct (day_share_member st s Hy Hm Hd E) as [-> _].
      cbn [length]. lia.
    + pose proof (day_share_least st s). lia.
  - intros Hparts. induction ds as [|s ds IH]; [split; reflexivity|].
    apply Forall_cons in Hparts. destruct Hparts as [Hs Hparts].
    destruct (IH Hparts) as [IHc IHt].
    rewrite kpis_cons. cbn [kpiAdd dayCount dayTotal].
    rewrite listed_length_cons.
    destruct (String.eqb_spec (extractDateOnly s) (selectedDateStr st)) as [E|E].
    + destruct (day_share_member st s Hy Hm Hd E) as [-> ->].
      rewrite sumTotals_cons. cbn [length]. lia.
    + destruct (day_share_other st s Hs E) as [-> ->]. lia.
  - intros d [Hd'| ->]; unfold threeParts;
      [rewrite (isYMD_three_parts d Hd'); lia | cbn; lia].
  - intros toISOString docs Hdocs. unfold AppContext.salesData.
    apply Forall_map. eapply Forall_impl; [exact Hdocs|].
    intros [id data] Hca. apply snapshot_threeParts, Hca.
Qed.

End DayFacts.

Section DayWitness.
Import AdminDashboard Props Samples.

Lemma day_card_matches_listing_witness :
  dayCount (kpis mixed march5)
  = Z.of_nat (length (filteredRecent codeOrder mixed march5))
  /\ dayTotal (kpis mixed march5) = 1800.
Proof.
  destruct (day_card_matches_listing codeOrder mixed march5
              eq_refl eq_refl eq_refl)
    as (_ & Hday & _).
  destruct Hday as [Hcount Htotal].
  - repeat constructor; unfold threeParts; cbn; lia.
  - split; [exact Hcount | rewrite Htotal; reflexivity].
Defined.

End DayWitness.

(** ** The pages of the listing *)
Section PageFacts.
Import AdminDashboard Props.
Variable localeCompare : string -> string -> Z.

(** Cutting a list into runs of five and putting them together again. *)
Lemma chunks_concat {X} (k : nat) :
  forall l : list X,
    (length l <= 5 * k)%nat ->
    concat (List.map (fun i => take 5 (drop (5 * i) l)) (seq 0 k)) = l.
Proof.
  induction k as [|k IH]; intros l Hlen.
  - destruct l; [reflexivity | cbn in Hlen; lia].
  - rewrite <- cons_seq, <- seq_shift. cbn [List.map concat].
    rewrite List.map_map.
    rewrite Nat.mul_0_r, drop_0.
    transitivity (take 5 l ++ drop 5 l)%list; [|apply take_drop]. f_equal.
    etransitivity; [|apply (IH (drop 5 l)); rewrite length_drop; lia].
    f_equal. apply List.map_ext. intros i. rewrite drop_drop. do 2 f_equal. lia.
Qed.

Lemma totalPages_bounds ds st :
  let n := Z.of_nat (length (filteredRecent localeCompare ds st)) in
  let pages := totalPages localeCompare ds st in
  0 <= pages /\ n <= 5 * pages < n + 5.
Proof.
  cbv zeta. unfold totalPages, ceilDiv, RECORDS_PER_PAGE.
  set (n := Z.of_nat _). assert (0 <= n) by lia.
  Z.div_mod_to_equations; lia.
Qed.

Lemma filteredRecent_cursor ds st1 st2 :
  cursor st1 = cursor st2 ->
  filteredRecent localeCompare ds st1 = filteredRecent localeCompare ds st2.
Proof.
  unfold cursor. intros H. injection H as Hy Hm Hd.
  unfold filteredRecent, selectedDateStr. rewrite Hy, Hm, Hd. reflexivity.
Qed.

Lemma totalPages_cursor ds st1 st2 :
  cursor st1 = cursor st2 ->
  totalPages localeCompare ds st1 = totalPages localeCompare ds st2.
Proof.
  intros H. unfold totalPages. rewrite (filteredRecent_cursor ds st1 st2 H).
  reflexivity.
Qed.

Lemma onPage_self st : onPage st (currentPage st) = st.
Proof. destruct st; reflexivity. Qed.

Lemma page_length ds st :
  1 <= currentPage st ->
  length (paginatedRecent localeCompare ds st)
  = Nat.min 5 (length (filteredRecent localeCompare ds st)
               - Z.to_nat (5 * (currentPage st - 1))).
Proof.
  intros Hp.
  assert (E : paginatedRecent localeCompare ds st
              = paginatedRecent localeCompare ds (onPage st (currentPage st)))
    by (rewrite onPage_self; reflexivity).
  rewrite E, paginatedRecent_page by exact Hp.
  rewrite length_take, length_drop. reflexivity.
Qed.

(** The pages 1 to [totalPages], one after the other, are the listing:
    every record of the day is on exactly one page, in the order of the
    listing.  Every page but the last holds five records, the last holds
    one to five, and beyond the last page there is nothing.  There is no
    page exactly when the listing is empty. *)
Theorem pages_partition_listing (ds : list Sale.t) (st : State) :
  let shown := filteredRecent localeCompare ds st in
  let pages := totalPages localeCompare ds st in
  let page p := paginatedRecent localeCompare ds (onPage st p) in
  concat (List.map page (seqZ 1 pages)) = shown
  /\ (forall p, 1 <= p < pages -> length (page p) = 5%nat)
  /\ (forall p, 1 <= p <= pages -> (1 <= length (page p) <= 5)%nat)
  /\ (forall p, pages < p -> 1 <= p -> page p = [])
  /\ (pages = 0 <-> shown = []).
Proof.
  cbv zeta. destruct (totalPages_bounds ds st) as (H0 & Hup & Hlow).
  set (shown := filteredRecent localeCompare ds st) in *.
  set (pages := totalPages localeCompare ds st) in *.
  assert (Hpage : forall p, 1 <= p ->
            length (paginatedRecent localeCompare ds (onPage st p))
            = Nat.min 5 (length shown - Z.to_nat (5 * (p - 1)))).
  { intros p Hp. rewrite page_length by exact Hp.
    rewrite (filteredRecent_cursor ds (onPage st p) st eq_refl). reflexivity. }
  split; [|split; [|split; [|split]]].
  - unfold seqZ.
    change (concat (List.map ?f (fmap ?g ?l))) with (concat (List.map f (List.map g l))).
    rewrite List.map_map.
    etransitivity; [|apply (chunks_concat (Z.to_nat pages) shown); lia].
    f_equal. apply List.map_ext. intros i.
    rewrite paginatedRecent_page by lia. fold shown. do 2 f_equal. lia.
  - intros p Hp. rewrite Hpage by lia. lia.
  - intros p Hp. rewrite Hpage by lia. lia.
  - intros p Hp H1. apply length_zero_iff_nil. rewrite Hpage by lia. lia.
  - split.
    + intros Hz. apply length_zero_iff_nil. lia.
    + intros Hnil. rewrite Hnil in Hup, Hlow. cbn in Hup, Hlow. lia.
Qed.

Lemma resetEffect_same st p :
  resetEffect st (onPage st p) = onPage st p.
Proof.
  unfold resetEffect, depsChanged, onPage.
  cbn [selectedYear selectedMonth selectedDay]. rewrite !String.eqb_refl.
  reflexivity.
Qed.

(** Over one dataset the pager never leaves the pages of the listing: if
    the current page is one of them (or page 1 of an empty listing), it
    still is after any event, for the listing of the cursor the event
    leads to; the first render is on page 1.  On such a page a listing
    that is not empty shows at least one record. *)
Theorem pager_stays_in_range (ds : list Sale.t) (ev : Event) (st : State) :
  pageInRange localeCompare ds st ->
  pageInRange localeCompare ds (step localeCompare ds ev st)
  /\ (filteredRecent localeCompare ds st <> [] ->
      paginatedRecent localeCompare ds st <> [])
  /\ (forall now, pageInRange localeCompare ds (initial now)).
Proof.
  unfold pageInRange. intros Hin.
  split; [|split].
  - assert (Hset : forall st',
              currentPage st' = currentPage st ->
              let st'' := resetEffect st st' in
              1 <= currentPage st''
              <= Z.max 1 (totalPages localeCompare ds st'')).
    { intros st' Hp. cbv zeta. unfold resetEffect.
      destruct (depsChanged st st') eqn:E; [cbn [currentPage]; lia|].
      unfold depsChanged in E. apply negb_false_iff in E.
      apply andb_prop in E. destruct E as [E Ed].
      apply andb_prop in E. destruct E as [Ey Em].
      apply String.eqb_eq in Ey, Em, Ed.
      rewrite Hp, (totalPages_cursor ds st' st); [exact Hin|].
      unfold cursor. congruence. }
    assert (Hpage : forall q,
              1 <= q <= Z.max 1 (totalPages localeCompare ds st) ->
              let st'' := resetEffect st (onPage st q) in
              1 <= currentPage st''
              <= Z.max 1 (totalPages localeCompare ds st'')).
    { intros q Hq. cbv zeta. rewrite resetEffect_same.
      rewrite (totalPages_cursor ds (onPage st q) st eq_refl). exact Hq. }
    unfold step, handle. destruct ev as [y|m|d| | |page].
    + apply Hset. reflexivity.
    + apply Hset. reflexivity.
    + apply Hset. reflexivity.
    + destruct (_ && _) eqn:E; [|apply Hset; reflexivity].
      apply (Hpage (Z.max 1 (currentPage st - 1))). lia.
    + destruct (_ && _) eqn:E; [|apply Hset; reflexivity].
      apply andb_prop in E. destruct E as [E _]. apply Z.ltb_lt in E.
      apply (Hpage (Z.min (totalPages localeCompare ds st) (currentPage st + 1))).
      lia.
    + destruct (_ && _) eqn:E; [|apply Hset; reflexivity].
      apply andb_prop in E. destruct E as [E E3].
      apply andb_prop in E. destruct E as [E1 E2].
      apply Z.ltb_lt in E1. apply Z.leb_le in E2, E3.
      apply (Hpage page). lia.
  - intros Hne Hnil. apply (f_equal (@length _)) in Hnil.
    rewrite page_length in Hnil by lia.
    destruct (totalPages_bounds ds st) as (H0 & Hup & Hlow).
    assert (length (filteredRecent localeCompare ds st) <> 0%nat)
      by (intros Hz; apply length_zero_iff_nil in Hz; contradiction).
    cbn [length] in Hnil. lia.
  - intros now. cbn [initial currentPage]. lia.
Qed.

Lemma resetEffect_refl st : resetEffect st st = st.
Proof.
  unfold resetEffect, depsChanged. rewrite !String.eqb_refl. reflexivity.
Qed.

(** When the dataset shrinks under the page, the page is not brought back.
    On a page from the second on, with no more than five records left on
    the day, the page shows nothing although the listing may hold records;
    there is one page at most, so no pager is shown and no pager event
    changes the state.  Only an event that changes the date leaves the
    empty page, and it leads to page 1. *)
Theorem shrunk_listing_strands_page (ds : list Sale.t) (st : State) :
  2 <= currentPage st ->
  (length (filteredRecent localeCompare ds st) <= 5)%nat ->
  paginatedRecent localeCompare ds st = []
  /\ totalPages localeCompare ds st <= 1
  /\ (forall ev, pagerEvent ev -> step localeCompare ds ev st = st)
  /\ (forall ev,
        step localeCompare ds ev st <> st ->
        cursor (step localeCompare ds ev st) <> cursor st
        /\ currentPage (step localeCompare ds ev st) = 1).
Proof.
  intros Hp Hlen.
  destruct (totalPages_bounds ds st) as (H0 & Hup & Hlow).
  assert (Hpages : totalPages localeCompare ds st <= 1) by lia.
  assert (Hpager : forall ev, pagerEvent ev -> step localeCompare ds ev st = st).
  { intros ev Hev. unfold step, handle.
    replace (1 <? totalPages localeCompare ds st) with false
      by (symmetry; apply Z.ltb_ge; exact Hpages).
    destruct ev; try contradiction; cbn [andb]; apply resetEffect_refl. }
  split; [|split; [exact Hpages|split; [exact Hpager|]]].
  - apply length_zero_iff_nil. rewrite page_length by lia. lia.
  - intros ev Hmoved.
    assert (Hcursor : cursor (step localeCompare ds ev st) <> cursor st).
    { intros Hsame. apply Hmoved.
      destruct ev as [y|m|d| | |page];
        try (apply Hpager; exact I);
        unfold step, handle, resetEffect, depsChanged in *;
        cbn [selectedYear selectedMonth selectedDay] in *;
        destruct st as [y0 m0 d0 p0];
        cbn [selectedYear selectedMonth selectedDay currentPage] in *.
      - destruct (String.eqb_spec y0 y) as [->|Hne];
          rewrite !String.eqb_refl in *; cbn [andb negb] in *;
          [reflexivity | unfold cursor in Hsame; cbn in Hsame; congruence].
      - destruct (String.eqb_spec m0 m) as [->|Hne];
          rewrite !String.eqb_refl in *; cbn [andb negb] in *;
          [reflexivity | unfold cursor in Hsame; cbn in Hsame; congruence].
      - destruct (String.eqb_spec d0 d) as [->|Hne];
          rewrite !String.eqb_refl in *; cbn [andb negb] in *;
          [reflexivity | unfold cursor in Hsame; cbn in Hsame; congruence]. }
    split; [exact Hcursor|].
    apply (resetEffect_page st (handle localeCompare ds ev st)).
    rewrite <- (resetEffect_cursor st). exact Hcursor.
Qed.

End PageFacts.

Section PageWitness.
Import AdminDashboard Props Samples.

Lemma pager_stays_in_range_witness :
  pageInRange codeOrder twelve (step codeOrder twelve NextPage march5)
  /\ paginatedRecent codeOrder twelve march5 <> [].
Proof.
  assert (Hpages : totalPages codeOrder twelve march5 = 3)
    by (vm_compute; reflexivity).
  destruct (pager_stays_in_range codeOrder twelve NextPage march5)
    as (Hstep & Hshown & _).
  - unfold pageInRange. rewrite Hpages. cbn. lia.
  - split; [exact Hstep | apply Hshown; vm_compute; discriminate].
Defined.

(** Six records of a day, the second page open, and the sixth record
    deleted. *)
Lemma shrunk_listing_strands_page_witness :
  let secondPage := step codeOrder (take 6 twelve) NextPage march5 in
  currentPage secondPage = 2
  /\ length (paginatedRecent codeOrder (take 6 twelve) secondPage) = 1%nat
  /\ length (filteredRecent codeOrder (take 5 twelve) secondPage) = 5%nat
  /\ paginatedRecent codeOrder (take 5 twelve) secondPage = []
  /\ step codeOrder (take 5 twelve) PrevPage secondPage = secondPage.
Proof.
  cbv zeta.
  assert (Hsecond : step codeOrder (take 6 twelve) NextPage march5 = onPage march5 2)
    by (vm_compute; reflexivity).
  rewrite Hsecond.
  destruct (shrunk_listing_strands_page codeOrder (take 5 twelve) (onPage march5 2))
    as (Hpage & _ & Hpager & _).
  - cbn. lia.
  - vm_compute. lia.
  - split; [reflexivity|]. split; [vm_compute; reflexivity|].
    split; [vm_compute; reflexivity|]. split; [exact Hpage|].
    apply Hpager. exact I.
Defined.

End PageWitness.

(** ** The year selector *)
Section YearFacts.
Import AdminDashboard Props.
Variable parseInt : string -> option Z.

(** The text of a whole number names it. *)
Lemma ofZ_inj a b : JS.ofZ a = JS.ofZ b -> a = b.
Proof.
  unfold JS.ofZ. intros H.
  assert (Hnil : forall n, Z.to_int n <> Decimal.Pos Decimal.Nil
                           /\ Z.to_int n <> Decimal.Neg Decimal.Nil).
  { intros [|p|p]; cbn; split; try discriminate;
      intros E; injection E; apply Unsigned.to_uint_nonnil. }
  apply (f_equal NilZero.int_of_string) in H.
  rewrite !NilZero.isi in H by apply Hnil.
  injection H. apply DecimalZ.to_int_inj.
Qed.

Lemma setAdd_In x y set : In y (setAdd x set) <-> y = x \/ In y set.
Proof.
  unfold setAdd. case_bool_decide as Hx.
  - apply list_elem_of_In in Hx. split; [auto | intros [->|]; assumption].
  - rewrite in_app_iff. cbn. intuition congruence.
Qed.

Lemma setAdd_NoDup x set : NoDup set -> NoDup (setAdd x set).
Proof.
  intros Hset. unfold setAdd. case_bool_decide as Hx; [exact Hset|].
  apply NoDup_app. split; [exact Hset|]. split; [|apply NoDup_singleton].
  intros y Hy Hy'. apply list_elem_of_singleton in Hy'. subst y. contradiction.
Qed.

(** A loop that adds to the set what [h] picks of each element. *)
Lemma fold_setAdd {X} (h : X -> option Z) (l : list X) :
  forall init,
    let f := fun set x => match h x with Some y => setAdd y set | None => set end in
    (forall y, In y (fold_left f l init)
               <-> In y init \/ exists x, In x l /\ h x = Some y)
    /\ (NoDup init -> NoDup (fold_left f l init)).
Proof.
  cbv zeta. induction l as [|x l IH]; intros init; cbn [fold_left].
  - split; [|auto]. intros y. split; [auto|]. intros [H|(x & [] & _)]. exact H.
  - destruct (IH (match h x with Some y => setAdd y init | None => init end))
      as [IHin IHnd].
    split.
    + intros y. rewrite IHin. destruct (h x) as [z|] eqn:E.
      * rewrite setAdd_In. split.
        -- intros [[->|H]|(x' & Hx' & Hy)]; eauto 6 using in_eq, in_cons.
        -- intros [H|(x' & [<-|Hx'] & Hy)]; eauto 6.
           left. left. congruence.
      * split.
        -- intros [H|(x' & Hx' & Hy)]; eauto 6 using in_cons.
        -- intros [H|(x' & [<-|Hx'] & Hy)]; eauto 6. congruence.
    + intros Hnd. apply IHnd. destruct (h x); [apply setAdd_NoDup|]; exact Hnd.
Qed.

Lemma sorted_strict (l : list Z) :
  NoDup l -> StronglySorted (fun a b => b - a <= 0) l ->
  StronglySorted (fun a b => b < a) l.
Proof.
  intros Hnd Hs. induction Hs as [|a l Hs IH Ha]; [constructor|].
  apply NoDup_cons in Hnd. destruct Hnd as [Hnot Hl].
  constructor; [exact (IH Hl)|].
  rewrite Forall_forall in *. intros b Hb.
  assert (b <> a) by (intros ->; contradiction).
  specialize (Ha b Hb). lia.
Qed.

Lemma fold_left_ext_fn {X Y} (f g : X -> Y -> X) (l : list Y) :
  (forall a b, f a b = g a b) ->
  forall a, fold_left f l a = fold_left g l a.
Proof.
  intros H. induction l as [|b l IH]; intros a; cbn; [reflexivity|].
  rewrite H. apply IH.
Qed.

Lemma NoDup_map_inj {X Y} (f : X -> Y) (l : list X) :
  (forall a b, f a = f b -> a = b) -> NoDup l -> NoDup (List.map f l).
Proof.
  intros Hinj. induction 1 as [|x l Hx Hl IH]; cbn [List.map]; constructor;
    [|exact IH].
  rewrite list_elem_of_In, in_map_iff. intros (y & Hy & Hin).
  apply Hinj in Hy. subst y. apply Hx, list_elem_of_In, Hin.
Qed.

(** The years the selector offers: the current year, the years from 2022
    on among the five before it and the one after it, and the years from
    2022 on that the records carry; each once, the latest first.  The year
    the dashboard opens on is among them. *)
Theorem years_selector (now : JSDate.t) (dataset : list Sale.t) :
  let thisYear := JSDate.getFullYear now in
  exists ys : list Z,
    years parseInt now dataset = List.map JS.ofZ ys
    /\ StronglySorted (fun a b => b < a) ys
    /\ (forall y,
          In y ys
          <-> y = thisYear
              \/ (2022 <= y
                  /\ (thisYear - 5 <= y <= thisYear + 1
                      \/ exists s, In s dataset /\ recordYear parseInt s = Some y)))
    /\ NoDup (years parseInt now dataset)
    /\ In (selectedYear (initial now)) (years parseInt now dataset).
Proof.
  cbv zeta. unfold years. cbv zeta.
  set (thisYear := JSDate.getFullYear now).
  set (h1 := fun y : Z => if 2022 <=? y then Some y else None).
  set (h2 := fun s => match recordYear parseInt s with
                      | Some y => if 2022 <=? y then Some y else None
                      | None => None
                      end).
  rewrite (fold_left_ext_fn _
             (fun set y => match h1 y with Some z => setAdd z set | None => set end))
    by (intros set y; unfold h1; destruct (2022 <=? y); reflexivity).
  rewrite (fold_left_ext_fn _
             (fun set s => match h2 s with Some z => setAdd z set | None => set end))
    by (intros set s; unfold h2, recordYear; cbv zeta;
        destruct (JS.truthy (extractDateOnly s)); [|reflexivity];
        destruct (parseInt _) as [y|]; [|reflexivity];
        destruct (2022 <=? y); reflexivity).
  set (set0 := setAdd thisYear []).
  set (set1 := fold_left _ (seqZ (thisYear - 5) 7) set0).
  set (set2 := fold_left _ dataset set1).
  destruct (fold_setAdd h1 (seqZ (thisYear - 5) 7) set0) as [Hin1 Hnd1].
  destruct (fold_setAdd h2 dataset set1) as [Hin2 Hnd2].
  cbv zeta in Hin1, Hnd1, Hin2, Hnd2. fold set1 in Hin1, Hnd1, Hin2, Hnd2.
  fold set2 in Hin2, Hnd2.
  assert (Hnd : NoDup set2).
  { apply Hnd2, Hnd1. unfold set0, setAdd. cbn. repeat constructor. set_solver. }
  set (ys := sortBy (fun a b => b - a) set2).
  assert (Hperm : Permutation ys set2) by apply sortBy_perm.
  assert (Hmem : forall y,
            In y ys
            <-> y = thisYear
                \/ (2022 <= y
                    /\ (thisYear - 5 <= y <= thisYear + 1
                        \/ exists s, In s dataset /\ recordYear parseInt s = Some y))).
  { intros y. rewrite <- !list_elem_of_In, Hperm, !list_elem_of_In.
    rewrite Hin2, Hin1. unfold set0. rewrite setAdd_In. cbn [In].
    split.
    - intros [[[->|[]]|(x & Hx & Hy)]|(s & Hs & Hy)].
      + left. reflexivity.
      + unfold h1 in Hy. destruct (Z.leb_spec 2022 x); [|discriminate].
        injection Hy as ->. apply list_elem_of_In, elem_of_seqZ in Hx.
        right. split; [assumption|]. left. lia.
      + unfold h2 in Hy. destruct (recordYear parseInt s) as [z|] eqn:E;
          [|discriminate].
        destruct (Z.leb_spec 2022 z); [|discriminate]. injection Hy as ->.
        right. split; [assumption|]. right. exists s. split; assumption.
    - intros [->|[Hy [Hwin|(s & Hs & Hrec)]]].
      + left. left. left. reflexivity.
      + left. right. exists y. split.
        * apply list_elem_of_In, elem_of_seqZ. lia.
        * unfold h1. destruct (Z.leb_spec 2022 y); [reflexivity | lia].
      + right. exists s. split; [exact Hs|]. unfold h2. rewrite Hrec.
        destruct (Z.leb_spec 2022 y); [reflexivity | lia]. }
  exists ys. split; [reflexivity|]. split; [|split; [exact Hmem|split]].
  - apply sorted_strict; [rewrite Hperm; exact Hnd|].
    apply (sortBy_sorted (fun a b : Z => b - a) (fun _ => True)).
    + intros; lia.
    + intros; lia.
    + apply Forall_forall. intros; exact I.
  - apply NoDup_map_inj; [apply ofZ_inj | rewrite Hperm; exact Hnd].
  - cbn [initial selectedYear]. apply in_map, Hmem. left. reflexivity.
Qed.

Lemma years_from_2022 now dataset :
  Forall (fun y => exists z, y = JS.ofZ z
                             /\ (z = JSDate.getFullYear now \/ 2022 <= z))
    (years parseInt now dataset).
Proof.
  unfold years. apply Forall_map.
  apply (Permutation_Forall (Permutation_sym (sortBy_perm _ _))).
  eapply Forall_impl; [|intros z Hz; exists z; split; [reflexivity | exact Hz]].
  apply fold_left_invariant.
  - intros set s Hset. destruct (JS.truthy (extractDateOnly s)); [|exact Hset].
    destruct (parseInt _) as [year|]; [|exact Hset].
    destruct (Z.leb_spec 2022 year); [|exact Hset].
    apply setAdd_Forall; [right; assumption | exact Hset].
  - apply fold_left_invariant.
    + intros set y Hset. destruct (Z.leb_spec 2022 y); [|exact Hset].
      apply setAdd_Forall; [right; assumption | exact Hset].
    + apply setAdd_Forall; [left; reflexivity | constructor].
Qed.

Variable localeCompare : string -> string -> Z.

(** Sales dated before 2022 cannot be looked at.  Once the current year is
    2022 or later, the year of every cursor the component can reach is a
    year from 2022 on; so a record whose extracted date starts with an
    earlier year is in no listing and on no card, whatever is selected:
    each turn of the KPI loop passes it by. *)
Theorem sales_before_2022_never_listed (now : JSDate.t) (st : State) :
  2022 <= JSDate.getFullYear now ->
  Reachable localeCompare parseInt now st ->
  (exists y, 2022 <= y /\ selectedYear st = JS.ofZ y)
  /\ (forall ds s y' rest,
        0 <= y' < 2022 ->
        extractDateOnly s = JS.ofZ y' ++ "-" ++ rest ->
        ~ In s (filteredRecent localeCompare ds st)
        /\ forall k, kpiStep st k s = k).
Proof.
  intros Hnow Hreach.
  assert (Hyear : exists y, 2022 <= y /\ selectedYear st = JS.ofZ y).
  { induction Hreach as [|dataset ev st Hreach IH Hev].
    - exists (JSDate.getFullYear now). split; [exact Hnow | reflexivity].
    - destruct (step_selected localeCompare dataset ev st) as (-> & _ & _).
      pose proof (handle_page_selected localeCompare dataset ev st) as Hpage.
      destruct ev as [y|m|d| | |page]; cbn in Hev;
        try (destruct Hpage as (-> & _ & _); exact IH);
        cbn [handle selectedYear]; try exact IH.
      pose proof (years_from_2022 now dataset) as Hall.
      rewrite Forall_forall in Hall.
      destruct (Hall y (proj2 (list_elem_of_In _ _) Hev)) as (z & -> & Hz).
      exists z. split; [lia | reflexivity]. }
  split; [exact Hyear|].
  destruct Hyear as (y & Hy & Hsel).
  intros ds s y' rest Hy' Hdate.
  assert (Hparts : JS.split "-" (extractDateOnly s) !! 0%nat = Some (JS.ofZ y')).
  { rewrite Hdate. change (JS.ofZ y' ++ "-" ++ rest) with (JS.ofZ y' ++ String "-" rest).
    rewrite split_app by (apply ofZ_plain; lia). reflexivity. }
  assert (Hne : JS.ofZ y' <> selectedYear st).
  { rewrite Hsel. intros E. apply ofZ_inj in E. lia. }
  split.
  - unfold filteredRecent. rewrite (sortBy_perm (byTimeDesc localeCompare)).
    rewrite List.filter_In. intros [_ E]. apply String.eqb_eq in E.
    apply Hne. rewrite E in Hparts. unfold selectedDateStr in Hparts.
    assert (Hplain : JS.includes "-" (selectedYear st) = false)
      by (rewrite Hsel; apply ofZ_plain; lia).
    change (selectedYear st ++ "-" ++ selectedMonth st ++ "-" ++ selectedDay st)
      with (selectedYear st ++ String "-" (selectedMonth st ++ "-" ++ selectedDay st))
      in Hparts.
    rewrite split_app in Hparts by exact Hplain. cbn in Hparts. congruence.
  - intros k. unfold kpiStep. rewrite Hparts.
    destruct (negb (JS.truthy (extractDateOnly s))); [reflexivity|].
    cbv zeta. rewrite bool_decide_eq_false_2 by congruence. reflexivity.
Qed.

End YearFacts.

Section YearWitness.
Import AdminDashboard Props Samples.

Lemma sales_before_2022_never_listed_witness :
  let st := step codeOrder mixed (SetSelectedMonth "12") (initial mid_march) in
  ~ In (sale "old" (Some "2021-12-24") (Some "18:30:00") 1200)
      (filteredRecent codeOrder
         [sale "old" (Some "2021-12-24") (Some "18:30:00") 1200] st).
Proof.
  cbv zeta.
  destruct (sales_before_2022_never_listed (fun _ => None) codeOrder mid_march
              (step codeOrder mixed (SetSelectedMonth "12") (initial mid_march)))
    as (_ & Hold).
  - cbn. lia.
  - apply reach_step; [apply reach_initial|]. cbn. tauto.
  - apply (Hold _ _ 2021 "12-24"); [lia | reflexivity].
Defined.

End YearWitness.
(** ** The time column of the export *)
Section TimeFacts.
Import AdminDashboard Props.

Lemma startsHHMM_prefix s :
  startsHHMM s = true ->
  startsHHMM (JS.sliceTo 5 s) = true
  /\ String.length (JS.sliceTo 5 s) = 5%nat
  /\ exists rest, s = JS.sliceTo 5 s ++ rest.
Proof.
  intros H.
  destruct s as [|a [|b [|c [|d [|e rest]]]]]; try discriminate H.
  cbn [JS.sliceTo]. split; [exact H|]. split; [reflexivity|].
  exists rest. reflexivity.
Qed.

Lemma matchHHMM_found s :
  forall hhmm,
    matchHHMM s = Some hhmm ->
    startsHHMM hhmm = true
    /\ String.length hhmm = 5%nat
    /\ exists before after,
         s = before ++ hhmm ++ after
         /\ forall k, (k < String.length before)%nat ->
                      startsHHMM (JS.sliceFrom k s) = false.
Proof.
  induction s as [|x r IH]; intros hhmm H; [discriminate H|].
  cbn [matchHHMM] in H. destruct (startsHHMM (String x r)) eqn:E.
  - injection H as <-. destruct (startsHHMM_prefix _ E) as (Hs & Hl & rest & Hr).
    split; [exact Hs|]. split; [exact Hl|].
    exists "", rest. split; [exact Hr|]. intros k Hk. cbn in Hk. lia.
  - destruct (IH hhmm H) as (Hs & Hl & before & after & Hr & Hleft).
    split; [exact Hs|]. split; [exact Hl|].
    exists (String x before), after. split; [rewrite Hr; reflexivity|].
    intros [|k] Hk; [exact E|]. cbn [JS.sliceFrom]. apply Hleft.
    cbn in Hk. lia.
Qed.

Lemma formatTime_of_match hhmm :
  startsHHMM hhmm = true -> String.length hhmm = 5%nat ->
  formatTime hhmm = hhmm.
Proof.
  intros Hs Hl.
  destruct hhmm as [|a [|b [|c [|d [|e [|? ?]]]]]]; try discriminate Hl.
  unfold formatTime. cbn [JS.truthy negb matchHHMM]. rewrite Hs. reflexivity.
Qed.

(** The time the export writes for a record: nothing for no time; the
    first run of two digits, a colon and two digits when the time holds
    one, cut out of the text around it; and the time as it is otherwise.
    Formatting what was formatted changes nothing. *)
Theorem export_time_is_first_hhmm (t : string) :
  formatTime (formatTime t) = formatTime t
  /\ (formatTime t = "" <-> t = "")
  /\ (matchHHMM t = None -> formatTime t = t)
  /\ (forall hhmm,
        matchHHMM t = Some hhmm ->
        formatTime t = hhmm
        /\ startsHHMM hhmm = true
        /\ String.length hhmm = 5%nat
        /\ exists before after,
             t = before ++ hhmm ++ after
             /\ forall k, (k < String.length before)%nat ->
                          startsHHMM (JS.sliceFrom k t) = false).
Proof.
  assert (Hnone : matchHHMM t = None -> formatTime t = t).
  { intros H. unfold formatTime. rewrite H. destruct t; reflexivity. }
  assert (Hsome : forall hhmm, matchHHMM t = Some hhmm -> formatTime t = hhmm).
  { intros hhmm H. unfold formatTime. rewrite H.
    destruct t; [discriminate H | reflexivity]. }
  split; [|split; [|split; [exact Hnone|]]].
  - destruct (matchHHMM t) as [hhmm|] eqn:E.
    + rewrite (Hsome hhmm eq_refl).
      destruct (matchHHMM_found t hhmm E) as (Hs & Hl & _).
      apply formatTime_of_match; assumption.
    + rewrite (Hnone eq_refl). apply (Hnone eq_refl).
  - split; [|intros ->; reflexivity].
    destruct (matchHHMM t) as [hhmm|] eqn:E.
    + rewrite (Hsome hhmm eq_refl).
      destruct (matchHHMM_found t hhmm E) as (_ & Hl & _).
      intros ->. discriminate Hl.
    + rewrite (Hnone eq_refl). auto.
  - intros hhmm H. split; [exact (Hsome hhmm H)|]. apply matchHHMM_found, H.
Qed.

End TimeFacts.

(** ** The sales form *)
Section FormFacts.
Import AdminDashboard AppContext SalesForm Props.

Lemma orElse_self s : JS.orElse (Some s) "" = s.
Proof. unfold JS.orElse. destruct s; reflexivity. Qed.

(** Choosing a product that has flavors selects its first flavor, and the
    price shown is that flavor's price; unit and payment mode stay.  The
    product is the first of the catalog whose id or name is the chosen
    value.  Choosing a product without flavors, or one the catalog does not
    hold, keeps the flavor chosen before, for which the product has no
    price: the price shown is 0. *)
Theorem product_change_selects_first_flavor
    (products : list Product) (newProduct : string) (f : Form) :
  let f' := handleProductChange products newProduct f in
  let selected :=
    List.find
      (fun p => String.eqb (productId p) newProduct
                || String.eqb (productName p) newProduct) products in
  product f' = newProduct
  /\ unit f' = unit f
  /\ paymentMode f' = paymentMode f
  /\ (forall p fl rest,
        selected = Some p -> flavors p = fl :: rest -> flavorName fl <> "" ->
        flavor f' = flavorName fl
        /\ price products f' = flavorPrice fl
        /\ total products f' = flavorPrice fl * unit f)
  /\ (forall p, selected = Some p -> flavors p = [] ->
        flavor f' = flavor f /\ price products f' = 0)
  /\ (selected = None -> flavor f' = flavor f /\ price products f' = 0).
Proof.
  cbv zeta. unfold handleProductChange.
  set (selected := List.find _ products).
  assert (Hprice : forall f0 : Form,
            product f0 = newProduct ->
            price products f0
            = match selected with
              | None => 0
              | Some p =>
                  match List.find (fun fl => String.eqb (flavorName fl) (flavor f0))
                          (flavors p) with
                  | Some fl => flavorPrice fl
                  | None => 0
                  end
              end).
  { intros f0 Hp. unfold price. rewrite Hp. reflexivity. }
  destruct selected as [p|] eqn:Hsel.
  - destruct (flavors p) as [|fl rest] eqn:Hfl.
    + split; [reflexivity|]. split; [reflexivity|]. split; [reflexivity|].
      split; [|split].
      * intros p' fl' rest' Hp'. injection Hp' as Hp'; subst p'. intros ?; congruence.
      * intros p' Hp' _. injection Hp' as Hp'; subst p'.
        split; [reflexivity|]. rewrite Hprice by reflexivity. reflexivity.
      * discriminate.
    + destruct (JS.truthy (flavorName fl)) eqn:Ht.
      * split; [reflexivity|]. split; [reflexivity|]. split; [reflexivity|].
        split; [|split].
        -- intros p' fl' rest' Hp' Hfl' _. injection Hp' as Hp'; subst p'.
           rewrite Hfl in Hfl'. injection Hfl' as <- <-.
           assert (Hpr : price products
                           (mkForm newProduct (flavorName fl) (unit f)
                              (paymentMode f) (submitted f))
                         = flavorPrice fl).
           { rewrite Hprice by reflexivity. cbn [List.find flavor].
             rewrite String.eqb_refl. reflexivity. }
           split; [reflexivity|]. split; [exact Hpr|].
           unfold total. rewrite Hpr. reflexivity.
        -- intros p' Hp'. injection Hp' as Hp'; subst p'. intros ?; congruence.
        -- discriminate.
      * split; [reflexivity|]. split; [reflexivity|]. split; [reflexivity|].
        split; [|split].
        -- intros p' fl' rest' Hp' Hfl' Hne. injection Hp' as Hp'; subst p'.
           rewrite Hfl in Hfl'. injection Hfl' as <- <-.
           destruct (flavorName fl); [congruence | discriminate Ht].
        -- intros p' Hp'. injection Hp' as Hp'; subst p'. intros ?; congruence.
        -- discriminate.
  - split; [reflexivity|]. split; [reflexivity|]. split; [reflexivity|].
    split; [discriminate|]. split; [discriminate|]. intros _.
    split; [reflexivity|]. rewrite Hprice by reflexivity. reflexivity.
Qed.

(** The form does not look at the price.  A valid form whose product the
    catalog does not hold, or whose flavor the product does not have, is
    recorded as a sale with price 0 and total 0, for the product, flavor
    and units of the form. *)
Theorem unpriced_sale_is_recorded
    (products : list Product) (now : Clock) (newId : string)
    (serverTime : JSDate.t) (f : Form) (s : Store) (u : User.t) :
  isValid f = true ->
  currentUser s = Some u ->
  (let selected :=
     List.find
       (fun p => String.eqb (productId p) (product f)
                 || String.eqb (productName p) (product f)) products in
   selected = None
   \/ exists p,
        selected = Some p
        /\ List.find (fun fl => String.eqb (flavorName fl) (flavor f)) (flavors p)
           = None) ->
  exists d,
    sales (submit products None now newId serverTime true f s) !! newId = Some d
    /\ SaleDoc.price d = 0
    /\ SaleDoc.total d = 0
    /\ SaleDoc.product d = product f
    /\ SaleDoc.flavor d = flavor f
    /\ SaleDoc.unit d = unit f
    /\ 1 <= SaleDoc.unit d.
Proof.
  intros Hvalid Hu Hcat. cbv zeta in Hcat.
  assert (Hprice : price products f = 0).
  { unfold price. destruct Hcat as [-> | (p & -> & ->)]; reflexivity. }
  unfold submit, handleSubmit. rewrite Hvalid. cbn [negb].
  unfold addSale. rewrite Hu. cbn [sales].
  eexists. split; [apply lookup_insert_eq|].
  cbn [SaleDoc.price SaleDoc.total SaleDoc.product SaleDoc.flavor SaleDoc.unit
       NewSale.price NewSale.total NewSale.product NewSale.flavor NewSale.unit].
  unfold total. rewrite Hprice.
  repeat split; try reflexivity.
  unfold isValid in Hvalid.
  repeat (apply andb_prop in Hvalid; destruct Hvalid as [Hvalid ?]).
  match goal with H : negb (unit f <? 1) = true |- _ =>
    apply negb_true_iff, Z.ltb_ge in H; exact H end.
Qed.

Section Edit.
Variable toISOString : JSDate.t -> string.

(** Opening a sale for editing and saving it again leaves the store as it
    was: the form is filled with the product, flavor and units of the
    sale, and once the payment mode of the sale is chosen again the update
    writes back what the document holds.  This is so for a document as
    [addSale] writes them (date without time part, time not empty), with
    product, flavor and payment mode not empty, at least one unit, a total
    that is price times units, and a price that is still the price of the
    catalog.  With another catalog price the update writes that price and
    its product with the units, whatever the document held. *)
Theorem edit_without_change_keeps_store
    (products : list Product) (now : Clock) (newId : string)
    (serverTime : JSDate.t) (f0 : Form) (s : Store) (id : string)
    (d : SaleDoc.t) :
  sales s !! id = Some d ->
  id <> "" ->
  SaleDoc.product d <> "" ->
  SaleDoc.flavor d <> "" ->
  SaleDoc.paymentMode d <> "" ->
  SaleDoc.time d <> "" ->
  JS.includes "T" (SaleDoc.date d) = false ->
  1 <= SaleDoc.unit d ->
  let editing := toSale toISOString id (dataOf d) in
  let f := setPaymentMode (SaleDoc.paymentMode d) (populate (Some editing) f0) in
  let s' := submit products (Some editing) now newId serverTime true f s in
  isValid f = true
  /\ isValid (populate (Some editing) (mkForm "" "" 0 "" false)) = false
  /\ (exists d',
        sales s' !! id = Some d'
        /\ SaleDoc.price d' = price products f
        /\ SaleDoc.total d' = price products f * SaleDoc.unit d
        /\ sales s' = <[id := d']> (sales s))
  /\ (price products f = SaleDoc.price d ->
      SaleDoc.total d = SaleDoc.price d * SaleDoc.unit d ->
      sales s' = sales s).
Proof.
  intros Hd Hid Hprod Hflav Hpay Htime HnoT Hunit. cbv zeta.
  set (editing := toSale toISOString id (dataOf d)).
  assert (Hform : setPaymentMode (SaleDoc.paymentMode d) (populate (Some editing) f0)
                  = mkForm (SaleDoc.product d) (SaleDoc.flavor d) (SaleDoc.unit d)
                      (SaleDoc.paymentMode d) (submitted f0)).
  { unfold setPaymentMode, populate, editing, toSale, dataOf.
    cbn [product flavor unit paymentMode submitted Sale.product Sale.flavor
         Sale.unit DocData.product DocData.flavor DocData.unit].
    rewrite !orElse_self.
    destruct (Z.eqb_spec (SaleDoc.unit d) 0); [lia | reflexivity]. }
  rewrite Hform. set (f := mkForm _ _ _ _ _).
  assert (Htruthy : forall x, x <> "" -> JS.truthy x = true)
    by (intros [|? ?] Hx; [congruence | reflexivity]).
  assert (Hvalid : isValid f = true).
  { unfold isValid, f. cbn [product flavor unit paymentMode].
    rewrite !Htruthy by assumption.
    replace (SaleDoc.unit d <? 1) with false
      by (symmetry; apply Z.ltb_ge; lia).
    reflexivity. }
  assert (Hsales : sales (submit products (Some editing) now newId serverTime true f s)
                   = <[id := SaleDoc.mk (SaleDoc.userId d) (SaleDoc.userEmail d)
                             (SaleDoc.product d) (SaleDoc.flavor d) (SaleDoc.unit d)
                             (price products f) (price products f * SaleDoc.unit d)
                             (SaleDoc.paymentMode d) (SaleDoc.date d)
                             (SaleDoc.time d) (SaleDoc.createdAt d)]> (sales s)).
  { unfold submit, handleSubmit. rewrite Hvalid. cbn [negb].
    unfold editing at 1 2. cbn [toSale Sale.id]. rewrite (Htruthy id Hid).
    unfold updateSale. rewrite Hd. cbn [sales].
    unfold editing, toSale. cbn [Sale.date Sale.time].
    change (DocData.date (dataOf d))
      with (Some (inl (SaleDoc.date d) : string + JSDate.t)).
    change (DocData.time (dataOf d)) with (Some (SaleDoc.time d)).
    rewrite (dateStrOf_plain _ HnoT).
    replace (JS.orElse (Some (SaleDoc.time d)) _) with (SaleDoc.time d)
      by (unfold JS.orElse at 1; rewrite (Htruthy _ Htime); reflexivity).
    reflexivity. }
  split; [exact Hvalid|]. split; [|split].
  - unfold isValid, populate. cbn [paymentMode JS.truthy]. apply andb_false_r.
  - eexists. split; [rewrite Hsales; apply lookup_insert_eq|].
    split; [reflexivity|]. split; [reflexivity | exact Hsales].
  - intros Hprice Htotal. rewrite Hsales, Hprice, <- Htotal.
    replace (SaleDoc.mk _ _ _ _ _ _ _ _ _ _ _) with d by (destruct d; reflexivity).
    apply insert_id, Hd.
Qed.

End Edit.

End FormFacts.

Section FormWitness.
Import AdminDashboard AppContext SalesForm Props Samples.

Lemma unpriced_sale_is_recorded_witness :
  let catalog := (FALLBACK_PRODUCTS ++ [mkProduct "water" "Water" []])%list in
  let form := handleProductChange catalog "Water" mangoes in
  exists d,
    sales (submit catalog None noon "s1" march5th true form emptyStore) !! "s1"
    = Some d
    /\ SaleDoc.product d = "Water"
    /\ SaleDoc.flavor d = "Mango"
    /\ SaleDoc.total d = 0.
Proof.
  cbv zeta.
  destruct (unpriced_sale_is_recorded
              (FALLBACK_PRODUCTS ++ [mkProduct "water" "Water" []])%list
              noon "s1" march5th
              (handleProductChange
                 (FALLBACK_PRODUCTS ++ [mkProduct "water" "Water" []])%list
                 "Water" mangoes)
              emptyStore alice eq_refl eq_refl)
    as (d & Hd & _ & Ht & Hp & Hf & _).
  - right. eexists. split; reflexivity.
  - exists d. repeat split; assumption.
Defined.

Lemma edit_without_change_keeps_store_witness :
  sales (submit FALLBACK_PRODUCTS
           (Some (toSale sampleISO "s1" (dataOf plainYoghurt))) noon "s2"
           march5th true
           (setPaymentMode "POS"
              (populate (Some (toSale sampleISO "s1" (dataOf plainYoghurt)))
                 (mkForm "" "" 0 "" false)))
           oneSale)
  = sales oneSale.
Proof.
  destruct (edit_without_change_keeps_store sampleISO FALLBACK_PRODUCTS noon "s2"
              march5th (mkForm "" "" 0 "" false) oneSale "s1" plainYoghurt)
    as (_ & _ & _ & Hsame);
    [reflexivity | discriminate | discriminate | discriminate | discriminate
    | discriminate | reflexivity | cbn; lia |].
  apply Hsame; reflexivity.
Defined.

End FormWitness.

(** ** The colour of the delta text *)
Section ColourFacts.
Import RevenueChart.

Lemma nonneg_cases (x : float) :
  PrimFloat.leb 0 x = true ->
  PrimFloat.eqb x 0 = true \/ PrimFloat.ltb 0 x = true.
Proof.
  rewrite FloatAxioms.leb_spec, FloatAxioms.ltb_spec, FloatAxioms.eqb_spec.
  destruct (Prim2SF x) as [ [] | [] | | [] m e]; vm_compute; auto.
Qed.

Lemma minus_zero_nonneg (p c : float) :
  PrimFloat.eqb p 0 = true -> PrimFloat.ltb 0 c = true ->
  PrimFloat.leb 0 (PrimFloat.sub c p) = true.
Proof.
  rewrite FloatAxioms.leb_spec, FloatAxioms.ltb_spec, FloatAxioms.eqb_spec,
    FloatAxioms.sub_spec.
  change (Prim2SF 0) with (S754_zero false).
  unfold SFeqb, SFltb, SFleb, SF64sub.
  destruct (Prim2SF p) as [sp|sp| |sp mp ep]; cbn [SFcompare];
    try discriminate; try (destruct sp; discriminate).
  intros _.
  destruct (Prim2SF c) as [sc|sc| |sc mc ec]; cbn [SFcompare SFsub];
    try discriminate; destruct sc; try discriminate; reflexivity.
Qed.

(** For totals that are not negative the colour of the delta text goes
    with its marker: grey with the neutral text, green with the marker of
    a rise (also for the "New" text), red with the marker of a fall.  A
    negative total breaks this: with nothing last month and refunds this
    month the neutral text is shown in red. *)
Theorem delta_colour_goes_with_marker (p c : float) :
  PrimFloat.leb 0 p = true ->
  PrimFloat.leb 0 c = true ->
  (deltaColor p c = "#94a3b8" /\ deltaCopy p c = Some neutralCopy)
  \/ (deltaColor p c = "#0f9d58"
      /\ forall copy, deltaCopy p c = Some copy -> exists rest, copy = up ++ rest)
  \/ (deltaColor p c = "#dc2626"
      /\ forall copy, deltaCopy p c = Some copy -> exists rest, copy = down ++ rest).
Proof.
  intros Hp Hc. unfold deltaColor, deltaCopy. cbv zeta.
  destruct (nonneg_cases p Hp) as [Hp0|Hpos].
  - rewrite Hp0. cbn [andb].
    destruct (nonneg_cases c Hc) as [Hc0|Hcpos].
    + left. rewrite Hc0, (zero_not_positive c Hc0). split; reflexivity.
    + right. left. rewrite Hcpos, (positive_not_zero c Hcpos).
      rewrite (minus_zero_nonneg p c Hp0 Hcpos).
      split; [reflexivity|]. intros copy H. injection H as <-.
      eexists. reflexivity.
  - rewrite (positive_not_zero p Hpos), Hpos. cbn [andb].
    destruct (PrimFloat.leb 0 (PrimFloat.sub c p)); [right; left | right; right];
      (split; [reflexivity|]); intros copy H;
      destruct (toFixed1 _) as [pct|]; try discriminate H;
      injection H as <-; eexists; reflexivity.
Qed.

End ColourFacts.

Section ColourWitness.
Import RevenueChart.

Lemma delta_colour_goes_with_marker_witness :
  deltaColor 1000 500 = "#dc2626"
  /\ deltaCopy 1000 500 = Some (down ++ " 50.0% vs last month").
Proof.
  destruct (delta_colour_goes_with_marker 1000 500 eq_refl eq_refl)
    as [[H _]|[[H _]|[H _]]]; try (vm_compute in H; discriminate H).
  split; [exact H | vm_compute; reflexivity].
Defined.

(** Refunds after an empty month: the neutral text, in red. *)
Example delta_colour_refund_sample :
  deltaCopy 0 (-500) = Some neutralCopy /\ deltaColor 0 (-500) = "#dc2626".
Proof. split; vm_compute; reflexivity. Qed.

End ColourWitness.

(** ** The views of the application *)
Section ViewFacts.
Import App.

(** The dashboard and the products screen are kept from other users by
    the side menu alone.  As long as no render is an admin's, the view
    stays the sales form.  But the view is not reset when the user
    changes: once an admin has chosen the dashboard (or the products
    screen) and logged out, whoever signs in next gets that screen,
    admin or not. *)
Theorem admin_views_gated_by_menu_only :
  (forall st,
     Reachable (fun c => isAdmin c = false) st -> view st = staff)
  /\ (forall c st v,
        offered c st (Select v) = true ->
        v <> staff ->
        isAdmin c = true
        /\ forall c',
             user c' <> None -> loading c' = false ->
             render c' (handle Logout (handle (Select v) st))
             = MainScreen false v)
  /\ (forall c st m v, render c st = MainScreen m v -> v = view st).
Proof.
  split; [|split].
  - intros st Hreach.
    induction Hreach as [|c ev st Hreach IH Hok Hev|c st Hreach IH Hok].
    + reflexivity.
    + unfold offered in Hev. destruct (render c st); try discriminate Hev;
        destruct ev as [| | |[| |]|]; try discriminate Hev;
        cbn [handle view]; try exact IH; try reflexivity; congruence.
    + unfold editingEffect. destruct (editingSale c); [reflexivity | exact IH].
  - intros c st v Hev Hv. unfold offered in Hev.
    destruct (render c st) as [| |m w] eqn:Hr; try discriminate Hev.
    assert (Hsplash : showSplash st = false).
    { unfold render in Hr. destruct (loading c); [discriminate Hr|].
      destruct (showSplash st); [discriminate Hr | reflexivity]. }
    split; [destruct v; [congruence | exact Hev | exact Hev]|].
    intros c' Hu Hl. unfold render. cbn [handle showSplash menuOpen view].
    rewrite Hl, Hsplash. cbn [orb].
    destruct (user c'); [reflexivity | congruence].
  - intros c st m v Hr. unfold render in Hr.
    destruct (loading c || showSplash st); [discriminate Hr|].
    destruct (user c); [|discriminate Hr]. congruence.
Qed.

End ViewFacts.

(** ** What the user is told of a write *)
Section ToastFacts.
Import AppContext SalesForm AdminActions.

(** The toasts do not tell whether a write went through.  A submit of a
    valid form pushes its success toast and resets the form whatever the
    store answers: after a refused update the store is unchanged and
    carries the error, yet the toast reads "Sale updated" and the edit is
    closed; a sale submitted while nobody is signed in is not stored, yet
    the toast reads "Sale recorded".  A confirmed delete that the store
    refuses leaves the sale in place under the toast "Record deleted". *)
Theorem success_toast_whatever_the_store_answers
    (products : list Product) (editingSale : option Sale.t) (now : Clock)
    (newId : string) (serverTime : JSDate.t) (f : Form) (s : Store) :
  isValid f = true ->
  let out accepted :=
    handleSubmitAll products editingSale now newId serverTime accepted f s in
  (forall accepted,
     toasts (out accepted) = toasts (out true)
     /\ (toasts (out accepted) = [("Sale updated", "success")]
         \/ toasts (out accepted) = [("Sale recorded", "success")])
     /\ form (out accepted) = mkForm "" "" 0 "" false)
  /\ (forall e,
        editingSale = Some e -> Sale.id e <> "" ->
        toasts (out false) = [("Sale updated", "success")]
        /\ SalesForm.editingSale (out false) = None
        /\ sales (store (out false)) = sales s
        /\ lastError (store (out false)) = Some "Failed to update sale")
  /\ (editingSale = None -> currentUser s = None ->
      forall accepted,
        toasts (out accepted) = [("Sale recorded", "success")]
        /\ sales (store (out accepted)) = sales s
        /\ lastError (store (out accepted)) = Some "User not authenticated")
  /\ (forall sale,
        let deleted := handleDeleteClick true false sale s in
        snd deleted
        = [("Delete this record permanently?", "info");
           ("Record deleted", "success")]
        /\ sales (fst deleted) = sales s
        /\ lastError (fst deleted) = Some "Failed to delete sale").
Proof.
  intros Hvalid. cbv zeta.
  assert (Hcall : forall accepted,
            handleSubmitAll products editingSale now newId serverTime accepted f s
            = match handleSubmit products editingSale f with
              | NoCall => mkSubmitted s (mkForm (product f) (flavor f) (unit f)
                                           (paymentMode f) true) editingSale []
              | CallUpdateSale id updates =>
                  mkSubmitted (updateSale accepted id updates s)
                    (mkForm "" "" 0 "" false) None [("Sale updated", "success")]
              | CallAddSale sale =>
                  mkSubmitted (addSale now newId serverTime accepted sale s)
                    (mkForm "" "" 0 "" false) editingSale
                    [("Sale recorded", "success")]
              end) by reflexivity.
  assert (Hsome : handleSubmit products editingSale f <> NoCall).
  { unfold handleSubmit. rewrite Hvalid. cbn [negb].
    destruct editingSale as [e|]; [destruct (JS.truthy (Sale.id e))|]; discriminate. }
  split; [|split; [|split]].
  - intros accepted. rewrite !Hcall.
    destruct (handleSubmit products editingSale f); [congruence| |];
      cbn [toasts form]; auto.
  - intros e -> Hid. rewrite Hcall. unfold handleSubmit. rewrite Hvalid.
    cbn [negb]. replace (JS.truthy (Sale.id e)) with true
      by (destruct (Sale.id e); [congruence | reflexivity]).
    cbn [toasts SalesForm.editingSale store]. unfold updateSale.
    destruct (sales s !! Sale.id e); repeat split; reflexivity.
  - intros -> Huser accepted. rewrite Hcall. unfold handleSubmit.
    rewrite Hvalid. cbn [negb toasts store]. unfold addSale. rewrite Huser.
    repeat split; reflexivity.
  - intros sale. repeat split; reflexivity.
Qed.

End ToastFacts.

Section ToastWitness.
Import AppContext SalesForm Samples.

Lemma success_toast_whatever_the_store_answers_witness :
  let out :=
    handleSubmitAll FALLBACK_PRODUCTS None noon "s1" march5th false mangoes
      emptyStore in
  toasts out = [("Sale recorded", "success")]
  /\ form out = mkForm "" "" 0 "" false
  /\ sales (store out) = ∅
  /\ lastError (store out) = Some "Failed to save sale".
Proof.
  cbv zeta.
  destruct (success_toast_whatever_the_store_answers FALLBACK_PRODUCTS None noon
              "s1" march5th mangoes emptyStore eq_refl)
    as (Hany & _).
  destruct (Hany false) as (Htoast & _ & Hform).
  split; [rewrite Htoast; reflexivity|]. split; [exact Hform|].
  split; reflexivity.
Defined.

End ToastWitness.
(** ** The products screen *)
Section ProductsFacts.
Import ProductsAdmin.
Variable trim : string -> string.
Variable slug : string -> string.
Variable parseFloat : string -> float.
Variable docsOf : gmap string Doc -> list (string * Doc).

Lemma seedDocs_dom ans defaults :
  forall catalog : gmap string Doc,
    dom catalog ⊆ dom (seedDocs ans defaults catalog).1.
Proof.
  induction defaults as [|[id d] rest IH]; intros catalog; cbn [seedDocs fst].
  - reflexivity.
  - destruct (accepted ans id); [|reflexivity].
    etransitivity; [|apply IH]. apply dom_insert_subseteq.
Qed.

Lemma loadProducts_dom ans st (catalog : gmap string Doc) :
  dom catalog ⊆ dom (loadProducts docsOf ans st catalog).2.
Proof.
  unfold loadProducts. destruct (getDocsFails ans); [reflexivity|].
  destruct (docsOf catalog) as [|doc rest].
  - unfold seedDefaultProducts.
    pose proof (seedDocs_dom ans DEFAULT_PRODUCTS catalog) as Hdom.
    destruct (seedDocs ans DEFAULT_PRODUCTS catalog) as [catalog' ok].
    destruct ok; [destruct (newProducts _ _)|]; exact Hdom.
  - destruct (newProducts _ _). reflexivity.
Qed.

(** Nothing on the products screen takes a product out of the catalog.
    Whatever the store answers, every product the catalog holds before a
    handler runs it holds after; and the two delete handlers change
    neither the catalog nor the products shown: they hand their work to
    [pushConfirm] as callbacks it does not take, so all they do is push
    the confirm toast. *)
Theorem products_screen_never_removes
    (ans : Answers) (ev : Event) (st : State) (catalog : gmap string Doc) :
  let result := handle trim slug parseFloat docsOf ans ev st catalog in
  dom catalog ⊆ dom result.2
  /\ match ev with
     | DeleteProduct _ | DeleteFlavor _ _ =>
         result.2 = catalog
         /\ exists msg, result.1 = push (Confirm msg) st
     | _ => True
     end.
Proof.
  cbv zeta. destruct ev as [| |productId| |productId flavorIndex newPrice
                           |productId flavorIndex]; cbn [handle].
  - split; [apply loadProducts_dom | exact I].
  - split; [|exact I]. unfold addProduct.
    destruct (negb (JS.truthy (trim (newProductName st)))); [reflexivity|].
    destruct (accepted ans (slug (newProductName st))); [|reflexivity].
    pose proof (loadProducts_dom ans (setNewProductName "" st)
                  (<[slug (newProductName st) := mkDoc (newProductName st) []]> catalog))
      as Hdom.
    destruct (loadProducts _ _ _ _) as [st' catalog']. cbn [snd] in *.
    etransitivity; [|exact Hdom]. apply dom_insert_subseteq.
  - split; [reflexivity|]. split; [reflexivity|]. eexists. reflexivity.
  - split; [|exact I]. unfold addFlavor.
    destruct (_ || _); [reflexivity|].
    destruct (findProduct _ st) as [product|]; [|reflexivity].
    destruct (catalog !! selectedProductId st) as [d|]; [|reflexivity].
    destruct (accepted ans (selectedProductId st)); [|reflexivity].
    match goal with
    | |- context [loadProducts docsOf ans ?s ?c] =>
        pose proof (loadProducts_dom ans s c) as Hdom;
        destruct (loadProducts docsOf ans s c) as [st' catalog']
    end.
    cbn [snd] in *. etransitivity; [|exact Hdom]. apply dom_insert_subseteq.
  - split; [|exact I]. unfold updateFlavorPrice.
    destruct (_ || _); [reflexivity|].
    destruct (findProduct _ st) as [product|]; [|reflexivity].
    destruct (flavors product !! flavorIndex) as [a|]; [|reflexivity].
    destruct (heap st !! a) as [object|]; [|reflexivity].
    cbv zeta. destruct (catalog !! productId) as [d|]; [|reflexivity].
    destruct (accepted ans productId); [|reflexivity].
    cbn [snd]. apply dom_insert_subseteq.
  - split; [reflexivity|]. split; [reflexivity|]. eexists. reflexivity.
Qed.

Lemma lookup_fresh_objects (mid : list Flavor) :
  forall pre post : list Flavor,
    omap (fun a => (pre ++ mid ++ post)%list !! a) (seq (length pre) (length mid))
    = mid.
Proof.
  induction mid as [|x mid IH]; intros pre post; [reflexivity|].
  cbn [length seq]. 
  assert (Hx : (pre ++ (x :: mid) ++ post)%list !! length pre = Some x)
    by (apply list_lookup_middle; reflexivity).
  cbn [omap list_omap]. rewrite Hx. f_equal.
  specialize (IH (pre ++ [x])%list post).
  rewrite length_app, Nat.add_1_r, <- app_assoc in IH. exact IH.
Qed.

Lemma newProducts_heap docs :
  forall objects,
    exists more, (newProducts docs objects).2 = (objects ++ more)%list.
Proof.
  induction docs as [|[id d] rest IH]; intros objects; cbn [newProducts].
  - exists []. cbn. rewrite app_nil_r. reflexivity.
  - destruct (IH (objects ++ docFlavors d)%list) as (more & Hmore).
    destruct (newProducts rest (objects ++ docFlavors d)%list) as [ps objects'].
    cbn [snd] in *. exists (docFlavors d ++ more)%list.
    rewrite Hmore, app_assoc. reflexivity.
Qed.

(** Products made of documents show as those documents. *)
Lemma newProducts_shown docs :
  forall objects,
    List.map
      (fun p => (productId p,
                 mkDoc (productName p)
                   (flavorsOf (newProducts docs objects).2 p)))
      (newProducts docs objects).1
    = docs.
Proof.
  induction docs as [|[id d] rest IH]; intros objects; cbn [newProducts];
    [reflexivity|].
  specialize (IH (objects ++ docFlavors d)%list).
  destruct (newProducts_heap rest (objects ++ docFlavors d)%list)
    as (more & Hmore).
  destruct (newProducts rest (objects ++ docFlavors d)%list) as [ps objects'].
  cbn [fst snd List.map] in *. rewrite IH. f_equal.
  unfold flavorsOf. cbn [flavors productId productName].
  rewrite Hmore, <- app_assoc, lookup_fresh_objects. destruct d; reflexivity.
Qed.

Lemma load_seen (ans : Answers) (st : State) (catalog : gmap string Doc) :
  getDocsFails ans = None -> docsOf catalog <> [] ->
  (loadProducts docsOf ans st catalog).2 = catalog
  /\ shown (loadProducts docsOf ans st catalog).1 = docsOf catalog.
Proof.
  intros Hread Hne. unfold loadProducts. rewrite Hread.
  destruct (docsOf catalog) as [|doc rest] eqn:Hdocs; [congruence|].
  pose proof (newProducts_shown (doc :: rest)
                (heap (setError None (setLoading true st)))) as Hshown.
  destruct (newProducts (doc :: rest) _) as [ps objects].
  cbn [fst snd] in *. split; [reflexivity | exact Hshown].
Qed.


(** Creating a product whose id the catalog already holds empties it.
    The id is computed from the name alone; an accepted [addProduct]
    writes the name and an empty list of flavors under it, whatever was
    there, and touches no other document. *)
Theorem add_product_again_erases_flavors
    (ans : Answers) (st : State) (catalog : gmap string Doc) :
  (forall c, Permutation (docsOf c) (map_to_list c)) ->
  JS.truthy (trim (newProductName st)) = true ->
  accepted ans (slug (newProductName st)) = true ->
  let id := slug (newProductName st) in
  let result := addProduct trim slug docsOf ans st catalog in
  result.2 = <[id := mkDoc (newProductName st) []]> catalog
  /\ result.2 !! id = Some (mkDoc (newProductName st) [])
  /\ (forall j, j <> id -> result.2 !! j = catalog !! j)
  /\ (getDocsFails ans = None ->
      In (id, mkDoc (newProductName st) []) (shown result.1)).
Proof.
  intros Hdocs Hname Hok. cbv zeta. unfold addProduct.
  rewrite Hname, Hok. cbn [negb].
  set (id := slug (newProductName st)).
  set (catalog1 := <[id := mkDoc (newProductName st) []]> catalog).
  assert (Hne : docsOf catalog1 <> []).
  { intros Hnil. specialize (Hdocs catalog1). rewrite Hnil in Hdocs.
    apply Permutation_nil in Hdocs. apply map_to_list_empty_iff in Hdocs.
    apply (f_equal (fun m : gmap string Doc => m !! id)) in Hdocs.
    unfold catalog1 in Hdocs. rewrite lookup_insert_eq, lookup_empty in Hdocs.
    discriminate. }
  assert (Hload : (loadProducts docsOf ans (setNewProductName "" st) catalog1).2
                  = catalog1).
  { unfold loadProducts. destruct (getDocsFails ans); [reflexivity|].
    destruct (docsOf catalog1); [congruence|].
    destruct (newProducts _ _). reflexivity. }
  assert (Hshown : getDocsFails ans = None ->
            shown (loadProducts docsOf ans (setNewProductName "" st) catalog1).1
            = docsOf catalog1).
  { intros Hread.
    destruct (load_seen ans (setNewProductName "" st) catalog1 Hread Hne)
      as [_ H]. exact H. }
  destruct (loadProducts docsOf ans (setNewProductName "" st) catalog1)
    as [st' catalog'].
  cbn [fst snd] in *. subst catalog'.
  split; [reflexivity|]. split; [apply lookup_insert_eq|].
  split; [intros j Hj; apply lookup_insert_ne; congruence|].
  intros Hread. change (shown (pushToast _ _ st')) with (shown st').
  rewrite (Hshown Hread). apply list_elem_of_In. rewrite (Hdocs catalog1).
  apply elem_of_map_to_list, lookup_insert_eq.
Qed.

(** A price update changes the flavor object of the list itself, before
    the store is asked.  With a price the validation lets through and a
    flavor that exists, a write the store refuses (or a document it does
    not hold) leaves the catalog as it was and reports the failure, but
    the list of the screen now reads the new price for that flavor.  An
    accepted write stores the flavors as the list reads them.  A price
    that is empty, not a number or not above zero changes nothing but the
    error. *)
Theorem refused_price_update_still_shows
    (ans : Answers) (productId : string) (flavorIndex : nat)
    (newPrice : string) (st : State) (catalog : gmap string Doc)
    (product : Product) (a : nat) (object : Flavor) :
  findProduct productId st = Some product ->
  flavors product !! flavorIndex = Some a ->
  heap st !! a = Some object ->
  let price := parseFloat newPrice in
  let valid :=
    JS.truthy newPrice && negb (PrimFloat.is_nan price)
    && negb (PrimFloat.leb price 0) in
  let result := updateFlavorPrice parseFloat ans productId flavorIndex newPrice
                  st catalog in
  (valid = false ->
   result = (setError (Some "Price must be a positive number") st, catalog))
  /\ (valid = true ->
      heap result.1 !! a = Some (mkFlavor (flavorName object) price)
      /\ (accepted ans productId = false \/ catalog !! productId = None ->
          result.2 = catalog
          /\ products result.1 = products st
          /\ error result.1 = Some "Failed to update price")
      /\ (forall d,
            accepted ans productId = true -> catalog !! productId = Some d ->
            result.2
            = <[productId := mkDoc (docName d) (flavorsOf (heap result.1) product)]>
                catalog
            /\ error result.1 = None
            /\ editingKey result.1 = None)).
Proof.
  intros Hfind Hidx Hobj. cbv zeta. unfold updateFlavorPrice.
  destruct (JS.truthy newPrice); cbn [negb andb orb];
    [|split; [reflexivity | discriminate]].
  destruct (PrimFloat.is_nan (parseFloat newPrice)); cbn [negb andb orb];
    [split; [reflexivity | discriminate]|].
  destruct (PrimFloat.leb (parseFloat newPrice) 0); cbn [negb andb orb];
    [split; [reflexivity | discriminate]|].
  split; [discriminate|]. intros _.
  rewrite Hfind, Hidx, Hobj. cbv zeta.
  assert (Hnew : <[a := mkFlavor (flavorName object) (parseFloat newPrice)]> (heap st) !! a
                 = Some (mkFlavor (flavorName object) (parseFloat newPrice))).
  { apply list_lookup_insert_eq. apply lookup_lt_Some in Hobj. exact Hobj. }
  destruct (catalog !! productId) as [d|] eqn:Hdoc.
  - destruct (accepted ans productId) eqn:Hok.
    + split; [exact Hnew|]. split; [intros [H|H]; discriminate H|].
      intros d' _ Hd'. injection Hd' as <-. repeat split; reflexivity.
    + split; [exact Hnew|]. split; [intros _; repeat split; reflexivity|].
      intros d' H. discriminate H.
  - split; [exact Hnew|]. split; [intros _; repeat split; reflexivity|].
    intros d' _ H. discriminate H.
Qed.

End ProductsFacts.

Section ProductsWitness.
Import ProductsAdmin Samples.


Lemma add_product_again_erases_flavors_witness :
  let seeded := loadProducts sampleDocs acceptAll freshScreen ∅ in
  (addProduct sampleTrim (fun _ => "yoghurt") sampleDocs acceptAll
     (setNewProductName "Yoghurt" seeded.1) seeded.2).2 !! "yoghurt"
  = Some (mkDoc "Yoghurt" []).
Proof.
  cbv zeta.
  destruct (add_product_again_erases_flavors sampleTrim
              (fun _ => "yoghurt") sampleDocs acceptAll
              (setNewProductName "Yoghurt"
                 (loadProducts sampleDocs acceptAll freshScreen ∅).1)
              (loadProducts sampleDocs acceptAll freshScreen ∅).2)
    as (_ & Hid & _).
  - intros c. reflexivity.
  - reflexivity.
  - reflexivity.
  - exact Hid.
Defined.

Lemma refused_price_update_still_shows_witness :
  let seeded := loadProducts sampleDocs acceptAll freshScreen ∅ in
  let result :=
    updateFlavorPrice sampleParseFloat refuseAll "yoghurt" 0 "900" seeded.1
      seeded.2 in
  result.2 = seeded.2
  /\ heap result.1 !! 0%nat = Some (mkFlavor "Plain" 900).
Proof.
  cbv zeta.
  destruct (refused_price_update_still_shows sampleParseFloat refuseAll
              "yoghurt" 0 "900"
              (loadProducts sampleDocs acceptAll freshScreen ∅).1
              (loadProducts sampleDocs acceptAll freshScreen ∅).2
              (mkProduct "yoghurt" "Yoghurt" [0; 1; 2]%nat) 0%nat
              (mkFlavor "Plain" 850))
    as (_ & Hvalid); [vm_compute; reflexivity ..|].
  destruct (Hvalid eq_refl) as (Hheap & Hrefused & _).
  destruct (Hrefused (or_introl eq_refl)) as (Hsame & _).
  split; [exact Hsame | exact Hheap].
Defined.

End ProductsWitness.

(** ** Reading the export back *)
Section CsvFileFacts.
Import AdminDashboard CsvRead.
Variable localeCompare : string -> string -> Z.

Lemma append_cons (x : ascii) (a b : string) : String x a ++ b = String x (a ++ b).
Proof. reflexivity. Qed.

Lemma append_assoc (a b c : string) : (a ++ b) ++ c = a ++ (b ++ c).
Proof.
  induction a as [|x a IH]; [reflexivity|].
  rewrite !append_cons, IH. reflexivity.
Qed.

Lemma snoc_app s c t : snoc s c ++ t = s ++ String c t.
Proof. unfold snoc. rewrite append_assoc. reflexivity. Qed.

Lemma append_empty_r (s : string) : s ++ "" = s.
Proof.
  induction s as [|c s IH]; [reflexivity|]. rewrite append_cons, IH. reflexivity.
Qed.

(** Inside the quotes: the escaped text is read as the text. *)
Lemma parse_quoted content :
  forall field row rows rest,
    parse Quoted field row rows (doubleQuotes content ++ String JS.dquote rest)
    = parse QuoteSeen (field ++ content) row rows rest.
Proof.
  induction content as [|c content IH]; intros field row rows rest.
  - change (doubleQuotes "" ++ String JS.dquote rest) with (String JS.dquote rest).
    cbn [parse]. rewrite Ascii.eqb_refl, append_empty_r. reflexivity.
  - cbn [doubleQuotes]. destruct (Ascii.eqb c JS.dquote) eqn:E.
    + apply Ascii.eqb_eq in E. subst c.
      rewrite !append_cons. cbn [parse]. rewrite !Ascii.eqb_refl.
      rewrite IH, snoc_app. reflexivity.
    + rewrite append_cons. cbn [parse]. rewrite E, IH, snoc_app. reflexivity.
Qed.

Lemma parse_cell v row rows rest :
  parse FieldStart "" row rows (esc v ++ rest)
  = parse QuoteSeen (fieldText v) row rows rest.
Proof.
  unfold esc. rewrite append_cons. cbn [parse]. rewrite Ascii.eqb_refl.
  rewrite append_assoc, append_cons.
  change ("" ++ rest) with rest.
  apply (parse_quoted (fieldText v) "").
Qed.

(** A row of escaped cells is read as its texts, up to the end of the
    text or to a line feed. *)
Lemma parse_row (fields : list Field) :
  fields <> [] ->
  forall row rows,
    parse FieldStart "" row rows (JS.join "," (List.map esc fields))
    = Some (rows ++ [row ++ List.map fieldText fields])%list
    /\ forall more,
         parse FieldStart "" row rows
           (JS.join "," (List.map esc fields) ++ String lineFeed more)
         = parse FieldStart "" [] (rows ++ [row ++ List.map fieldText fields])%list
             more.
Proof.
  induction fields as [|v fields IH]; intros Hne row rows; [congruence|].
  destruct fields as [|w fields].
  - cbn [List.map JS.join]. split.
    + rewrite <- (append_empty_r (esc v)), parse_cell. reflexivity.
    + intros more. rewrite parse_cell. reflexivity.
  - assert (Hjoin : JS.join "," (List.map esc (v :: w :: fields))
                    = esc v ++ String "," (JS.join "," (List.map esc (w :: fields))))
      by reflexivity.
    rewrite Hjoin.
    destruct (IH ltac:(discriminate) (row ++ [fieldText v])%list rows)
      as [IHend IHmore].
    split.
    + rewrite parse_cell. cbn [parse]. cbn [Ascii.eqb Bool.eqb JS.dquote ascii_of_nat
                                              ascii_of_pos andb].
      change (Ascii.eqb "," JS.dquote) with false. cbn iota.
      rewrite IHend. cbn [List.map]. rewrite <- app_assoc. reflexivity.
    + intros more. rewrite append_assoc, parse_cell, append_cons. cbn [parse].
      change (Ascii.eqb "," JS.dquote) with false.
      change (Ascii.eqb "," ",") with true. cbn iota.
      rewrite IHmore. cbn [List.map]. rewrite <- app_assoc. reflexivity.
Qed.

Lemma parse_rows (rs : list Sale.t) :
  rs <> [] ->
  forall rows,
    parse FieldStart "" [] rows (JS.join newline (List.map line rs))
    = Some (rows ++ List.map cells rs)%list.
Proof.
  induction rs as [|r rs IH]; intros Hne rows; [congruence|].
  assert (Hfields : rowFields r <> []) by discriminate.
  destruct rs as [|r2 rs].
  - cbn [List.map JS.join]. unfold line.
    destruct (parse_row (rowFields r) Hfields [] rows) as [-> _]. reflexivity.
  - assert (Hjoin : JS.join newline (List.map line (r :: r2 :: rs))
                    = line r ++ String lineFeed
                        (JS.join newline (List.map line (r2 :: rs))))
      by reflexivity.
    rewrite Hjoin. unfold line at 1.
    destruct (parse_row (rowFields r) Hfields [] rows) as [_ ->].
    rewrite IH by discriminate. cbn [List.map app]. rewrite <- app_assoc.
    reflexivity.
Qed.

Lemma isPlain_cases c :
  isPlain c = true ->
  Ascii.eqb c JS.dquote = false /\ Ascii.eqb c "," = false
  /\ Ascii.eqb c lineFeed = false.
Proof.
  unfold isPlain. intros H.
  apply andb_prop in H. destruct H as [H H3].
  apply andb_prop in H. destruct H as [H1 H2].
  apply negb_true_iff in H1, H2, H3. auto.
Qed.

Lemma parse_bare w :
  allPlain w = true ->
  forall field row rows rest,
    parse Bare field row rows (w ++ rest) = parse Bare (field ++ w) row rows rest.
Proof.
  induction w as [|c w IH]; intros Hw field row rows rest.
  - rewrite append_empty_r. reflexivity.
  - cbn [allPlain] in Hw. apply andb_prop in Hw. destruct Hw as [Hc Hw].
    destruct (isPlain_cases c Hc) as (H1 & H2 & H3).
    rewrite append_cons. cbn [parse]. rewrite H1, H2, H3, (IH Hw), snoc_app.
    reflexivity.
Qed.

Lemma parse_word w row rows rest :
  plainWord w = true ->
  parse FieldStart "" row rows (w ++ rest) = parse Bare w row rows rest.
Proof.
  unfold plainWord. intros H. apply andb_prop in H. destruct H as [Hne Hw].
  destruct w as [|c w]; [discriminate Hne|].
  cbn [allPlain] in Hw. apply andb_prop in Hw. destruct Hw as [Hc Hw].
  destruct (isPlain_cases c Hc) as (H1 & H2 & H3).
  rewrite append_cons. cbn [parse]. rewrite H1, H2, H3.
  apply (parse_bare w Hw (String c "")).
Qed.

(** A row of plain words is read as those words. *)
Lemma parse_words (words : list string) :
  words <> [] -> forallb plainWord words = true ->
  forall row rows more,
    parse FieldStart "" row rows (JS.join "," words ++ String lineFeed more)
    = parse FieldStart "" [] (rows ++ [row ++ words])%list more.
Proof.
  induction words as [|w words IH]; intros Hne Hall row rows more; [congruence|].
  cbn [forallb] in Hall. apply andb_prop in Hall. destruct Hall as [Hw Hall].
  destruct words as [|w2 words].
  - cbn [JS.join]. rewrite (parse_word w _ _ _ Hw). cbn [parse].
    change (Ascii.eqb lineFeed JS.dquote) with false.
    change (Ascii.eqb lineFeed ",") with false.
    change (Ascii.eqb lineFeed lineFeed) with true. reflexivity.
  - assert (Hjoin : JS.join "," (w :: w2 :: words)
                    = w ++ String "," (JS.join "," (w2 :: words))) by reflexivity.
    rewrite Hjoin, append_assoc, (parse_word w _ _ _ Hw), append_cons. cbn [parse].
    change (Ascii.eqb "," JS.dquote) with false.
    change (Ascii.eqb "," ",") with true. cbn iota.
    rewrite (IH ltac:(discriminate) Hall). rewrite <- app_assoc. reflexivity.
Qed.

Lemma parse_header more :
  parse FieldStart "" [] [] (JS.join "," header ++ String lineFeed more)
  = parse FieldStart "" [] [header] more.
Proof. apply (parse_words header); [discriminate | reflexivity]. Qed.

(** The exported file reads back as what was exported.  Read as CSV, the
    text is the record of the eleven column names and then one record for
    each sale of the listing, in its order, of eleven fields that are the
    texts of the cells: a comma, a line feed or a double quote inside a
    cell stays in its cell.  There is no file exactly when the listing is
    empty. *)
Theorem export_reads_back (dataset : list Sale.t) (st : State) :
  (forall csv,
     exportCSV localeCompare dataset st = Some csv ->
     readCsv csv
     = Some (header
             :: List.map (fun r => List.map fieldText (rowFields r))
                  (filteredRecent localeCompare dataset st))
     /\ forall records,
          readCsv csv = Some records ->
          Forall (fun record => length record = 11%nat) records)
  /\ (exportCSV localeCompare dataset st = None
      <-> filteredRecent localeCompare dataset st = []).
Proof.
  assert (Hread : forall csv,
            exportCSV localeCompare dataset st = Some csv ->
            readCsv csv
            = Some (header
                    :: List.map (fun r => List.map fieldText (rowFields r))
                         (filteredRecent localeCompare dataset st))).
  { intros csv. unfold exportCSV.
    destruct (filteredRecent localeCompare dataset st) as [|r rs] eqn:E;
      [discriminate|].
    intros H. injection H as <-. unfold readCsv.
    match goal with
    | |- parse _ _ _ _ ?s = _ =>
        change s with (JS.join "," header ++ String lineFeed
                         (JS.join newline (List.map line (r :: rs))))
    end.
    rewrite parse_header, parse_rows by discriminate. reflexivity. }
  split.
  - intros csv Hcsv. split; [exact (Hread csv Hcsv)|].
    intros records. rewrite (Hread csv Hcsv). intros H. injection H as <-.
    constructor; [reflexivity|]. apply Forall_map, Forall_forall.
    intros r _. reflexivity.
  - unfold exportCSV.
    destruct (filteredRecent localeCompare dataset st); split;
      try discriminate; reflexivity.
Qed.

End CsvFileFacts.
Section FlavorFacts.
Import ProductsAdmin.
Variable trim : string -> string.
Variable parseFloat : string -> float.
Variable docsOf : gmap string Doc -> list (string * Doc).

(** Adding a flavor does not look at the price.  With a product chosen
    that the screen lists and the catalog holds, a flavor name that is not
    blank and any price text that is not empty, an accepted [addFlavor]
    writes, under the product, the flavors as the screen lists them
    followed by the new flavor with whatever number [parseFloat] reads:
    also one that is not a number, zero or below, which [updateFlavorPrice]
    would refuse for the same text.  No other document changes, and the
    flavors the store held for the product are not consulted. *)
Theorem add_flavor_stores_any_price
    (ans : Answers) (st : State) (catalog : gmap string Doc)
    (product : Product) (d : Doc) :
  (forall c, Permutation (docsOf c) (map_to_list c)) ->
  JS.truthy (selectedProductId st) = true ->
  JS.truthy (trim (newFlavorName st)) = true ->
  JS.truthy (newFlavorPrice st) = true ->
  findProduct (selectedProductId st) st = Some product ->
  catalog !! selectedProductId st = Some d ->
  accepted ans (selectedProductId st) = true ->
  let id := selectedProductId st in
  let price := parseFloat (newFlavorPrice st) in
  let result := addFlavor trim parseFloat docsOf ans st catalog in
  result.2
  = <[id := mkDoc (docName d)
              (flavorsOf (heap st) product
               ++ [mkFlavor (newFlavorName st) price])]> catalog
  /\ (PrimFloat.is_nan price || PrimFloat.leb price 0 = true ->
      forall ans' flavorIndex st' catalog',
        updateFlavorPrice parseFloat ans' id flavorIndex (newFlavorPrice st)
          st' catalog'
        = (setError (Some "Price must be a positive number") st', catalog')).
Proof.
  intros Hdocs Hid Hname Hprice Hfind Hdoc Hok. cbv zeta. split.
  - unfold addFlavor. rewrite Hid, Hname, Hprice, Hfind, Hdoc, Hok.
    cbn [negb orb].
    set (catalog1 := <[selectedProductId st := _]> catalog).
    assert (Hne : docsOf catalog1 <> []).
    { intros Hnil. specialize (Hdocs catalog1). rewrite Hnil in Hdocs.
      apply Permutation_nil in Hdocs. apply map_to_list_empty_iff in Hdocs.
      apply (f_equal (fun m : gmap string Doc => m !! selectedProductId st))
        in Hdocs.
      unfold catalog1 in Hdocs. rewrite lookup_insert_eq, lookup_empty in Hdocs.
      discriminate. }
    assert (Hload : (loadProducts docsOf ans (clearFlavorForm st) catalog1).2
                    = catalog1).
    { unfold loadProducts. destruct (getDocsFails ans); [reflexivity|].
      destruct (docsOf catalog1); [congruence|].
      destruct (newProducts _ _). reflexivity. }
    destruct (loadProducts docsOf ans (clearFlavorForm st) catalog1)
      as [st' catalog'].
    cbn [snd] in *. exact Hload.
  - intros Hbad ans' flavorIndex st' catalog'. unfold updateFlavorPrice.
    rewrite Hprice. cbn [negb orb]. rewrite Hbad. reflexivity.
Qed.

End FlavorFacts.

Section FlavorWitness.
Import ProductsAdmin Samples.

Lemma add_flavor_stores_any_price_witness :
  let seeded := loadProducts sampleDocs acceptAll freshScreen ∅ in
  let form :=
    mkState (products seeded.1) (heap seeded.1) false None "" "yoghurt"
      "Free" "gratis" None "" [] in
  exists fl,
    option_map (fun d => last (docFlavors d))
      ((addFlavor sampleTrim sampleParseFloat sampleDocs acceptAll form seeded.2).2
       !! "yoghurt")
    = Some (Some fl)
    /\ flavorName fl = "Free"
    /\ PrimFloat.is_nan (flavorPrice fl) = true.
Proof.
  cbv zeta.
  destruct (add_flavor_stores_any_price sampleTrim sampleParseFloat sampleDocs
              acceptAll
              (mkState
                 (products (loadProducts sampleDocs acceptAll freshScreen ∅).1)
                 (heap (loadProducts sampleDocs acceptAll freshScreen ∅).1)
                 false None "" "yoghurt" "Free" "gratis" None "" [])
              (loadProducts sampleDocs acceptAll freshScreen ∅).2
              (mkProduct "yoghurt" "Yoghurt" [0; 1; 2]%nat)
              (mkDoc "Yoghurt"
                 [ mkFlavor "Plain" 850; mkFlavor "Strawberry" 950;
                   mkFlavor "Mango" 970 ]))
    as (Hwritten & _);
    [intros c; reflexivity | vm_compute; reflexivity ..|].
  rewrite Hwritten, lookup_insert_eq.
  exists (mkFlavor "Free" nan). repeat split; vm_compute; reflexivity.
Defined.

End FlavorWitness.
